(** * knn_main.py: multi-k nearest-neighbour evaluation driver

    A shallow embedding of [knn/knn_main.py] (bitmap loader and evaluation
    loop) together with the classifier it drives.  Python integers are [Z],
    Python lists are [list], [str] is [string], [float] is the binary64
    format of the primitive floats, the insertion-ordered [dict] of k
    values is an association list, and a call either returns a value or
    raises an exception. *)

From Stdlib Require Import List ZArith Lia Bool String Ascii.
From Stdlib Require Import Permutation Sorted.
From Stdlib Require Import Floats.PrimFloat Floats.SpecFloat Floats.FloatOps.
Import ListNotations.

Local Open Scope Z_scope.

(** ** Exceptions and results *)

(** The exceptions the driver can meet.  The three error kinds of the
    classifier are carried by [KnnError]; [OSError] stands for the errors
    of [open] on a path that is not a readable file. *)
Inductive knn_error : Type :=
| DimensionMismatch
| InsufficientNeighbors
| EmptyDataset.

Inductive exn : Type :=
| ValueError
| IndexError
| KeyError
| TypeError
| ZeroDivisionError
| OverflowError
| OSError
| UnicodeDecodeError
| KnnError (e : knn_error).

Inductive result (A : Type) : Type :=
| Ok (a : A)
| Raise (e : exn).
Arguments Ok {A} a.
Arguments Raise {A} e.

Definition rbind {A B} (r : result A) (f : A -> result B) : result B :=
  match r with
  | Ok a => f a
  | Raise e => Raise e
  end.

(** ** The bitmap loader *)

Module Loader.

Local Open Scope string_scope.

(** [translate_pixels]: one integer per character of the line. *)
Definition pixel (c : ascii) : Z :=
  if Ascii.eqb c "+" then 1
  else if Ascii.eqb c "#" then 2
  else 0.

Fixpoint translate_pixels (line : string) : list Z :=
  match line with
  | EmptyString => []
  | String c rest => pixel c :: translate_pixels rest
  end.

(** A file system maps a file name to [None] when [os.path.exists] is
    false, and otherwise to what [open(name).readlines()] does: it
    returns the lines of the file, or it raises, as on a directory
    ([OSError]) or on bytes that are not text ([UnicodeDecodeError]). *)
Definition filesystem := string -> option (result (list string)).

(** [l[:-1]]: the string without its last character. *)
Definition drop_last_char (l : string) : string :=
  substring 0 (String.length l - 1) l.

Definition read_lines (fs : filesystem) (filename : string)
  : result (list string) :=
  match fs filename with
  | Some (Ok ls) => Ok (map drop_last_char ls)
  | Some (Raise e) => Raise e
  | None => Raise ValueError
  end.

(** [list.pop()]: removes and returns the last element, and raises
    [IndexError] on an empty list. *)
Definition pop {A} (l : list A) : result (A * list A) :=
  match rev l with
  | [] => Raise IndexError
  | x :: r => Ok (x, rev r)
  end.

(** The body of [for j in range(height)]: the function returns from
    inside the loop, or an exception escapes, or the loop ends with the
    lines left and the pixels gathered. *)
Inductive for_outcome : Type :=
| ReturnItems
| RaiseFor (e : exn)
| EndFor (lines : list string) (data : list Z).

Fixpoint for_range (n : nat) (lines : list string) (data : list Z)
  : for_outcome :=
  match n with
  | O => EndFor lines data
  | S n' =>
      if (Z.of_nat (List.length lines) =? 0)%Z then ReturnItems
      else match pop lines with
           | Raise e => RaiseFor e
           | Ok (line, lines') =>
               for_range n' lines' (data ++ translate_pixels line)
           end
  end.

(** [np.array(items)]: rows of one length make a two-dimensional array,
    kept as the list of its rows; rows of different lengths are refused
    with [ValueError] (numpy 1.24 and later). *)
Definition np_array (items : list (list Z)) : result (list (list Z)) :=
  match items with
  | [] => Ok []
  | row :: rest =>
      if forallb (fun r => (List.length r =? List.length row)%nat) rest
      then Ok items
      else Raise ValueError
  end.

(** [while len(lines) > 0]; the fuel bounds the number of iterations,
    [None] means the fuel ran out. *)
Fixpoint while_lines (fuel : nat) (height : Z) (lines : list string)
  (items : list (list Z)) : option (result (list (list Z))) :=
  match fuel with
  | O => None
  | S fuel' =>
      if (Z.of_nat (List.length lines) >? 0)%Z then
        match for_range (Z.to_nat height) lines [] with
        | ReturnItems => Some (np_array items)
        | RaiseFor e => Some (Raise e)
        | EndFor lines' data =>
            while_lines fuel' height lines' (items ++ [data])
        end
      else Some (np_array items)
  end.

(** [lines.reverse()] and the loop; [width] is not used. *)
Definition load_data_file (fuel : nat) (fs : filesystem)
  (filename : string) (width height : Z)
  : option (result (list (list Z))) :=
  match read_lines fs filename with
  | Raise e => Some (Raise e)
  | Ok lines => while_lines fuel height (rev lines) []
  end.

(** The [i]-th block of [h] consecutive lines, translated. *)
Definition block (h : nat) (lines : list string) (i : nat) : list Z :=
  flat_map translate_pixels (firstn h (skipn (i * h) lines)).

(** [load_labels_file]: the labels up to the first empty line.  [int_of]
    is the built-in [int] on strings. *)
Section Labels.
Variable int_of : string -> result Z.

Fixpoint labels_loop (lines : list string) (labels : list Z)
  : result (list Z) :=
  match lines with
  | [] => Ok labels
  | line :: rest =>
      match line with
      | EmptyString => Ok labels
      | String _ _ =>
          match int_of line with
          | Ok n => labels_loop rest (labels ++ [n])
          | Raise e => Raise e
          end
      end
  end.

Definition load_labels_file (fs : filesystem) (filename : string)
  : result (list Z) :=
  rbind (read_lines fs filename) (fun lines => labels_loop lines []).
End Labels.

(** *** Text files

    [open(filename)] reads in text mode with universal newlines: a
    carriage return, alone or before a line feed, is read as a line feed;
    [readlines] then cuts the text after every line feed. *)
Definition LF : ascii := "010"%char.
Definition CR : ascii := "013"%char.

Fixpoint universal_newlines (s : string) : string :=
  match s with
  | EmptyString => EmptyString
  | String c rest =>
      if Ascii.eqb c CR then
        match rest with
        | String c' rest' =>
            if Ascii.eqb c' LF then String LF (universal_newlines rest')
            else String LF (universal_newlines rest)
        | EmptyString => String LF EmptyString
        end
      else String c (universal_newlines rest)
  end.

Fixpoint cut_lines (s : string) : list string :=
  match s with
  | EmptyString => []
  | String c rest =>
      if Ascii.eqb c LF then String LF EmptyString :: cut_lines rest
      else match cut_lines rest with
           | [] => [String c EmptyString]
           | l :: ls => String c l :: ls
           end
  end.

Definition readlines (content : string) : list string :=
  cut_lines (universal_newlines content).

(** A disk of text files maps a file name to the content of the file,
    if it exists. *)
Definition disk := string -> option string.

Definition mount (d : disk) : filesystem :=
  fun filename =>
    option_map (fun content => Ok (readlines content)) (d filename).

(** A line without line feed or carriage return. *)
Fixpoint plain (l : string) : bool :=
  match l with
  | EmptyString => true
  | String c rest =>
      negb (Ascii.eqb c LF) && negb (Ascii.eqb c CR) && plain rest
  end.

(** The text whose lines are [ls], each ended by a line feed. *)
Fixpoint text (ls : list string) : string :=
  match ls with
  | [] => EmptyString
  | l :: ls' => l ++ String LF (text ls')
  end.

End Loader.

(** ** Stable sorting

    [list.sort] and the ranking of neighbours are stable; insertion from
    the right, an element going in before the first one it is not above,
    keeps equal elements in their original order. *)

Section StableSort.
Context {A : Type} (leb : A -> A -> bool).

Fixpoint insert_by (x : A) (l : list A) : list A :=
  match l with
  | [] => [x]
  | y :: l' => if leb x y then x :: y :: l' else y :: insert_by x l'
  end.

Fixpoint stable_sort (l : list A) : list A :=
  match l with
  | [] => []
  | x :: l' => insert_by x (stable_sort l')
  end.
End StableSort.

(** Ascending comparison of sort keys. *)
Definition by_key {A : Type} (key : A -> Z) (a b : A) : bool :=
  key a <=? key b.

(** ** The insertion-ordered dictionary of k values *)

Module PyDict.

(** [k -> counter] in insertion order; keys are unique in every
    dictionary built with [set] from the empty one. *)
Definition dict := list (Z * Z).

Fixpoint get (d : dict) (k : Z) : option Z :=
  match d with
  | [] => None
  | (k', v) :: d' => if k' =? k then Some v else get d' k
  end.

(** [d[k] = v]: an existing key keeps its place, a new one goes last. *)
Fixpoint set (d : dict) (k v : Z) : dict :=
  match d with
  | [] => [(k, v)]
  | (k', v') :: d' =>
      if k' =? k then (k', v) :: d' else (k', v') :: set d' k v
  end.

Definition fromkeys (ks : list Z) (v : Z) : dict :=
  fold_left (fun d k => set d k v) ks [].

(** Iterating a dictionary yields its keys in insertion order. *)
Definition keys (d : dict) : list Z := map fst d.

(** Every counter of the dictionary is [v]. *)
Definition all_values (v : Z) (d : dict) : Prop :=
  forall k c, get d k = Some c -> c = v.

(** [d[k]] raises [KeyError] on a missing key. *)
Definition getitem (d : dict) (k : Z) : result Z :=
  match get d k with
  | Some v => Ok v
  | None => Raise KeyError
  end.

End PyDict.

(** ** Python built-ins on lists *)

(** [l[idx]] for [idx >= 0]. *)
Definition index {A} (l : list A) (idx : nat) : result A :=
  match nth_error l idx with
  | Some x => Ok x
  | None => Raise IndexError
  end.

(** [l[-1]]. *)
Definition index_last {A} (l : list A) : result A :=
  match rev l with
  | x :: _ => Ok x
  | [] => Raise IndexError
  end.

(** [max(l, key=key)]: the first element whose key is not exceeded by any
    other; [ValueError] on an empty sequence.  A key of [None] cannot be
    compared. *)
Fixpoint max_loop (key : Z -> option Z) (best best_key : Z) (l : list Z)
  : result Z :=
  match l with
  | [] => Ok best
  | x :: l' =>
      match key x with
      | None => Raise TypeError
      | Some kx =>
          if kx >? best_key then max_loop key x kx l'
          else max_loop key best best_key l'
      end
  end.

Definition py_max (key : Z -> option Z) (l : list Z) : result Z :=
  match l with
  | [] => Raise ValueError
  | x :: l' =>
      match key x with
      | None => Raise TypeError
      | Some kx => max_loop key x kx l'
      end
  end.

(** ** The classifier [knn.KNN]

    The module [knn] is imported by the driver; its contract is the one of
    the DistanceEngine, the NeighborRanker and the MultiKClassifier. *)

Module KNN.

(** Modelled from the spec: a LabeledExample, a feature vector and its
    class label (module [knn] is missing). *)
Definition example : Type := list Z * Z.

(** Modelled from the spec: the body of the DistanceEngine (module
    [knn] is missing).  Sum of squared per-pixel differences. *)
Fixpoint sum_sq (query reference : list Z) : Z :=
  match query, reference with
  | x :: q, y :: r => (x - y) * (x - y) + sum_sq q r
  | _, _ => 0
  end.

(** Modelled from the spec: [distance] of the DistanceEngine (module
    [knn] is missing); vectors of different lengths fail with
    [DimensionMismatch]. *)
Definition distance (query reference : list Z) : result Z :=
  if (List.length query =? List.length reference)%nat
  then Ok (sum_sq query reference)
  else Raise (KnnError DimensionMismatch).

(** Modelled from the spec: the (distance, label) entry of every
    training example, in the order of the Dataset (module [knn] is
    missing). *)
Fixpoint entries (query : list Z) (training : list example)
  : result (list (Z * Z)) :=
  match training with
  | [] => Ok []
  | (v, l) :: rest =>
      rbind (distance query v) (fun d =>
      rbind (entries query rest) (fun es => Ok ((d, l) :: es)))
  end.

(** Modelled from the spec: [rank] of the NeighborRanker (module [knn]
    is missing); one entry per training example, ascending by distance,
    stable. *)
Definition rank (query : list Z) (training : list example)
  : result (list (Z * Z)) :=
  rbind (entries query training) (fun es =>
  Ok (stable_sort (by_key fst) es)).

(** Modelled from the spec: the labels of the first [k] entries of the
    ranking (module [knn] is missing). *)
Definition nearest (ranked : list (Z * Z)) (k : Z) : list Z :=
  map snd (firstn (Z.to_nat k) ranked).

(** Modelled from the spec: the vote count of a label, and the highest
    vote count (module [knn] is missing). *)
Definition votes (labels : list Z) (l : Z) : Z :=
  Z.of_nat (count_occ Z.eq_dec labels l).

Definition max_votes (labels : list Z) : Z :=
  fold_right Z.max 0 (map (votes labels) labels).

(** Modelled from the spec: the vote of the MultiKClassifier for one k
    (module [knn] is missing); scan the neighbours in ascending distance
    and return the first label whose count equals the maximum. *)
Definition vote (ranked : list (Z * Z)) (k : Z) : result Z :=
  let labels := nearest ranked k in
  match find (fun l => votes labels l =? max_votes labels) labels with
  | Some l => Ok l
  | None => Raise (KnnError InsufficientNeighbors)
  end.

(** Modelled from the spec: the precondition on k, at least 1 and at
    most the number of training examples (module [knn] is missing). *)
Definition enough (ranked : list (Z * Z)) (k : Z) : bool :=
  (1 <=? k) && (k <=? Z.of_nat (List.length ranked)).

(** Modelled from the spec: one vote per k, in the order of the k set
    (module [knn] is missing). *)
Fixpoint vote_all (ranked : list (Z * Z)) (ks : list Z)
  : result (list Z) :=
  match ks with
  | [] => Ok []
  | k :: ks' =>
      rbind (vote ranked k) (fun l =>
      rbind (vote_all ranked ks') (fun ls => Ok (l :: ls)))
  end.

(** Modelled from the spec: [classify] of the MultiKClassifier (module
    [knn] is missing); every k is checked before any vote is taken, and
    the predictions come in the iteration order of the k set. *)
Definition classify (ranked : list (Z * Z)) (ks : list Z)
  : result (list Z) :=
  if forallb (enough ranked) ks then vote_all ranked ks
  else Raise (KnnError InsufficientNeighbors).

(** Modelled from the spec: the method [KNN.knn] the driver calls
    (module [knn] is missing); one ranking serves every k, and the
    predictions are listed in the iteration order of [k_vals]. *)
Definition knn (training : list example) (query : list Z)
  (k_vals : PyDict.dict) : result (list Z) :=
  match training with
  | [] => Raise (KnnError EmptyDataset)
  | _ :: _ =>
      rbind (rank query training) (fun ranked =>
      classify ranked (PyDict.keys k_vals))
  end.

End KNN.

(** ** The evaluation driver [main] *)

Module Main.
Import PyDict.

(** A row of a DataFrame: the pixel columns, [row[:-1]], and
    [row['label']]. *)
Record test_row : Type := { pixels : list Z; label : Z }.

(** What the loop asks of pyplot: [plt.subplot(2, 2, num, title=...)]
    with the guess and the true label of the title, and [plt.imshow] of
    an image.  The figure is the list of these calls, oldest first. *)
Inductive drawing : Type :=
| Subplot (num guess actual : Z)
| Image (img : list Z).

(** The objects that live across the rows of the loop: the dictionary
    [k_vals], the two progress counters, the pyplot figure and the two
    DataFrames.  [writes] is the history of the assignments
    [k_vals[k] = ...], by key. *)
Record store : Type :=
  { k_vals : dict; writes : list Z; counter : Z; print_counter : Z;
    figure : list drawing;
    df_train_sample : list test_row; df_test_sample : list test_row }.

(** Computations that read and write the store and may raise; the store
    is kept as it was when the exception left. *)
Definition M (A : Type) : Type := store -> store * result A.

Definition ret {A} (a : A) : M A := fun s => (s, Ok a).

Definition bind {A B} (m : M A) (f : A -> M B) : M B :=
  fun s =>
    match m s with
    | (s', Ok a) => f a s'
    | (s', Raise e) => (s', Raise e)
    end.

Definition lift {A} (r : result A) : M A := fun s => (s, r).

Notation "x <- m ;; f" := (bind m (fun x => f))
  (at level 61, m at next level, right associativity).
Notation "m ;;; f" := (bind m (fun _ => f))
  (at level 61, right associativity).

(** The assignments of the loop, each to one component of the store. *)
Definition put_k_vals (d : dict) (ws : list Z) (s : store) : store :=
  {| k_vals := d; writes := ws; counter := counter s;
     print_counter := print_counter s; figure := figure s;
     df_train_sample := df_train_sample s;
     df_test_sample := df_test_sample s |}.

Definition put_counter (c : Z) (s : store) : store :=
  {| k_vals := k_vals s; writes := writes s; counter := c;
     print_counter := print_counter s; figure := figure s;
     df_train_sample := df_train_sample s;
     df_test_sample := df_test_sample s |}.

Definition put_print_counter (pc : Z) (s : store) : store :=
  {| k_vals := k_vals s; writes := writes s; counter := counter s;
     print_counter := pc; figure := figure s;
     df_train_sample := df_train_sample s;
     df_test_sample := df_test_sample s |}.

Definition put_figure (fig : list drawing) (s : store) : store :=
  {| k_vals := k_vals s; writes := writes s; counter := counter s;
     print_counter := print_counter s; figure := fig;
     df_train_sample := df_train_sample s;
     df_test_sample := df_test_sample s |}.

Definition read_k_vals : M dict := fun s => (s, Ok (k_vals s)).

Definition read_counter : M Z := fun s => (s, Ok (counter s)).

Definition read_figure : M (list drawing) := fun s => (s, Ok (figure s)).

Definition read_train : M (list test_row) :=
  fun s => (s, Ok (df_train_sample s)).

Definition read_test : M (list test_row) :=
  fun s => (s, Ok (df_test_sample s)).

(** [k_vals[k] = v]. *)
Definition setitem (k v : Z) : M unit :=
  fun s => (put_k_vals (set (k_vals s) k v) (writes s ++ [k]) s, Ok tt).

(** [k_vals[k_val] += 1]. *)
Definition increment (k_val : Z) : M unit :=
  kv <- read_k_vals ;;
  v <- lift (getitem kv k_val) ;;
  setitem k_val (v + 1).

(** [float(z)] and the conversion of an [int] operand of a float
    operation: the nearest double, ties to even, and [OverflowError] when
    that is not finite, which is from [2^1024 - 2^970] on. *)
Definition float_limit : Z := 2 ^ 1024 - 2 ^ 970.

Definition to_float (z : Z) : float :=
  SF2Prim (binary_normalize 53 1024 z 0 false).

Definition float_of_int (z : Z) : result float :=
  if Z.abs z <? float_limit then Ok (to_float z) else Raise OverflowError.

(** [c > x] for an [int] and a [float]: the exact values are compared,
    the [int] is not rounded. *)
Definition int_gt_float (c : Z) (x : float) : bool :=
  match Prim2SF x with
  | S754_zero _ => 0 <? c
  | S754_infinity negative => negative
  | S754_nan => false
  | S754_finite negative m e =>
      let v := if negative then Z.neg m else Z.pos m in
      if 0 <=? e then v * 2 ^ e <? c else v <? c * 2 ^ (- e)
  end.

(** The float literals [.95], [.75], [.5] and [.25]: the double nearest
    to the fraction. *)
Definition fraction (num den : Z) : float :=
  PrimFloat.div (to_float num) (to_float den).

(** [counter > n * f], [n] being the number of rows as a float. *)
Definition above (c : Z) (n : float) (f : float) : bool :=
  int_gt_float c (PrimFloat.mul n f).

(** Lines 139-150: the progress messages; only [print_counter] moves.
    The first condition multiplies the number of rows by a float, which
    converts it. *)
Definition progress (n : Z) : M unit :=
  fun s =>
    match float_of_int n with
    | Raise e => (s, Raise e)
    | Ok rows =>
        let c := counter s in
        let pc := print_counter s in
        let pc' :=
          if above c rows (fraction 95 100) && (pc =? 3) then pc + 1
          else if above c rows (fraction 75 100) && (pc =? 2) then pc + 1
          else if above c rows (fraction 5 10) && (pc =? 1) then pc + 1
          else if above c rows (fraction 25 100) && (pc =? 0) then pc + 1
          else pc in
        (put_print_counter pc' s, Ok tt)
    end.

(** [counter += 1]. *)
Definition next_row : M unit :=
  fun s => (put_counter (counter s + 1) s, Ok tt).

(** Lines 88-90 and 96-97: the size of an image of the data set. *)
Definition width (digits : bool) : Z := if digits then 28 else 60.
Definition height (digits : bool) : Z := if digits then 28 else 70.

(** [plt.subplot(2, 2, num, title=...)]: a grid of two by two has the
    positions 1 to 4, every other position is refused with
    [ValueError]. *)
Definition subplot (num guess actual : Z) : M unit :=
  fun s =>
    if (1 <=? num) && (num <=? 4)
    then (put_figure (figure s ++ [Subplot num guess actual]) s, Ok tt)
    else (s, Raise ValueError).

(** [np.asarray(img).reshape(h, w)]: the array must hold [h * w]
    entries. *)
Definition reshape (img : list Z) (h w : Z) : result (list Z) :=
  if Z.of_nat (List.length img) =? h * w then Ok img else Raise ValueError.

(** [plt.imshow(img, cmap="gray")]. *)
Definition imshow (img : list Z) : M unit :=
  fun s => (put_figure (figure s ++ [Image img]) s, Ok tt).

(** Lines 72-80: a blank [-k] (the empty list) gives the default k of
    the data set, otherwise the values are sorted in descending order;
    each k starts with counter 0. *)
Definition parse_k_vals (digits : bool) (kvals : list Z) : dict :=
  let k_vals_in :=
    match kvals with
    | [] => if digits then [1] else [5]
    | _ :: _ => stable_sort (by_key Z.opp) kvals
    end in
  fromkeys k_vals_in 0.

(** The store when the loop starts (lines 123-126): the dictionary of
    line 80, the DataFrames of lines 107-114, an empty figure. *)
Definition initial (kv : dict) (train test : list test_row) : store :=
  {| k_vals := kv; writes := []; counter := 0; print_counter := 0;
     figure := []; df_train_sample := train; df_test_sample := test |}.

(** [float(c) / n * 100] in double precision; a float division by zero
    raises. *)
Definition percentage (c n : Z) : result float :=
  rbind (float_of_int c) (fun fc =>
  rbind (float_of_int n) (fun fn =>
  if n =? 0 then Raise ZeroDivisionError
  else Ok (PrimFloat.mul (PrimFloat.div fc fn) (to_float 100)))).

(** The titles of the subplots of a figure, (guess, actual). *)
Fixpoint titles (fig : list drawing) : list (Z * Z) :=
  match fig with
  | [] => []
  | Subplot _ guess actual :: fig' => (guess, actual) :: titles fig'
  | Image _ :: fig' => titles fig'
  end.

(** The values of lines 156-178: the dictionary and the chosen k (both
    printed when there are several k), the count and the sizes printed,
    the percentage printed and returned, and the titles of the figure
    that [plt.show] displays. *)
Record report : Type :=
  { guesses_by_k : dict; chosen_k : Z; correct : Z; total : Z;
    trained : Z; percent : float; shown : list (Z * Z) }.

(** Lines 132-134: [for idx, k_val in enumerate(k_vals)]. *)
Fixpoint score (predictions : list Z) (actual : Z) (idx : nat)
  (ks : list Z) : M unit :=
  match ks with
  | [] => ret tt
  | k_val :: ks' =>
      p <- lift (index predictions idx) ;;
      (if p =? actual then increment k_val else ret tt) ;;;
      score predictions actual (S idx) ks'
  end.

Section Body.
(** The call [my_knn.knn(test_row[:-1], k_vals)] as a computation: the
    method is handed the dictionary itself and holds the training
    DataFrame, so that it could, for all the driver shows, change what
    it shares with the loop. *)
Variable call : list Z -> dict -> M (list Z).
(** [args.samples] and [dset == 'digits']. *)
Variable samples digits : bool.
(** [df_test_sample.shape[0]]. *)
Variable n : Z.

(** Lines 131-151: one test row.  The keys are iterated after the call
    has returned. *)
Definition loop_body (row : test_row) : M unit :=
  kv <- read_k_vals ;;
  predictions <- call (pixels row) kv ;;
  kv' <- read_k_vals ;;
  score predictions (label row) 0 (keys kv') ;;;
  (if samples then
     guess <- lift (index_last predictions) ;;
     c <- read_counter ;;
     subplot (c + 1) guess (label row) ;;;
     img <- lift (reshape (pixels row) (height digits) (width digits)) ;;
     imshow img
   else progress n) ;;;
  next_row.
End Body.

(** A classifier whose method is a function of the query and of the k
    values, as the classifier of the specification is: the call leaves
    the store as it is. *)
Definition method (knn : list Z -> dict -> result (list Z))
  : list Z -> dict -> M (list Z) :=
  fun query kv => lift (knn query kv).

Section Driver.
(** [my_knn.knn]: the bound method of the classifier that line 118 has
    constructed. *)
Variable knn : list Z -> dict -> result (list Z).
Variable samples digits : bool.
Variable n : Z.

Definition test_step (row : test_row) : M unit :=
  loop_body (method knn) samples digits n row.

(** Line 130: [for i, test_row in df_test_sample.iterrows()]. *)
Fixpoint for_rows (rows : list test_row) : M unit :=
  match rows with
  | [] => ret tt
  | row :: rows' => test_step row ;;; for_rows rows'
  end.
End Driver.

(** Lines 125-178: the loop, the choice of k and the report. *)
Definition main (knn : list Z -> dict -> result (list Z))
  (samples digits : bool) : M report :=
  tests <- read_test ;;
  for_rows knn samples digits (Z.of_nat (List.length tests)) tests ;;;
  kv <- read_k_vals ;;
  selected_k <- lift (py_max (get kv) (keys kv)) ;;
  train <- read_train ;;
  tests' <- read_test ;;
  c <- lift (match get kv selected_k with
             | Some c => Ok c
             | None => Raise TypeError
             end) ;;
  pc <- lift (percentage c (Z.of_nat (List.length tests'))) ;;
  fig <- read_figure ;;
  ret {| guesses_by_k := kv; chosen_k := selected_k; correct := c;
         total := Z.of_nat (List.length tests');
         trained := Z.of_nat (List.length train);
         percent := pc; shown := titles fig |}.

(** The prediction listed at position [idx] for one query. *)
Definition prediction (knn : list Z -> dict -> result (list Z))
  (kv : dict) (idx : nat) (query : list Z) : option Z :=
  match knn query kv with
  | Ok predictions => nth_error predictions idx
  | Raise _ => None
  end.

(** The prediction at position [idx] equals the true label. *)
Definition hit (predictions : list Z) (actual : Z) (idx : nat) : bool :=
  match nth_error predictions idx with
  | Some p => p =? actual
  | None => false
  end.

Definition row_hit (knn : list Z -> dict -> result (list Z))
  (kv : dict) (idx : nat) (row : test_row) : bool :=
  match knn (pixels row) kv with
  | Ok predictions => hit predictions (label row) idx
  | Raise _ => false
  end.

(** The number of test rows whose prediction at position [idx] equals
    the true label. *)
Definition hits (knn : list Z -> dict -> result (list Z))
  (kv : dict) (idx : nat) (tests : list test_row) : Z :=
  Z.of_nat (List.length (filter (row_hit knn kv idx) tests)).

(** The keys, from position [idx] on, whose prediction is a hit. *)
Fixpoint scored (predictions : list Z) (actual : Z) (idx : nat)
  (ks : list Z) : list Z :=
  match ks with
  | [] => []
  | k :: ks' =>
      (if hit predictions actual idx then [k] else [])
      ++ scored predictions actual (S idx) ks'
  end.

(** One more for the counter of [k]. *)
Definition bump (d : dict) (k : Z) : dict :=
  match get d k with
  | Some v => set d k (v + 1)
  | None => d
  end.

(** The title of a shown row carries the true label and the prediction
    listed at the position of the last key. *)
Definition headline (knn : list Z -> dict -> result (list Z))
  (kv : dict) (row : test_row) (title : Z * Z) : Prop :=
  snd title = label row /\
  prediction knn kv (List.length (keys kv) - 1) (pixels row)
  = Some (fst title).

(** How often key [k] occurs in a history of writes. *)
Definition times (ws : list Z) (k : Z) : Z :=
  Z.of_nat (count_occ Z.eq_dec ws k).

(** An image of the size of the data set. *)
Definition sized (digits : bool) (row : test_row) : Prop :=
  Z.of_nat (List.length (pixels row)) = height digits * width digits.

(** Rows that the sample plots can show: no more than the four
    positions of the grid, each row an image of the data set.  Line 112
    draws four rows. *)
Definition plottable (digits : bool) (rows : list test_row) : Prop :=
  (List.length rows <= 4)%nat /\ Forall (sized digits) rows.

(** What one row adds to the figure. *)
Definition plot (num guess : Z) (row : test_row) : list drawing :=
  [Subplot num guess (label row); Image (pixels row)].

End Main.

(** ** A small data set

    Six training points on a line and three test rows, for runs of the
    driver with the k values 3 and 1; and the same points as images of
    28 by 28 pixels, for runs that show samples. *)

Module Scenario.
Import Main.

Definition training : list KNN.example :=
  [([0], 0); ([2], 1); ([3], 1); ([10], 0); ([11], 0); ([12], 0)].

(** The training DataFrame of a list of examples. *)
Definition frame (examples : list KNN.example) : list test_row :=
  map (fun ex => {| pixels := fst ex; label := snd ex |}) examples.

(** k = 1 is right (label 0), k = 3 is wrong (votes 0, 1, 1). *)
Definition row_a : test_row := {| pixels := [0]; label := 0 |}.

(** k = 1 and k = 3 are both right. *)
Definition row_b : test_row := {| pixels := [11]; label := 0 |}.

(** k = 1 is wrong (the nearer of two points at distance 1 comes first
    in the data set and is labelled 0), k = 3 is right. *)
Definition row_c : test_row := {| pixels := [1]; label := 1 |}.

(** A row of two pixels, which the classifier trained on the six points
    refuses. *)
Definition row_wide : test_row := {| pixels := [0; 0]; label := 0 |}.

(** [-k 1,3] on the digits data. *)
Definition k_vals_31 : PyDict.dict := parse_k_vals true [1; 3].

(** The store at the start of a run on the six points. *)
Definition start (tests : list test_row) : store :=
  initial k_vals_31 (frame training) tests.

(** An image of 28 by 28 pixels whose first [m] pixels are black (2) and
    the others white (0): two such images are as far apart as their
    numbers of black pixels are. *)
Definition image (m : nat) : list Z := repeat 2 m ++ repeat 0 (784 - m).

Definition digit_training : list KNN.example :=
  [(image 0, 0); (image 2, 1); (image 3, 1);
   (image 10, 0); (image 11, 0); (image 12, 0)].

(** The rows a, b and c as images, and a fourth row on which both k are
    right. *)
Definition digit_a : test_row := {| pixels := image 0; label := 0 |}.
Definition digit_b : test_row := {| pixels := image 11; label := 0 |}.
Definition digit_c : test_row := {| pixels := image 1; label := 1 |}.
Definition digit_d : test_row := {| pixels := image 12; label := 0 |}.

(** The four rows that line 112 has drawn, and the store at the start of
    the run that shows them. *)
Definition digit_sample : list test_row :=
  [digit_a; digit_c; digit_b; digit_d].

Definition digit_start : store :=
  initial k_vals_31 (frame digit_training) digit_sample.

(** A reading of [int] on the strings of the label files, one decimal
    digit each; every other string is refused. *)
Definition digit_label (line : string) : result Z :=
  match line with
  | String c EmptyString =>
      let n := (Z.of_nat (nat_of_ascii c) - 48)%Z in
      if (0 <=? n)%Z && (n <=? 9)%Z then Ok n else Raise ValueError
  | _ => Raise ValueError
  end.

End Scenario.

(** * Properties *)

(** ** The loader *)

Section LoaderFacts.
Import Loader.
Local Open Scope nat_scope.

Lemma translate_pixels_length (line : string) :
  List.length (translate_pixels line) = String.length line.
Proof. induction line as [|c rest IH]; simpl; congruence. Qed.

Lemma pixel_cases (c : ascii) :
  (c = "+"%char /\ pixel c = 1%Z) \/
  (c = "#"%char /\ pixel c = 2%Z) \/
  (c <> "+"%char /\ c <> "#"%char /\ pixel c = 0%Z).
Proof.
  unfold pixel.
  destruct (Ascii.eqb_spec c "+"%char) as [->|Hplus]; [now left|].
  destruct (Ascii.eqb_spec c "#"%char) as [->|Hhash]; [now right; left|].
  now right; right.
Qed.

Lemma translate_pixels_nth (line : string) (i : nat) :
  nth_error (translate_pixels line) i = option_map pixel (String.get i line).
Proof.
  revert i; induction line as [|c rest IH]; intros [|i]; simpl; auto.
Qed.

Lemma pop_rev_cons {A} (x : A) (l : list A) :
  pop (rev (x :: l)) = Ok (x, rev l).
Proof. unfold pop. now rewrite rev_involutive. Qed.

Lemma for_range_enough (n : nat) :
  forall (ls : list string) (data : list Z),
    n <= List.length ls ->
    for_range n (rev ls) data =
    EndFor (rev (skipn n ls))
           (data ++ flat_map translate_pixels (firstn n ls)).
Proof.
  induction n as [|n IH]; intros ls data Hn; simpl.
  - now rewrite app_nil_r.
  - destruct ls as [|x ls]; [simpl in Hn; lia|].
    rewrite length_rev.
    destruct (Z.eqb_spec (Z.of_nat (List.length (x :: ls))) 0) as [E|_];
      [simpl in E; lia|].
    rewrite pop_rev_cons, IH by (simpl in Hn; lia).
    simpl. f_equal. symmetry. apply app_assoc.
Qed.

Lemma for_range_short (n : nat) :
  forall (ls : list string) (data : list Z),
    List.length ls < n ->
    for_range n (rev ls) data = ReturnItems.
Proof.
  induction n as [|n IH]; intros ls data Hn; [lia|].
  cbn [for_range]. rewrite length_rev.
  destruct ls as [|x ls]; [reflexivity|].
  destruct (Z.eqb_spec (Z.of_nat (List.length (x :: ls))) 0) as [E|_];
    [simpl in E; lia|].
  rewrite pop_rev_cons. apply IH. simpl in Hn. lia.
Qed.

Lemma block_skip (h : nat) (ls : list string) (i : nat) :
  block h (skipn h ls) i = block h ls (S i).
Proof.
  unfold block. rewrite skipn_skipn. do 3 f_equal. lia.
Qed.

Lemma while_lines_blocks (height : Z) :
  let h := Z.to_nat height in
  1 <= h ->
  forall (fuel : nat) (ls : list string) (items : list (list Z)),
    List.length ls / h + 1 <= fuel ->
    while_lines fuel height (rev ls) items =
    Some (np_array (items ++ map (block h ls) (seq 0 (List.length ls / h)))).
Proof.
  intros h Hh. induction fuel as [|fuel IH]; intros ls items Hfuel; [lia|].
  cbn [while_lines]. rewrite length_rev.
  destruct (Z.gtb_spec (Z.of_nat (List.length ls)) 0) as [Hpos|Hzero].
  - fold h. destruct (Nat.le_gt_cases h (List.length ls)) as [Hle|Hlt].
    + rewrite for_range_enough by exact Hle.
      assert (Hdiv : List.length ls / h = S (List.length (skipn h ls) / h)).
      { rewrite length_skipn.
        replace (List.length ls) with ((List.length ls - h) + 1 * h) at 1
          by lia.
        rewrite Nat.div_add by lia. lia. }
      rewrite IH by lia.
      rewrite Hdiv, <- app_assoc. cbn [seq map app].
      rewrite <- seq_shift, map_map.
      do 3 f_equal.
      f_equal.
      apply map_ext. intros i. apply block_skip.
    + rewrite for_range_short by exact Hlt.
      rewrite Nat.div_small by exact Hlt. simpl. now rewrite app_nil_r.
  - assert (E : List.length ls = 0) by lia.
    rewrite E, Nat.Div0.div_0_l. simpl. now rewrite app_nil_r.
Qed.

(** With no line consumed per round the loop never ends: for
    [height <= 0] and a file with a line, every amount of fuel runs
    out. *)
Lemma while_lines_diverges (height : Z) :
  (height <= 0)%Z ->
  forall (fuel : nat) (lines : list string) (items : list (list Z)),
    lines <> [] -> while_lines fuel height lines items = None.
Proof.
  intros Hh. induction fuel as [|fuel IH]; intros lines items Hne;
    [reflexivity|].
  cbn [while_lines].
  destruct (Z.gtb_spec (Z.of_nat (List.length lines)) 0) as [_|Hzero].
  - replace (Z.to_nat height) with 0 by lia. simpl. now apply IH.
  - destruct lines; [congruence|simpl in Hzero; lia].
Qed.

Lemma np_array_uniform (items : list (list Z)) :
  (forall a b, In a items -> In b items -> List.length a = List.length b) ->
  np_array items = Ok items.
Proof.
  destruct items as [|row rest]; [reflexivity|]. intros Hsame.
  cbn [np_array].
  replace (forallb (fun r => List.length r =? List.length row) rest)
    with true; [reflexivity|].
  symmetry. apply forallb_forall. intros r Hr. apply Nat.eqb_eq.
  apply Hsame; [now right|now left].
Qed.

Lemma np_array_ragged (items : list (list Z)) (a b : list Z) :
  In a items -> In b items -> List.length a <> List.length b ->
  np_array items = Raise ValueError.
Proof.
  intros Ha Hb Hne. destruct items as [|row rest]; [contradiction|].
  cbn [np_array].
  destruct (forallb (fun r => List.length r =? List.length row) rest)
    eqn:Hall; [|reflexivity].
  exfalso. rewrite forallb_forall in Hall.
  assert (Hrow : forall r, In r (row :: rest) ->
                           List.length r = List.length row).
  { intros r [<-|Hr]; [reflexivity|]. apply Nat.eqb_eq, Hall, Hr. }
  apply Hne. now rewrite (Hrow a Ha), (Hrow b Hb).
Qed.

Lemma np_array_raise (items : list (list Z)) (e : exn) :
  np_array items = Raise e ->
  e = ValueError /\
  exists a b, In a items /\ In b items /\ List.length a <> List.length b.
Proof.
  destruct items as [|row rest]; [discriminate|]. cbn [np_array].
  destruct (forallb (fun r => List.length r =? List.length row) rest)
    eqn:Hall; [discriminate|].
  intros [= <-]. split; [reflexivity|].
  assert (Hex : exists r, In r rest /\
                          (List.length r =? List.length row) = false).
  { clear -Hall. induction rest as [|r rest IH]; [discriminate|].
    cbn [forallb] in Hall. apply andb_false_iff in Hall.
    destruct Hall as [Hr|Hrest].
    - exists r. split; [now left|exact Hr].
    - destruct (IH Hrest) as (r' & Hin & Hr'). exists r'.
      split; [now right|exact Hr']. }
  destruct Hex as (r & Hr & Hlen). apply Nat.eqb_neq in Hlen.
  exists r, row. split; [now right|]. split; [now left|exact Hlen].
Qed.

Lemma np_array_ok (items arr : list (list Z)) :
  np_array items = Ok arr -> arr = items.
Proof.
  destruct items as [|row rest]; cbn [np_array]; [now intros [= <-]|].
  destruct (forallb _ rest); [now intros [= <-]|discriminate].
Qed.
End LoaderFacts.

(** C9: for every input string, [translate_pixels] returns a list of the
    same length whose entries are all in {0, 1, 2}: 1 where the string
    holds '+', 2 where it holds '#', and 0 at every other position; the
    function is total, so no character raises an error. *)
Theorem translate_pixels_spec (line : string) :
  List.length (Loader.translate_pixels line) = String.length line /\
  Forall (fun p => p = 0 \/ p = 1 \/ p = 2) (Loader.translate_pixels line) /\
  forall i : nat,
    match String.get i line with
    | Some c =>
        exists p, nth_error (Loader.translate_pixels line) i = Some p /\
                  (c = "+"%char -> p = 1) /\
                  (c = "#"%char -> p = 2) /\
                  (c <> "+"%char -> c <> "#"%char -> p = 0)
    | None => nth_error (Loader.translate_pixels line) i = None
    end.
Proof.
  split; [apply translate_pixels_length|split].
  - induction line as [|c rest IH]; simpl; constructor; auto.
    destruct (pixel_cases c) as [[_ E]|[[_ E]|(_ & _ & E)]]; rewrite E; auto.
  - intros i. rewrite translate_pixels_nth.
    destruct (String.get i line) as [c|]; simpl; [|reflexivity].
    exists (Loader.pixel c). split; [reflexivity|].
    destruct (pixel_cases c) as [[-> E]|[[-> E]|(Hp & Hh & E)]];
      rewrite E; repeat split; intros; congruence.
Qed.

(** The theorem on the line [+#x] at its second character. *)
Lemma translate_pixels_spec_witness :
  exists p : Z,
    nth_error (Loader.translate_pixels "+#x") 1 = Some p /\ p = 2.
Proof.
  destruct (translate_pixels_spec "+#x") as (_ & _ & Hnth).
  specialize (Hnth 1%nat). cbn [String.get] in Hnth.
  destruct Hnth as (p & Hp & _ & Hhash & _).
  exists p. split; [exact Hp|]. apply Hhash. reflexivity.
Defined.

(** C10, as the loader has it: for every file that can be read and every
    height [h >= 1], [load_data_file] gathers floor(L / h) examples, L
    being the number of lines of the file; example [i] is built from the
    [h] consecutive lines starting at line [i * h], and the lines after
    the last full block are dropped.  When the examples all have the
    same number of pixels they are returned; when two of them differ in
    length, [np.array] refuses them with [ValueError]. *)
Theorem load_data_file_blocks (fs : Loader.filesystem) (filename : string)
  (file_lines : list string) (width height : Z) :
  fs filename = Some (Ok file_lines) ->
  1 <= height ->
  let L := List.length file_lines in
  let h := Z.to_nat height in
  let lines := map Loader.drop_last_char file_lines in
  let items := map (Loader.block h lines) (seq 0 (L / h)) in
  Z.of_nat (List.length items) = Z.of_nat L / height /\
  (forall i : nat,
      (i < List.length items)%nat ->
      nth_error items i = Some (Loader.block h lines i) /\
      List.length (firstn h (skipn (i * h) lines)) = h) /\
  ((forall a b, In a items -> In b items ->
                List.length a = List.length b) ->
   forall fuel : nat,
     (L / h + 1 <= fuel)%nat ->
     Loader.load_data_file fuel fs filename width height
     = Some (Ok items)) /\
  ((exists a b, In a items /\ In b items /\
                List.length a <> List.length b) ->
   forall fuel : nat,
     (L / h + 1 <= fuel)%nat ->
     Loader.load_data_file fuel fs filename width height
     = Some (Raise ValueError)).
Proof.
  intros Hfile Hh L h lines items.
  assert (Hh' : (1 <= h)%nat) by (unfold h; lia).
  assert (HL : List.length lines = L) by (unfold lines; apply length_map).
  assert (Hrun : forall fuel : nat,
             (L / h + 1 <= fuel)%nat ->
             Loader.load_data_file fuel fs filename width height
             = Some (Loader.np_array items)).
  { intros fuel Hfuel. unfold Loader.load_data_file, Loader.read_lines.
    rewrite Hfile. fold lines.
    rewrite (while_lines_blocks height Hh' fuel lines []);
      rewrite HL; auto. }
  split; [|split; [|split]].
  - unfold items. rewrite length_map, length_seq, Nat2Z.inj_div. unfold h.
    now rewrite Z2Nat.id by lia.
  - intros i Hi. unfold items in Hi |- *.
    rewrite length_map, length_seq in Hi. split.
    + rewrite nth_error_map, nth_error_seq.
      destruct (Nat.ltb_spec i (L / h)) as [_|Hge]; [reflexivity|lia].
    + rewrite length_firstn, length_skipn, HL.
      assert (h * (L / h) <= L)%nat by (apply Nat.Div0.mul_div_le).
      nia.
  - intros Hsame fuel Hfuel.
    rewrite (Hrun fuel Hfuel), (np_array_uniform items Hsame). reflexivity.
  - intros (a & b & Ha & Hb & Hne) fuel Hfuel.
    rewrite (Hrun fuel Hfuel), (np_array_ragged items a b Ha Hb Hne).
    reflexivity.
Qed.

(** The theorem at a file of five lines of two pixels read with height 2:
    two examples of four pixels, the fifth line dropped. *)
Lemma load_data_file_blocks_witness :
  Loader.load_data_file 3
    (fun _ => Some (Ok ["#+x"; " +x"; "##x"; "+ x"; "+#x"]%string))
    "f"%string 2 2 = Some (Ok [[2; 1; 0; 1]; [2; 2; 1; 0]]).
Proof.
  destruct (load_data_file_blocks
              (fun _ => Some (Ok ["#+x"; " +x"; "##x"; "+ x"; "+#x"]%string))
              "f"%string ["#+x"; " +x"; "##x"; "+ x"; "+#x"]%string 2 2
              eq_refl ltac:(lia)) as (_ & _ & Hrun & _).
  apply (Hrun ltac:(intros a b [<-|[<-|[]]] [<-|[<-|[]]]; reflexivity) 3%nat).
  simpl. lia.
Defined.

(** A file of five lines read with height 2 whose first line holds three
    pixels and the others two: the two examples have five and four
    pixels, and the call ends with [ValueError] instead of returning
    them. *)
Lemma load_data_file_ragged_counterexample :
  Loader.load_data_file 3
    (fun _ => Some (Ok ["#+ x"; " +x"; "##x"; "+ x"; "+#x"]%string))
    "f"%string 2 2 = Some (Raise ValueError) /\
  Z.of_nat 5 / 2 = 2 /\
  forall items : list (list Z),
    Loader.load_data_file 3
      (fun _ => Some (Ok ["#+ x"; " +x"; "##x"; "+ x"; "+#x"]%string))
      "f"%string 2 2 <> Some (Ok items).
Proof.
  split; [reflexivity|]. split; [reflexivity|].
  intros items. vm_compute. discriminate.
Qed.

(** ** The dictionary and the choice of k *)

Section DictFacts.
Import PyDict.

Lemma get_in_keys (d : dict) (k : Z) :
  In k (keys d) -> exists v, get d k = Some v.
Proof.
  induction d as [|[k' v'] d IH]; simpl; [tauto|].
  intros [->|Hin].
  - rewrite Z.eqb_refl. eauto.
  - destruct (k' =? k); eauto.
Qed.

Lemma get_not_in_keys (d : dict) (k : Z) :
  ~ In k (keys d) -> get d k = None.
Proof.
  induction d as [|[k' v'] d IH]; simpl; [reflexivity|].
  intros Hnot. destruct (Z.eqb_spec k' k) as [->|_]; [tauto|].
  apply IH. tauto.
Qed.

Lemma keys_set_present (d : dict) (k v : Z) :
  In k (keys d) -> keys (set d k v) = keys d.
Proof.
  induction d as [|[k' v'] d IH]; simpl; [tauto|].
  intros Hin. destruct (Z.eqb_spec k' k) as [->|Hne]; simpl; [reflexivity|].
  f_equal. apply IH. destruct Hin; [contradiction|assumption].
Qed.

Lemma keys_set_absent (d : dict) (k v : Z) :
  ~ In k (keys d) -> keys (set d k v) = keys d ++ [k].
Proof.
  induction d as [|[k' v'] d IH]; simpl; [reflexivity|].
  intros Hnot. destruct (Z.eqb_spec k' k) as [->|Hne]; [tauto|].
  simpl. f_equal. apply IH. tauto.
Qed.

Lemma get_set_same (d : dict) (k v : Z) : get (set d k v) k = Some v.
Proof.
  induction d as [|[k' v'] d IH]; simpl.
  - now rewrite Z.eqb_refl.
  - destruct (Z.eqb_spec k' k) as [->|Hne]; simpl.
    + now rewrite Z.eqb_refl.
    + destruct (Z.eqb_spec k' k); [contradiction|exact IH].
Qed.

Lemma get_set_other (d : dict) (k v k0 : Z) :
  k0 <> k -> get (set d k v) k0 = get d k0.
Proof.
  intros Hne. induction d as [|[k' v'] d IH]; simpl.
  - destruct (Z.eqb_spec k k0); [congruence|reflexivity].
  - destruct (Z.eqb_spec k' k) as [->|Hne']; simpl.
    + destruct (Z.eqb_spec k k0); [congruence|reflexivity].
    + destruct (k' =? k0); [reflexivity|exact IH].
Qed.

Lemma all_values_set (d : dict) (k v : Z) :
  all_values v d -> all_values v (set d k v).
Proof.
  intros Hall k0 c. destruct (Z.eq_dec k0 k) as [->|Hne].
  - rewrite get_set_same. congruence.
  - rewrite get_set_other by exact Hne. apply Hall.
Qed.

Lemma fold_set_values (ks : list Z) (v : Z) :
  forall d, all_values v d ->
            all_values v (fold_left (fun d k => set d k v) ks d).
Proof.
  induction ks as [|k ks IH]; intros d Hall; simpl; [exact Hall|].
  apply IH, all_values_set, Hall.
Qed.

Lemma fromkeys_values (ks : list Z) (v : Z) : all_values v (fromkeys ks v).
Proof. apply fold_set_values. intros k c. discriminate. Qed.

Lemma fold_set_keys (ks : list Z) (v : Z) :
  forall d k, In k (keys d) ->
              In k (keys (fold_left (fun d k => set d k v) ks d)).
Proof.
  induction ks as [|k0 ks IH]; intros d k Hin; simpl; [exact Hin|].
  apply IH. destruct (in_dec Z.eq_dec k0 (keys d)) as [Hk|Hk].
  - now rewrite keys_set_present.
  - rewrite keys_set_absent by exact Hk. apply in_or_app. now left.
Qed.

Lemma fromkeys_nonempty (ks : list Z) (v : Z) :
  ks <> [] -> keys (fromkeys ks v) <> [].
Proof.
  destruct ks as [|k ks]; [congruence|]. intros _ Hnil.
  assert (Hin : In k (keys (fromkeys (k :: ks) v))).
  { unfold fromkeys. simpl. apply fold_set_keys. simpl. now left. }
  rewrite Hnil in Hin. contradiction.
Qed.

Lemma max_loop_spec (key : Z -> option Z) (l : list Z) :
  (forall x, In x l -> exists v, key x = Some v) ->
  forall best best_key : Z,
  exists r c,
    max_loop key best best_key l = Ok r /\
    best_key <= c /\
    (forall x v, In x l -> key x = Some v -> v <= c) /\
    ((r = best /\ c = best_key) \/
     (exists i, nth_error l i = Some r /\ key r = Some c /\
                best_key < c /\
                forall j y v, (j < i)%nat -> nth_error l j = Some y ->
                              key y = Some v -> v < c)).
Proof.
  induction l as [|x l IH]; intros Hkeys best best_key.
  - exists best, best_key. simpl.
    split; [reflexivity|]. split; [lia|]. split; [tauto|now left].
  - destruct (Hkeys x (or_introl eq_refl)) as [kx Hkx].
    assert (Hkeys' : forall y, In y l -> exists v, key y = Some v)
      by (intros y Hy; apply Hkeys; now right).
    cbn [max_loop]. rewrite Hkx.
    destruct (Z.gtb_spec kx best_key) as [Hgt|Hle].
    + destruct (IH Hkeys' x kx) as (r & c & Hrun & Hc & Hall & Hwhere).
      exists r, c. split; [exact Hrun|]. split; [lia|]. split.
      * intros y v [<-|Hy] Hv; [|now apply (Hall y)].
        rewrite Hkx in Hv. injection Hv as <-. exact Hc.
      * right. destruct Hwhere as [[-> ->]|(i & Hi & Hr & Hlt & Hbefore)].
        -- exists 0%nat. repeat split; auto. intros j y v Hj. lia.
        -- exists (S i). repeat split; auto; [lia|].
           intros [|j] y v Hj Hy Hv.
           ++ simpl in Hy. injection Hy as <-.
              rewrite Hkx in Hv. injection Hv as <-. exact Hlt.
           ++ apply (Hbefore j y v); [lia|exact Hy|exact Hv].
    + destruct (IH Hkeys' best best_key)
        as (r & c & Hrun & Hc & Hall & Hwhere).
      exists r, c. split; [exact Hrun|]. split; [exact Hc|]. split.
      * intros y v [<-|Hy] Hv; [|now apply (Hall y)].
        rewrite Hkx in Hv. injection Hv as <-. lia.
      * destruct Hwhere as [Hsame|(i & Hi & Hr & Hlt & Hbefore)];
          [now left|right].
        exists (S i). repeat split; auto.
        intros [|j] y v Hj Hy Hv.
        -- simpl in Hy. injection Hy as <-.
           rewrite Hkx in Hv. injection Hv as <-. lia.
        -- apply (Hbefore j y v); [lia|exact Hy|exact Hv].
Qed.

(** [max(k_vals, key=k_vals.get)] on a dictionary with a key: the
    result is the first key, in iteration order, whose counter no other
    counter exceeds. *)
Lemma py_max_first_best (kv : dict) :
  keys kv <> [] ->
  exists k c i,
    py_max (get kv) (keys kv) = Ok k /\
    get kv k = Some c /\
    nth_error (keys kv) i = Some k /\
    (forall k' c', In k' (keys kv) -> get kv k' = Some c' -> c' <= c) /\
    (forall j k' c', (j < i)%nat -> nth_error (keys kv) j = Some k' ->
                     get kv k' = Some c' -> c' < c).
Proof.
  intros Hne.
  assert (Hkeys : forall x, In x (keys kv) -> exists v, get kv x = Some v)
    by (intros x; apply get_in_keys).
  destruct (keys kv) as [|k0 ks] eqn:Eks; [congruence|].
  destruct (Hkeys k0 (or_introl eq_refl)) as [c0 Hc0].
  destruct (max_loop_spec (get kv) ks
              (fun x Hx => Hkeys x (or_intror Hx)) k0 c0)
    as (r & c & Hrun & Hc & Hall & Hwhere).
  cbn [py_max]. rewrite Hc0.
  destruct Hwhere as [[-> ->]|(i & Hi & Hr & Hlt & Hbefore)].
  - exists k0, c0, 0%nat. repeat split; auto.
    + intros k' c' [<-|Hin] Hget; [|now apply (Hall k')].
      rewrite Hc0 in Hget. injection Hget as <-. lia.
    + intros j k' c' Hj. lia.
  - exists r, c, (S i). repeat split; auto.
    + intros k' c' [<-|Hin] Hget; [|now apply (Hall k')].
      rewrite Hc0 in Hget. injection Hget as <-. lia.
    + intros [|j] k' c' Hj Hk' Hget.
      * simpl in Hk'. injection Hk' as <-.
        rewrite Hc0 in Hget. injection Hget as <-. exact Hlt.
      * apply (Hbefore j k' c'); [lia|exact Hk'|exact Hget].
Qed.
End DictFacts.

(** ** Stable sorting *)

Section StableSortFacts.
Context {A : Type} (key : A -> Z).

Local Abbreviation leb := (by_key key).
Local Abbreviation le := (fun a b : A => key a <= key b).

Lemma insert_by_perm (x : A) (l : list A) :
  Permutation (insert_by leb x l) (x :: l).
Proof.
  induction l as [|y l IH]; simpl; [reflexivity|].
  destruct (leb x y); [reflexivity|].
  rewrite IH. apply perm_swap.
Qed.

Lemma stable_sort_perm (l : list A) : Permutation (stable_sort leb l) l.
Proof.
  induction l as [|x l IH]; simpl; [reflexivity|].
  rewrite insert_by_perm. now constructor.
Qed.

Lemma insert_by_sorted (x : A) (l : list A) :
  StronglySorted le l -> StronglySorted le (insert_by leb x l).
Proof.
  induction 1 as [|y l Hs IH Hall]; simpl.
  - repeat constructor.
  - unfold by_key at 1.
    destruct (Z.leb_spec (key x) (key y)) as [Hxy|Hyx].
    + constructor; [now constructor|].
      constructor; [exact Hxy|].
      eapply Forall_impl; [|exact Hall]. simpl. intros; lia.
    + constructor; [exact IH|].
      eapply Permutation_Forall; [symmetry; apply insert_by_perm|].
      constructor; [simpl; lia|exact Hall].
Qed.

Lemma stable_sort_sorted (l : list A) :
  StronglySorted le (stable_sort leb l).
Proof.
  induction l as [|x l IH]; simpl; [constructor|].
  now apply insert_by_sorted.
Qed.

(** Elements with the same key keep their order. *)
Lemma insert_by_stable (d : Z) (x : A) (l : list A) :
  filter (fun e => key e =? d) (insert_by leb x l) =
  filter (fun e => key e =? d) (x :: l).
Proof.
  induction l as [|y l IH]; [reflexivity|].
  cbn [insert_by]. unfold by_key at 1.
  destruct (Z.leb_spec (key x) (key y)) as [Hxy|Hyx]; [reflexivity|].
  cbn [filter] in *. rewrite IH.
  destruct (Z.eqb_spec (key x) d), (Z.eqb_spec (key y) d);
    try reflexivity; lia.
Qed.

Lemma stable_sort_stable (d : Z) (l : list A) :
  filter (fun e => key e =? d) (stable_sort leb l) =
  filter (fun e => key e =? d) l.
Proof.
  induction l as [|x l IH]; [reflexivity|].
  cbn [stable_sort]. rewrite insert_by_stable.
  cbn [filter]. now rewrite IH.
Qed.
End StableSortFacts.

(** ** The classifier *)

Section KnnFacts.
Import KNN.

Lemma entries_uniform (query : list Z) (training : list example) :
  Forall (fun ex => List.length (fst ex) = List.length query) training ->
  entries query training =
  Ok (map (fun ex => (sum_sq query (fst ex), snd ex)) training).
Proof.
  induction 1 as [|[v l] rest Hlen _ IH]; [reflexivity|].
  cbn [entries]. unfold distance. simpl in Hlen.
  rewrite <- Hlen, Nat.eqb_refl. cbn [rbind]. now rewrite IH.
Qed.

Lemma entries_length (query : list Z) (training : list example) :
  forall es, entries query training = Ok es ->
             List.length es = List.length training.
Proof.
  induction training as [|[v l] rest IH]; intros es; cbn [entries].
  - intros [= <-]. reflexivity.
  - destruct (distance query v) as [d|e]; [|discriminate]. cbn [rbind].
    destruct (entries query rest) as [es'|e]; [|discriminate].
    cbn [rbind]. intros [= <-]. simpl. f_equal. now apply IH.
Qed.

Lemma rank_length (query : list Z) (training : list example) :
  forall ranked, rank query training = Ok ranked ->
                 List.length ranked = List.length training.
Proof.
  unfold rank. intros ranked.
  destruct (entries query training) as [es|e] eqn:E; [|discriminate].
  cbn [rbind]. intros [= <-].
  rewrite <- (entries_length query training es E).
  apply Permutation_length, (stable_sort_perm fst).
Qed.

Lemma find_first {B} (p : B -> bool) (l : list B) (x : B) :
  find p l = Some x ->
  exists i, nth_error l i = Some x /\ p x = true /\
            forall j y, (j < i)%nat -> nth_error l j = Some y ->
                        p y = false.
Proof.
  induction l as [|y l IH]; [discriminate|]. cbn [find].
  destruct (p y) eqn:Hy.
  - intros [= <-]. exists 0%nat. repeat split; auto. intros j z Hj. lia.
  - intros Hfind. destruct (IH Hfind) as (i & Hi & Hp & Hbefore).
    exists (S i). repeat split; auto.
    intros [|j] z Hj Hz; simpl in Hz.
    + now injection Hz as <-.
    + apply (Hbefore j); [lia|exact Hz].
Qed.

Lemma max_votes_upper (labels tally : list Z) (l : Z) :
  In l tally ->
  votes labels l <= fold_right Z.max 0 (map (votes labels) tally).
Proof.
  induction tally as [|x tally IH]; simpl; [tauto|].
  intros [->|Hin]; [lia|]. specialize (IH Hin). lia.
Qed.

Lemma max_votes_reached (labels tally : list Z) :
  tally <> [] ->
  exists l, In l tally /\
            votes labels l = fold_right Z.max 0 (map (votes labels) tally).
Proof.
  induction tally as [|x tally IH]; [congruence|]. intros _.
  destruct tally as [|y tally].
  - exists x. split; [now left|]. simpl. unfold votes. lia.
  - destruct IH as (l & Hin & Hl); [congruence|].
    cbn [map fold_right] in *.
    destruct (Z.max_spec (votes labels x)
                (Z.max (votes labels y)
                   (fold_right Z.max 0 (map (votes labels) tally))))
      as [[_ E]|[_ E]]; rewrite E.
    + exists l. split; [now right|exact Hl].
    + exists x. split; [now left|reflexivity].
Qed.

Lemma votes_le_max (labels : list Z) (l : Z) :
  votes labels l <= max_votes labels.
Proof.
  destruct (in_dec Z.eq_dec l labels) as [Hin|Hnot].
  - now apply max_votes_upper.
  - unfold votes at 1. rewrite (proj1 (count_occ_not_In _ _ _) Hnot).
    unfold max_votes. clear Hnot.
    generalize (map (votes labels) labels) as vs.
    induction vs as [|v vs IH]; simpl; lia.
Qed.

(** The vote for one k that has neighbours enough. *)
Lemma vote_majority (ranked : list (Z * Z)) (k : Z) :
  1 <= k <= Z.of_nat (List.length ranked) ->
  let labels := nearest ranked k in
  exists l pos,
    vote ranked k = Ok l /\
    Z.of_nat (List.length labels) = k /\
    nth_error labels pos = Some l /\
    (forall l', votes labels l' <= votes labels l) /\
    (forall j l', (j < pos)%nat -> nth_error labels j = Some l' ->
                  votes labels l' < votes labels l).
Proof.
  intros Hk labels.
  assert (Hlen : Z.of_nat (List.length labels) = k).
  { unfold labels, nearest. rewrite length_map, length_firstn. lia. }
  assert (Hne : labels <> []).
  { intros E. rewrite E in Hlen. simpl in Hlen. lia. }
  destruct (max_votes_reached labels labels Hne) as (m & Hm & Hmax).
  fold (max_votes labels) in Hmax.
  unfold vote. fold labels.
  destruct (find (fun l => votes labels l =? max_votes labels) labels)
    as [l|] eqn:Hfind.
  - destruct (find_first _ _ _ Hfind) as (pos & Hpos & Hl & Hbefore).
    apply Z.eqb_eq in Hl.
    exists l, pos. repeat split; auto.
    + intros l'. rewrite Hl. apply votes_le_max.
    + intros j l' Hj Hl'. specialize (Hbefore j l' Hj Hl').
      apply Z.eqb_neq in Hbefore.
      pose proof (votes_le_max labels l'). lia.
  - exfalso. apply (find_none _ _ Hfind) in Hm.
    apply Z.eqb_neq in Hm. contradiction.
Qed.

Lemma vote_all_votes (ranked : list (Z * Z)) (ks : list Z) :
  (forall k, In k ks -> 1 <= k <= Z.of_nat (List.length ranked)) ->
  exists preds,
    vote_all ranked ks = Ok preds /\
    List.length preds = List.length ks /\
    forall i k, nth_error ks i = Some k ->
                exists l, nth_error preds i = Some l /\
                          vote ranked k = Ok l.
Proof.
  induction ks as [|k ks IH]; intros Hks.
  - exists []. repeat split; auto. intros [|i] k; discriminate.
  - destruct (vote_majority ranked k (Hks k (or_introl eq_refl)))
      as (l & _ & Hvote & _).
    destruct IH as (preds & Hall & Hlen & Hnth);
      [intros k' Hk'; apply Hks; now right|].
    exists (l :: preds). cbn [vote_all]. rewrite Hvote, Hall.
    repeat split; [simpl; congruence|].
    intros [|i] k' Hk'; simpl in Hk'.
    + injection Hk' as <-. exists l. auto.
    + apply (Hnth i k' Hk').
Qed.

Lemma enough_spec (ranked : list (Z * Z)) (k : Z) :
  enough ranked k = true <-> 1 <= k <= Z.of_nat (List.length ranked).
Proof. unfold enough. rewrite andb_true_iff, !Z.leb_le. tauto. Qed.
End KnnFacts.

(** C1: for every ranked neighbour list and every k of the candidate set
    with 1 <= k <= number of training examples, [classify] returns for
    that k a label whose vote count among the first k entries is the
    highest, and among the labels that tie for the highest count it is the
    one met first when the k neighbours are scanned in ascending distance:
    every neighbour before it has strictly fewer votes. *)
Theorem classify_majority (ranked : list (Z * Z)) (ks : list Z) :
  (forall k, In k ks -> 1 <= k <= Z.of_nat (List.length ranked)) ->
  exists preds : list Z,
    KNN.classify ranked ks = Ok preds /\
    List.length preds = List.length ks /\
    forall (i : nat) (k : Z),
      nth_error ks i = Some k ->
      let labels := map snd (firstn (Z.to_nat k) ranked) in
      exists (l : Z) (pos : nat),
        nth_error preds i = Some l /\
        Z.of_nat (List.length labels) = k /\
        nth_error labels pos = Some l /\
        (forall l', KNN.votes labels l' <= KNN.votes labels l) /\
        (forall j l', (j < pos)%nat -> nth_error labels j = Some l' ->
                      KNN.votes labels l' < KNN.votes labels l).
Proof.
  intros Hks.
  destruct (vote_all_votes ranked ks Hks) as (preds & Hrun & Hlen & Hnth).
  exists preds. unfold KNN.classify.
  replace (forallb (KNN.enough ranked) ks) with true.
  2:{ symmetry. apply forallb_forall. intros k Hk.
      apply enough_spec, Hks, Hk. }
  split; [exact Hrun|]. split; [exact Hlen|].
  intros i k Hk.
  destruct (Hnth i k Hk) as (l & Hl & Hvote).
  destruct (vote_majority ranked k (Hks k (nth_error_In _ _ Hk)))
    as (l0 & pos & Hvote0 & Hsize & Hpos & Hmost & Hfirst).
  rewrite Hvote in Hvote0. injection Hvote0 as <-.
  exists l, pos.
  split; [exact Hl|]. split; [exact Hsize|]. split; [exact Hpos|].
  split; [exact Hmost|exact Hfirst].
Qed.

(** The theorem on five neighbours and the k values 5, 3 and 1: at k = 5
    the labels 7 and 3 tie with two votes each and 7, the nearest, wins;
    at k = 3 label 3 has the majority. *)
Lemma classify_majority_witness :
  exists preds : list Z,
    KNN.classify [(0, 7); (1, 3); (1, 3); (2, 7); (5, 9)] [5; 3; 1]
    = Ok preds /\
    preds = [7; 3; 7].
Proof.
  destruct (classify_majority
              [(0, 7); (1, 3); (1, 3); (2, 7); (5, 9)] [5; 3; 1])
    as (preds & Hrun & _).
  - intros k [<-|[<-|[<-|[]]]]; simpl; lia.
  - exists preds. split; [exact Hrun|].
    vm_compute in Hrun. congruence.
Defined.

(** C6: when the candidate set holds some k with k < 1 or k above the
    number of training examples, classification fails with the
    InsufficientNeighbors error and yields no prediction for any k; the
    check comes before the first vote, at the first use of the
    classifier. *)
Theorem classify_insufficient (query : list Z)
  (training : list KNN.example) (ranked : list (Z * Z)) (ks : list Z) :
  KNN.rank query training = Ok ranked ->
  (exists k, In k ks /\ (k < 1 \/ Z.of_nat (List.length training) < k)) ->
  KNN.classify ranked ks = Raise (KnnError InsufficientNeighbors) /\
  (forall kv : PyDict.dict,
      PyDict.keys kv = ks ->
      training <> [] ->
      KNN.knn training query kv = Raise (KnnError InsufficientNeighbors)).
Proof.
  intros Hrank (k & Hin & Hk).
  assert (Hfail : KNN.classify ranked ks
                  = Raise (KnnError InsufficientNeighbors)).
  { unfold KNN.classify.
    destruct (forallb (KNN.enough ranked) ks) eqn:Hall; [|reflexivity].
    rewrite forallb_forall in Hall. specialize (Hall k Hin).
    apply enough_spec in Hall.
    rewrite (rank_length query training ranked Hrank) in Hall. lia. }
  split; [exact Hfail|].
  intros kv Hkeys Hne. unfold KNN.knn.
  destruct training as [|ex rest]; [congruence|].
  rewrite Hrank. cbn [rbind]. now rewrite Hkeys.
Qed.

(** The theorem on two training examples and the k values 3 and 1. *)
Lemma classify_insufficient_witness :
  KNN.knn [([0; 0; 0], 5); ([2; 2; 2], 8)] [0; 0; 1] [(3, 0); (1, 0)]
  = Raise (KnnError InsufficientNeighbors).
Proof.
  apply (classify_insufficient [0; 0; 1]
           [([0; 0; 0], 5); ([2; 2; 2], 8)] [(1, 5); (9, 8)] [3; 1]).
  - reflexivity.
  - exists 3. simpl. split; [now left|lia].
  - reflexivity.
  - discriminate.
Defined.

(** C2: [rank] returns one (distance, label) entry per training example,
    sorted ascending by distance, and examples at the same distance keep
    the order they have in the Dataset; with two training examples at the
    same distance from the query the classifier answers the label of the
    one inserted first, for k = 1 and for k = 2. *)
Theorem rank_stable (query : list Z) :
  (forall training : list KNN.example,
      Forall (fun ex => List.length (fst ex) = List.length query) training ->
      let entry := fun ex : KNN.example =>
                     (KNN.sum_sq query (fst ex), snd ex) in
      exists ranked : list (Z * Z),
        KNN.rank query training = Ok ranked /\
        List.length ranked = List.length training /\
        Permutation ranked (map entry training) /\
        StronglySorted (fun a b => fst a <= fst b) ranked /\
        forall d : Z,
          filter (fun e => fst e =? d) ranked =
          filter (fun e => fst e =? d) (map entry training)) /\
  (forall (v1 v2 : list Z) (l1 l2 k : Z) (kv : PyDict.dict),
      List.length v1 = List.length query ->
      List.length v2 = List.length query ->
      KNN.distance query v1 = KNN.distance query v2 ->
      PyDict.keys kv = [k] ->
      k = 1 \/ k = 2 ->
      KNN.knn [(v1, l1); (v2, l2)] query kv = Ok [l1]).
Proof.
  split.
  - intros training Hlen entry.
    exists (stable_sort (by_key fst) (map entry training)).
    unfold KNN.rank. rewrite entries_uniform by exact Hlen. cbn [rbind].
    fold entry. repeat split.
    + rewrite <- (length_map entry training).
      apply Permutation_length, stable_sort_perm.
    + apply stable_sort_perm.
    + apply (stable_sort_sorted (@fst Z Z)).
    + intros d. apply (stable_sort_stable (@fst Z Z)).
  - intros v1 v2 l1 l2 k kv H1 H2 Hd Hkeys Hk.
    unfold KNN.distance in Hd. rewrite H1, H2, !Nat.eqb_refl in Hd.
    injection Hd as Hd.
    unfold KNN.knn, KNN.rank.
    rewrite entries_uniform by (repeat constructor; assumption).
    cbn [rbind map fst snd stable_sort insert_by]. rewrite Hd, Hkeys.
    unfold by_key at 1. cbn [fst]. rewrite Z.leb_refl.
    unfold KNN.classify, KNN.enough. cbn [forallb List.length].
    destruct Hk as [-> | ->]; cbn [Z.leb Z.compare Pos.compare
      Pos.compare_cont Z.of_nat Pos.of_succ_nat Pos.succ andb KNN.vote_all].
    + unfold KNN.vote, KNN.nearest, KNN.max_votes, KNN.votes. simpl.
      destruct (Z.eq_dec l1 l1); [|congruence]. reflexivity.
    + unfold KNN.vote, KNN.nearest, KNN.max_votes, KNN.votes. simpl.
      destruct (Z.eq_dec l1 l1); [|congruence].
      destruct (Z.eq_dec l2 l2); [|congruence].
      destruct (Z.eq_dec l2 l1), (Z.eq_dec l1 l2); try congruence;
        reflexivity.
Qed.

(** The theorem on the query (1,1,1), at squared distance 3 from both
    (0,0,0), labelled 5, and (2,2,2), labelled 8: label 5 is inserted
    first, is ranked first, and is the answer for k = 2. *)
Lemma rank_stable_witness :
  KNN.rank [1; 1; 1] [([0; 0; 0], 5); ([2; 2; 2], 8)]
  = Ok [(3, 5); (3, 8)] /\
  KNN.knn [([0; 0; 0], 5); ([2; 2; 2], 8)] [1; 1; 1] [(2, 0)] = Ok [5].
Proof.
  split.
  - destruct (proj1 (rank_stable [1; 1; 1])
                [([0; 0; 0], 5); ([2; 2; 2], 8)])
      as (ranked & Hrank & _).
    + repeat constructor.
    + pose proof Hrank as Hvalue. vm_compute in Hvalue.
      injection Hvalue as <-. exact Hrank.
  - apply (proj2 (rank_stable [1; 1; 1]) [0; 0; 0] [2; 2; 2] 5 8 2 [(2, 0)]).
    + reflexivity.
    + reflexivity.
    + reflexivity.
    + reflexivity.
    + right. reflexivity.
Defined.
(** ** The evaluation loop *)

Section TallyFacts.
Import PyDict Main.

Lemma get_some_in_keys (d : dict) (k v : Z) :
  get d k = Some v -> In k (keys d).
Proof.
  intros Hget. destruct (in_dec Z.eq_dec k (keys d)) as [Hin|Hnot];
    [exact Hin|].
  rewrite get_not_in_keys in Hget by exact Hnot. discriminate.
Qed.

Lemma keys_bump (d : dict) (k : Z) : keys (bump d k) = keys d.
Proof.
  unfold bump. destruct (get d k) as [v|] eqn:E; [|reflexivity].
  apply keys_set_present. now apply get_some_in_keys with v.
Qed.

Lemma keys_bump_all (ws : list Z) :
  forall d, keys (fold_left bump ws d) = keys d.
Proof.
  induction ws as [|k ws IH]; intros d; simpl; [reflexivity|].
  now rewrite IH, keys_bump.
Qed.

Lemma times_cons (k : Z) (ws : list Z) (k0 : Z) :
  times (k :: ws) k0 = (if Z.eq_dec k k0 then 1 else 0) + times ws k0.
Proof.
  unfold times. simpl. destruct (Z.eq_dec k k0); lia.
Qed.

Lemma times_app (ws1 ws2 : list Z) (k : Z) :
  times (ws1 ++ ws2) k = times ws1 k + times ws2 k.
Proof. unfold times. rewrite count_occ_app. lia. Qed.

Lemma get_bump (d : dict) (k k0 c : Z) :
  get d k0 = Some c ->
  get (bump d k) k0 = Some (c + (if Z.eq_dec k k0 then 1 else 0)).
Proof.
  intros Hget. unfold bump. destruct (Z.eq_dec k k0) as [->|Hne].
  - rewrite Hget. apply get_set_same.
  - destruct (get d k) as [v|].
    + rewrite get_set_other by congruence. rewrite Hget. f_equal. lia.
    + rewrite Hget. f_equal. lia.
Qed.

Lemma get_bump_all (ws : list Z) :
  forall (d : dict) (k0 c : Z),
    get d k0 = Some c ->
    get (fold_left bump ws d) k0 = Some (c + times ws k0).
Proof.
  induction ws as [|k ws IH]; intros d k0 c Hget; simpl.
  - rewrite Hget. unfold times. simpl. f_equal. lia.
  - rewrite (IH _ k0 _ (get_bump d k k0 c Hget)), times_cons.
    f_equal. lia.
Qed.

Lemma times_scored_absent (predictions : list Z) (actual k : Z) :
  forall (ks : list Z) (idx : nat),
    ~ In k ks -> times (scored predictions actual idx ks) k = 0.
Proof.
  induction ks as [|k' ks IH]; intros idx Hnot; [reflexivity|].
  cbn [scored]. rewrite times_app, IH by (simpl in Hnot; tauto).
  destruct (hit predictions actual idx); [|reflexivity].
  rewrite times_cons. destruct (Z.eq_dec k' k) as [->|_];
    [simpl in Hnot; tauto|reflexivity].
Qed.

(** With distinct keys, the key at position [j] is scored once when its
    prediction is a hit and not at all otherwise. *)
Lemma times_scored (predictions : list Z) (actual : Z) :
  forall (ks : list Z) (idx j : nat) (k : Z),
    NoDup ks ->
    nth_error ks j = Some k ->
    times (scored predictions actual idx ks) k =
    if hit predictions actual (idx + j) then 1 else 0.
Proof.
  induction ks as [|k' ks IH]; intros idx j k Hnd Hj;
    [destruct j; discriminate|].
  inversion Hnd as [|? ? Hnot Hnd']; subst.
  cbn [scored]. rewrite times_app. destruct j as [|j]; simpl in Hj.
  - injection Hj as ->. rewrite Nat.add_0_r.
    rewrite times_scored_absent by exact Hnot.
    destruct (hit predictions actual idx); [|reflexivity].
    rewrite times_cons. destruct (Z.eq_dec k k); [reflexivity|congruence].
  - rewrite (IH (S idx) j k Hnd' Hj).
    replace (idx + S j)%nat with (S idx + j)%nat by lia.
    assert (Hne : k' <> k)
      by (intros ->; apply Hnot; eapply nth_error_In; eassumption).
    destruct (hit predictions actual idx); [|reflexivity].
    rewrite times_cons. destruct (Z.eq_dec k' k); [contradiction|].
    reflexivity.
Qed.

Lemma set_nodup (d : dict) (k v : Z) :
  NoDup (keys d) -> NoDup (keys (set d k v)).
Proof.
  intros Hnd. destruct (in_dec Z.eq_dec k (keys d)) as [Hin|Hnot].
  - now rewrite keys_set_present.
  - rewrite keys_set_absent by exact Hnot.
    apply NoDup_app; [exact Hnd|repeat constructor; simpl; tauto|].
    intros x Hx [<-|[]]. contradiction.
Qed.

Lemma fromkeys_nodup (ks : list Z) (v : Z) : NoDup (keys (fromkeys ks v)).
Proof.
  unfold fromkeys.
  assert (H : forall d, NoDup (keys d) ->
              NoDup (keys (fold_left (fun d k => set d k v) ks d))).
  { induction ks as [|k ks IH]; intros d Hd; simpl; [exact Hd|].
    apply IH, set_nodup, Hd. }
  apply H. constructor.
Qed.

Lemma parse_k_vals_nonempty (digits : bool) (kvals : list Z) :
  keys (parse_k_vals digits kvals) <> [].
Proof.
  unfold parse_k_vals. apply fromkeys_nonempty.
  destruct kvals as [|k kvals]; [destruct digits; discriminate|].
  intros E.
  apply (Permutation_nil_cons (l := kvals) (x := k)).
  rewrite <- E. apply stable_sort_perm.
Qed.

Lemma index_last_nth {A} (l : list A) :
  l <> [] ->
  exists x, index_last l = Ok x /\
            nth_error l (List.length l - 1) = Some x.
Proof.
  intros Hne. unfold index_last.
  destruct (rev l) as [|x r] eqn:E.
  - apply (f_equal (@rev A)) in E. rewrite rev_involutive in E.
    simpl in E. contradiction.
  - exists x. split; [reflexivity|].
    apply (f_equal (@rev A)) in E. rewrite rev_involutive in E.
    simpl in E. subst l. rewrite length_app, length_rev. simpl.
    rewrite nth_error_app2 by (rewrite length_rev; lia).
    rewrite length_rev.
    replace (List.length r + 1 - 1 - List.length r)%nat with 0%nat by lia.
    reflexivity.
Qed.
End TallyFacts.

Section FloatFacts.
Import Main.

Lemma float_limit_pos : 0 < float_limit.
Proof. vm_compute. reflexivity. Qed.

Lemma float_of_int_ok (z : Z) :
  Z.abs z < float_limit -> float_of_int z = Ok (to_float z).
Proof.
  intros Hz. unfold float_of_int.
  destruct (Z.ltb_spec (Z.abs z) float_limit); [reflexivity|lia].
Qed.

Lemma float_of_int_raise (z : Z) (e : exn) :
  float_of_int z = Raise e -> e = OverflowError /\ float_limit <= Z.abs z.
Proof.
  unfold float_of_int.
  destruct (Z.ltb_spec (Z.abs z) float_limit); [discriminate|].
  intros [= <-]. split; [reflexivity|assumption].
Qed.

Lemma percentage_ok (c n : Z) :
  0 <= c <= n -> 0 < n -> n < float_limit ->
  percentage c n
  = Ok (PrimFloat.mul (PrimFloat.div (to_float c) (to_float n))
          (to_float 100)).
Proof.
  intros Hc Hn Hlim. unfold percentage.
  rewrite !float_of_int_ok by lia. cbn [rbind].
  destruct (Z.eqb_spec n 0); [lia|reflexivity].
Qed.

Lemma percentage_no_rows (c : Z) :
  Z.abs c < float_limit -> percentage c 0 = Raise ZeroDivisionError.
Proof.
  intros Hc. unfold percentage.
  rewrite (float_of_int_ok c Hc). cbn [rbind].
  rewrite float_of_int_ok by (pose proof float_limit_pos; simpl; lia).
  reflexivity.
Qed.

Lemma percentage_raise (c n : Z) (e : exn) :
  percentage c n = Raise e ->
  (e = ZeroDivisionError /\ n = 0) \/
  (e = OverflowError /\
   (float_limit <= Z.abs c \/ float_limit <= Z.abs n)).
Proof.
  unfold percentage.
  destruct (float_of_int c) as [fc|e1] eqn:Hc; cbn [rbind].
  - destruct (float_of_int n) as [fn|e2] eqn:Hn; cbn [rbind].
    + destruct (Z.eqb_spec n 0); [|discriminate].
      intros [= <-]. now left.
    + intros [= <-]. right.
      destruct (float_of_int_raise _ _ Hn). auto.
  - intros [= <-]. right.
    destruct (float_of_int_raise _ _ Hc). auto.
Qed.
End FloatFacts.

Section MonadFacts.
Import PyDict Main.

Lemma bind_ok {A B} (m : M A) (f : A -> M B) (s s' : store) (a : A) :
  m s = (s', Ok a) -> bind m f s = f a s'.
Proof. unfold bind. now intros ->. Qed.

Lemma bind_raise {A B} (m : M A) (f : A -> M B) (s s' : store) (e : exn) :
  m s = (s', Raise e) -> bind m f s = (s', Raise e).
Proof. unfold bind. now intros ->. Qed.

Lemma increment_run (k v : Z) (s : store) :
  get (k_vals s) k = Some v ->
  increment k s =
  (put_k_vals (set (k_vals s) k (v + 1)) (writes s ++ [k]) s, Ok tt).
Proof.
  intros Hv. unfold increment.
  rewrite (bind_ok _ _ s s (k_vals s)) by reflexivity.
  rewrite (bind_ok _ _ s s v) by (unfold lift, getitem; now rewrite Hv).
  reflexivity.
Qed.

Lemma score_run (predictions : list Z) (actual : Z) :
  forall (ks : list Z) (idx : nat) (s : store),
    (forall k, In k ks -> In k (keys (k_vals s))) ->
    (idx + List.length ks <= List.length predictions)%nat ->
    score predictions actual idx ks s =
    (put_k_vals
       (fold_left bump (scored predictions actual idx ks) (k_vals s))
       (writes s ++ scored predictions actual idx ks) s, Ok tt).
Proof.
  induction ks as [|k ks IH]; intros idx s Hin Hlen.
  - destruct s. unfold put_k_vals. simpl. now rewrite app_nil_r.
  - cbn [score scored]. simpl in Hlen.
    destruct (nth_error predictions idx) as [p|] eqn:Hp;
      [|apply nth_error_None in Hp; lia].
    rewrite (bind_ok _ _ s s p) by (unfold lift, index; now rewrite Hp).
    unfold hit. rewrite Hp.
    destruct (p =? actual).
    + destruct (get_in_keys (k_vals s) k (Hin k (or_introl eq_refl)))
        as [v Hv].
      erewrite bind_ok by (apply increment_run; exact Hv).
      rewrite IH.
      * unfold put_k_vals.
        cbn [k_vals writes counter print_counter figure df_train_sample
             df_test_sample app fold_left].
        replace (bump (k_vals s) k) with (set (k_vals s) k (v + 1))
          by (unfold bump; now rewrite Hv).
        now rewrite <- app_assoc.
      * cbn [k_vals put_k_vals]. intros k' Hk'. rewrite keys_set_present.
        -- apply Hin. now right.
        -- apply Hin. now left.
      * lia.
    + rewrite (bind_ok _ _ s s tt) by reflexivity. rewrite IH.
      * reflexivity.
      * intros k' Hk'. apply Hin. now right.
      * lia.
Qed.

(** One test row whose predictions came back, one per key: the row is
    scored, and then shown or counted towards a progress message. *)
Lemma loop_body_run (call : list Z -> dict -> M (list Z))
  (samples digits : bool) (n : Z) (row : test_row) (s s1 : store)
  (ps : list Z) :
  call (pixels row) (k_vals s) s = (s1, Ok ps) ->
  List.length ps = List.length (keys (k_vals s1)) ->
  keys (k_vals s1) <> [] ->
  (samples = true -> 0 <= counter s1 < 4 /\ sized digits row) ->
  (samples = false -> Z.abs n < float_limit) ->
  let ws := scored ps (label row) 0 (keys (k_vals s1)) in
  exists s' : store,
    loop_body call samples digits n row s = (s', Ok tt) /\
    k_vals s' = fold_left bump ws (k_vals s1) /\
    writes s' = writes s1 ++ ws /\
    counter s' = counter s1 + 1 /\
    df_train_sample s' = df_train_sample s1 /\
    df_test_sample s' = df_test_sample s1 /\
    if samples
    then print_counter s' = print_counter s1 /\
         exists guess,
           nth_error ps (List.length ps - 1) = Some guess /\
           figure s' = figure s1 ++ plot (counter s1 + 1) guess row
    else figure s' = figure s1.
Proof.
  intros Hcall Hlen Hne Hplot Hfits ws. unfold loop_body.
  rewrite (bind_ok _ _ s s (k_vals s)) by reflexivity.
  rewrite (bind_ok _ _ _ _ _ Hcall).
  rewrite (bind_ok _ _ s1 s1 (k_vals s1)) by reflexivity.
  erewrite bind_ok
    by (apply score_run; [auto|rewrite Hlen; simpl; lia]).
  fold ws. destruct samples.
  - destruct (index_last_nth ps) as (guess & Hlast & Hnth).
    { intros E. rewrite E in Hlen. destruct (keys (k_vals s1));
        [congruence|discriminate]. }
    destruct (Hplot eq_refl) as [Hc Hsize]. unfold sized in Hsize.
    unfold bind, lift, read_counter, subplot, reshape, imshow, next_row.
    rewrite Hlast. cbn [counter put_k_vals].
    replace ((1 <=? counter s1 + 1) && (counter s1 + 1 <=? 4)) with true
      by (symmetry; apply andb_true_iff; split; apply Z.leb_le; lia).
    cbn [pixels put_figure]. rewrite Hsize, Z.eqb_refl.
    eexists. split; [reflexivity|]. cbn.
    repeat split. exists guess. split; [exact Hnth|].
    now rewrite <- app_assoc.
  - unfold bind, progress, next_row.
    rewrite (float_of_int_ok n (Hfits eq_refl)).
    eexists. split; [reflexivity|]. cbn. repeat split.
Qed.
End MonadFacts.

Section LoopFacts.
Import PyDict Main.

Variable knn : list Z -> dict -> result (list Z).
Variable samples digits : bool.
Variable n : Z.

Lemma test_step_run (row : test_row) (s : store) (ps : list Z) :
  knn (pixels row) (k_vals s) = Ok ps ->
  List.length ps = List.length (keys (k_vals s)) ->
  keys (k_vals s) <> [] ->
  (samples = true -> 0 <= counter s < 4 /\ sized digits row) ->
  (samples = false -> Z.abs n < float_limit) ->
  let ws := scored ps (label row) 0 (keys (k_vals s)) in
  exists s' : store,
    test_step knn samples digits n row s = (s', Ok tt) /\
    k_vals s' = fold_left bump ws (k_vals s) /\
    writes s' = writes s ++ ws /\
    counter s' = counter s + 1 /\
    df_train_sample s' = df_train_sample s /\
    df_test_sample s' = df_test_sample s /\
    if samples
    then print_counter s' = print_counter s /\
         exists guess,
           nth_error ps (List.length ps - 1) = Some guess /\
           figure s' = figure s ++ plot (counter s + 1) guess row
    else figure s' = figure s.
Proof.
  intros Hknn. apply loop_body_run. unfold method, lift. now rewrite Hknn.
Qed.

(** A row that cannot be shown: the fifth of a figure, or an image of
    another size. *)
Lemma test_step_unplottable (row : test_row) (s : store) (ps : list Z) :
  knn (pixels row) (k_vals s) = Ok ps ->
  List.length ps = List.length (keys (k_vals s)) ->
  keys (k_vals s) <> [] ->
  samples = true ->
  0 <= counter s ->
  ~ (counter s < 4 /\ sized digits row) ->
  exists s' : store,
    test_step knn samples digits n row s = (s', Raise ValueError).
Proof.
  intros Hknn Hlen Hne Hs Hc Hbad. unfold test_step, loop_body.
  rewrite (bind_ok _ _ s s (k_vals s)) by reflexivity.
  rewrite (bind_ok _ _ s s ps) by (unfold method, lift; now rewrite Hknn).
  rewrite (bind_ok _ _ s s (k_vals s)) by reflexivity.
  erewrite bind_ok
    by (apply score_run; [auto|rewrite Hlen; simpl; lia]).
  rewrite Hs.
  destruct (index_last_nth ps) as (guess & Hlast & Hnth).
  { intros E. rewrite E in Hlen. destruct (keys (k_vals s));
      [congruence|discriminate]. }
  unfold bind, lift, read_counter, subplot, reshape, imshow, next_row.
  rewrite Hlast. cbn [counter put_k_vals].
  destruct (Z.leb_spec (counter s + 1) 4) as [Hfour|Hfive].
  - replace (1 <=? counter s + 1) with true
      by (symmetry; apply Z.leb_le; lia).
    cbn [andb pixels put_figure].
    destruct (Z.eqb_spec (Z.of_nat (List.length (pixels row)))
                (height digits * width digits)) as [Hsize|Hsize].
    + exfalso. apply Hbad. split; [lia|exact Hsize].
    + eexists. reflexivity.
  - rewrite andb_false_r. eexists. reflexivity.
Qed.

Lemma hits_cons (kv : dict) (idx : nat) (row : test_row)
  (rows : list test_row) :
  hits knn kv idx (row :: rows) =
  (if row_hit knn kv idx row then 1 else 0) + hits knn kv idx rows.
Proof.
  unfold hits. cbn [filter].
  destruct (row_hit knn kv idx row); cbn [List.length]; lia.
Qed.

Lemma hits_bounds (kv : dict) (idx : nat) (rows : list test_row) :
  0 <= hits knn kv idx rows <= Z.of_nat (List.length rows).
Proof.
  unfold hits. pose proof (filter_length_le (row_hit knn kv idx) rows). lia.
Qed.

(** The classifier looks at the keys of [k_vals] only, and answers with
    one prediction per key. *)
Hypothesis knn_keys : forall q d d', keys d = keys d' -> knn q d = knn q d'.
Hypothesis knn_length :
  forall q d ps, knn q d = Ok ps -> List.length ps = List.length (keys d).
(** The number of rows is one that [float] can hold. *)
Hypothesis n_fits : samples = false -> Z.abs n < float_limit.

Variable kv0 : dict.
Hypothesis kv0_nodup : NoDup (keys kv0).
Hypothesis kv0_nonempty : keys kv0 <> [].

Lemma for_rows_run :
  forall (rows : list test_row) (s : store),
    keys (k_vals s) = keys kv0 ->
    (forall row, In row rows -> exists ps, knn (pixels row) kv0 = Ok ps) ->
    (samples = true ->
     0 <= counter s /\ counter s + Z.of_nat (List.length rows) <= 4 /\
     Forall (sized digits) rows) ->
    exists s' : store,
      for_rows knn samples digits n rows s = (s', Ok tt) /\
      keys (k_vals s') = keys kv0 /\
      counter s' = counter s + Z.of_nat (List.length rows) /\
      (forall idx k c,
          nth_error (keys kv0) idx = Some k ->
          get (k_vals s) k = Some c ->
          get (k_vals s') k = Some (c + hits knn kv0 idx rows)) /\
      (forall idx k,
          nth_error (keys kv0) idx = Some k ->
          times (writes s') k = times (writes s) k + hits knn kv0 idx rows) /\
      df_train_sample s' = df_train_sample s /\
      df_test_sample s' = df_test_sample s /\
      if samples
      then exists ts, titles (figure s') = titles (figure s) ++ ts /\
                      Forall2 (headline knn kv0) rows ts
      else figure s' = figure s.
Proof.
  induction rows as [|row rows IH]; intros s Hkeys Hok Hplot.
  - exists s. cbn [for_rows]. unfold ret.
    split; [reflexivity|]. split; [exact Hkeys|]. split; [simpl; lia|].
    unfold hits. simpl. split; [|split; [|split; [|split]]]; try reflexivity.
    + intros idx k c _ Hget. rewrite Hget. f_equal. lia.
    + intros idx k _. lia.
    + destruct samples; [|reflexivity].
      exists []. split; [now rewrite app_nil_r|constructor].
  - destruct (Hok row (or_introl eq_refl)) as [ps Hps].
    assert (Hps' : knn (pixels row) (k_vals s) = Ok ps)
      by (rewrite <- Hps; apply knn_keys, Hkeys).
    assert (Hlen : List.length ps = List.length (keys (k_vals s)))
      by (apply (knn_length _ _ _ Hps')).
    destruct (test_step_run row s ps Hps' Hlen)
      as (s1 & Hstep & Hkv1 & Hw1 & Hc1 & Htr1 & Hte1 & Hfig1).
    { rewrite Hkeys; exact kv0_nonempty. }
    { intros Hs. destruct (Hplot Hs) as (H0 & H4 & Hsized).
      cbn [List.length] in H4. split; [lia|].
      now inversion Hsized. }
    { exact n_fits. }
    assert (Hkeys1 : keys (k_vals s1) = keys kv0)
      by (rewrite Hkv1, keys_bump_all; exact Hkeys).
    destruct (IH s1 Hkeys1 (fun r Hr => Hok r (or_intror Hr)))
      as (s' & Hrun & Hkeys' & Hc' & Hget' & Hw' & Htr' & Hte' & Hfig').
    { intros Hs. destruct (Hplot Hs) as (H0 & H4 & Hsized).
      cbn [List.length] in H4. split; [lia|]. split; [lia|].
      now inversion Hsized. }
    exists s'. cbn [for_rows].
    rewrite (bind_ok _ _ _ _ _ Hstep).
    split; [exact Hrun|]. split; [exact Hkeys'|].
    split; [rewrite Hc', Hc1; simpl List.length; lia|].
    assert (Hscore : forall idx k,
               nth_error (keys kv0) idx = Some k ->
               times (scored ps (label row) 0 (keys (k_vals s))) k
               = if row_hit knn kv0 idx row then 1 else 0).
    { intros idx k Hk. rewrite Hkeys.
      rewrite (times_scored ps (label row) (keys kv0) 0 idx k kv0_nodup Hk).
      unfold row_hit. rewrite Hps. reflexivity. }
    split; [|split; [|split; [|split]]].
    + intros idx k c Hk Hget. rewrite hits_cons.
      rewrite (Hget' idx k (c + (if row_hit knn kv0 idx row then 1 else 0)) Hk).
      * f_equal. lia.
      * rewrite Hkv1, (get_bump_all _ _ k c Hget), (Hscore idx k Hk).
        reflexivity.
    + intros idx k Hk.
      rewrite (Hw' idx k Hk), Hw1, times_app, (Hscore idx k Hk), hits_cons.
      lia.
    + congruence.
    + congruence.
    + destruct samples; [|congruence].
      destruct Hfig1 as (_ & guess & Hguess & Hfig1).
      destruct Hfig' as (ts & Hts & Hheads).
      exists ((guess, label row) :: ts). split.
      * rewrite Hts, Hfig1. unfold plot.
        clear. induction (figure s) as [|[num g a|img] fig IHfig];
          cbn [app titles]; [reflexivity|now rewrite IHfig|exact IHfig].
      * constructor; [|exact Hheads].
        split; [reflexivity|]. unfold prediction. rewrite Hps. cbn [fst].
        rewrite <- Hguess. f_equal.
        rewrite Hlen, Hkeys. reflexivity.
Qed.
End LoopFacts.

(** ** What the loop leaves alone *)

Section FrameFacts.
Import PyDict Main.

Variable knn : list Z -> dict -> result (list Z).
Variable samples digits : bool.
Variable n : Z.

(** Two stores with the same DataFrames. *)
Local Abbreviation same_frames s s' :=
  (df_train_sample s' = df_train_sample s /\
   df_test_sample s' = df_test_sample s).

Lemma increment_frames (k : Z) (s : store) :
  same_frames s (fst (increment k s)).
Proof.
  unfold increment, bind, read_k_vals, lift, getitem, setitem.
  destruct (get (k_vals s) k); split; reflexivity.
Qed.

Lemma score_frames (predictions : list Z) (actual : Z) :
  forall (ks : list Z) (idx : nat) (s : store),
    same_frames s (fst (score predictions actual idx ks s)).
Proof.
  induction ks as [|k ks IH]; intros idx s; [split; reflexivity|].
  cbn [score].
  destruct (index predictions idx) as [p|e] eqn:Hp.
  - rewrite (bind_ok _ _ s s p) by reflexivity.
    destruct (p =? actual).
    + pose proof (increment_frames k s) as [Htr Hte].
      destruct (increment k s) as [s1 [[]|e]] eqn:Hinc; cbn [fst] in Htr, Hte.
      * rewrite (bind_ok _ _ _ _ _ Hinc).
        destruct (IH (S idx) s1) as [Htr' Hte']. split; congruence.
      * rewrite (bind_raise _ _ _ _ _ Hinc). split; assumption.
    + rewrite (bind_ok _ _ s s tt) by reflexivity. apply IH.
  - rewrite (bind_raise _ _ s s e) by reflexivity.
    split; reflexivity.
Qed.

Lemma test_step_frames (row : test_row) (s : store) :
  same_frames s (fst (test_step knn samples digits n row s)).
Proof.
  unfold test_step, loop_body.
  rewrite (bind_ok _ _ s s (k_vals s)) by reflexivity.
  destruct (knn (pixels row) (k_vals s)) as [ps|e] eqn:Hknn.
  2:{ rewrite (bind_raise _ _ s s e)
        by (unfold method, lift; now rewrite Hknn).
      split; reflexivity. }
  rewrite (bind_ok _ _ s s ps) by (unfold method, lift; now rewrite Hknn).
  rewrite (bind_ok _ _ s s (k_vals s)) by reflexivity.
  pose proof (score_frames ps (label row) (keys (k_vals s)) 0 s)
    as [Htr Hte].
  destruct (score ps (label row) 0 (keys (k_vals s)) s)
    as [s1 [[]|e]] eqn:Hscore; cbn [fst] in Htr, Hte.
  2:{ rewrite (bind_raise _ _ _ _ _ Hscore). split; assumption. }
  rewrite (bind_ok _ _ _ _ _ Hscore).
  unfold bind, lift, read_counter, subplot, reshape, imshow, progress,
    next_row.
  destruct samples; [|destruct (float_of_int n); split; assumption].
  destruct (index_last ps) as [guess|e]; [|split; assumption].
  destruct ((1 <=? counter s1 + 1) && (counter s1 + 1 <=? 4));
    [|split; assumption].
  cbn [pixels put_figure].
  destruct (Z.of_nat (List.length (pixels row))
            =? height digits * width digits); split; assumption.
Qed.

Lemma for_rows_frames :
  forall (rows : list test_row) (s : store),
    same_frames s (fst (for_rows knn samples digits n rows s)).
Proof.
  induction rows as [|row rows IH]; intros s; [split; reflexivity|].
  cbn [for_rows]. pose proof (test_step_frames row s) as [Htr Hte].
  destruct (test_step knn samples digits n row s) as [s1 [[]|e]] eqn:Hrow;
    cbn [fst] in Htr, Hte.
  - rewrite (bind_ok _ _ _ _ _ Hrow).
    destruct (IH s1) as [Htr' Hte']. split; congruence.
  - rewrite (bind_raise _ _ _ _ _ Hrow). split; assumption.
Qed.
End FrameFacts.

(** ** The run of the driver *)

Section MainFacts.
Import PyDict Main.

(** The fields of a report, from the store the run ends in. *)
Lemma main_fields (knn : list Z -> dict -> result (list Z))
  (samples digits : bool) (s s' : store) (rep : report) :
  main knn samples digits s = (s', Ok rep) ->
  fst (for_rows knn samples digits
         (Z.of_nat (List.length (df_test_sample s))) (df_test_sample s) s)
  = s' /\
  guesses_by_k rep = k_vals s' /\
  py_max (get (k_vals s')) (keys (k_vals s')) = Ok (chosen_k rep) /\
  get (k_vals s') (chosen_k rep) = Some (correct rep) /\
  total rep = Z.of_nat (List.length (df_test_sample s')) /\
  trained rep = Z.of_nat (List.length (df_train_sample s')) /\
  percentage (correct rep) (total rep) = Ok (percent rep) /\
  shown rep = titles (figure s').
Proof.
  unfold main. rewrite (bind_ok _ _ s s (df_test_sample s)) by reflexivity.
  unfold bind at 1.
  destruct (for_rows knn samples digits _ (df_test_sample s) s)
    as [s1 [[]|e]]; [|discriminate].
  unfold bind at 1, read_k_vals, bind at 1, lift at 1.
  destruct (py_max (get (k_vals s1)) (keys (k_vals s1))) as [k|e] eqn:Hmax;
    [|discriminate].
  unfold bind at 1, read_train, bind at 1, read_test, bind at 1, lift at 1.
  destruct (get (k_vals s1) k) as [c|] eqn:Hc; [|discriminate].
  unfold bind at 1, lift at 1.
  destruct (percentage c _) as [pc|e] eqn:Hpc; [|discriminate].
  unfold bind, read_figure, ret. intros [= <- <-]. cbn.
  repeat split; assumption.
Qed.

Lemma main_after_loop (knn : list Z -> dict -> result (list Z))
  (samples digits : bool) (s s' : store) :
  for_rows knn samples digits (Z.of_nat (List.length (df_test_sample s)))
    (df_test_sample s) s = (s', Ok tt) ->
  keys (k_vals s') <> [] ->
  exists k c,
    py_max (get (k_vals s')) (keys (k_vals s')) = Ok k /\
    get (k_vals s') k = Some c /\
    main knn samples digits s =
    (s', match percentage c (Z.of_nat (List.length (df_test_sample s))) with
         | Ok pc =>
             Ok {| guesses_by_k := k_vals s'; chosen_k := k;
                   correct := c;
                   total := Z.of_nat (List.length (df_test_sample s));
                   trained := Z.of_nat (List.length (df_train_sample s));
                   percent := pc; shown := titles (figure s') |}
         | Raise e => Raise e
         end).
Proof.
  intros Hloop Hne.
  pose proof (for_rows_frames knn samples digits
                (Z.of_nat (List.length (df_test_sample s)))
                (df_test_sample s) s) as [Htr Hte].
  rewrite Hloop in Htr, Hte. cbn [fst] in Htr, Hte.
  destruct (py_max_first_best (k_vals s') Hne)
    as (k & c & i & Hmax & Hget & _).
  exists k, c. split; [exact Hmax|]. split; [exact Hget|].
  unfold main. rewrite (bind_ok _ _ s s (df_test_sample s)) by reflexivity.
  rewrite (bind_ok _ _ _ _ _ Hloop).
  rewrite (bind_ok _ _ s' s' (k_vals s')) by reflexivity.
  rewrite (bind_ok _ _ s' s' k) by (unfold lift; now rewrite Hmax).
  rewrite (bind_ok _ _ s' s' (df_train_sample s')) by reflexivity.
  rewrite (bind_ok _ _ s' s' (df_test_sample s')) by reflexivity.
  rewrite (bind_ok _ _ s' s' c) by (unfold lift; now rewrite Hget).
  rewrite Htr, Hte.
  destruct (percentage c (Z.of_nat (List.length (df_test_sample s))))
    as [pc|e] eqn:Hpc.
  - rewrite (bind_ok _ _ s' s' pc) by reflexivity.
    reflexivity.
  - rewrite (bind_raise _ _ s' s' e) by reflexivity.
    reflexivity.
Qed.
End MainFacts.

(** C3: after the test examples are processed, the selected k is a k of
    the candidate set whose counter is the highest, and of the k values
    that tie for the highest counter the first in iteration order; on the
    k set inserted as 3, 1 a run with 1 and 2 correct answers selects
    k = 1, and a run with 1 and 1 correct answers selects k = 3. *)
Theorem selected_k_first_best :
  (forall kv : PyDict.dict,
      PyDict.keys kv <> [] ->
      exists (k c : Z) (i : nat),
        py_max (PyDict.get kv) (PyDict.keys kv) = Ok k /\
        PyDict.get kv k = Some c /\
        nth_error (PyDict.keys kv) i = Some k /\
        (forall k' c', In k' (PyDict.keys kv) ->
                       PyDict.get kv k' = Some c' -> c' <= c) /\
        (forall j k' c', (j < i)%nat ->
                         nth_error (PyDict.keys kv) j = Some k' ->
                         PyDict.get kv k' = Some c' -> c' < c)) /\
  (forall knn samples digits s s' rep,
      Main.main knn samples digits s = (s', Ok rep) ->
      py_max (PyDict.get (Main.k_vals s')) (PyDict.keys (Main.k_vals s'))
      = Ok (Main.chosen_k rep)) /\
  Scenario.k_vals_31 = [(3, 0); (1, 0)] /\
  (exists rep,
      snd (Main.main (KNN.knn Scenario.training) false true
             (Scenario.start [Scenario.row_a; Scenario.row_b])) = Ok rep /\
      Main.guesses_by_k rep = [(3, 1); (1, 2)] /\
      Main.chosen_k rep = 1) /\
  (exists rep,
      snd (Main.main (KNN.knn Scenario.training) false true
             (Scenario.start [Scenario.row_a; Scenario.row_c])) = Ok rep /\
      Main.guesses_by_k rep = [(3, 1); (1, 1)] /\
      Main.chosen_k rep = 3).
Proof.
  split; [exact py_max_first_best|]. split.
  - intros knn samples digits s s' rep Hmain.
    apply (main_fields knn samples digits s s' rep Hmain).
  - split; [reflexivity|].
    split; eexists; (split; [vm_compute; reflexivity|split; reflexivity]).
Qed.

(** The theorem on the dictionary 3 -> 1, 1 -> 1, where the first key
    wins, and on the run over the test rows a and b, which chooses k = 1. *)
Lemma selected_k_first_best_witness :
  (exists (k c : Z) (i : nat),
      py_max (PyDict.get [(3, 1); (1, 1)]) (PyDict.keys [(3, 1); (1, 1)])
      = Ok k /\ k = 3 /\ c = 1 /\ i = 0%nat) /\
  (exists s' rep,
      Main.main (KNN.knn Scenario.training) false true
        (Scenario.start [Scenario.row_a; Scenario.row_b])
      = (s', Ok rep) /\
      py_max (PyDict.get (Main.k_vals s')) (PyDict.keys (Main.k_vals s'))
      = Ok (Main.chosen_k rep) /\
      Main.chosen_k rep = 1).
Proof.
  split.
  - destruct (proj1 selected_k_first_best [(3, 1); (1, 1)])
      as (k & c & i & Hmax & Hget & Hi & _).
    + discriminate.
    + exists k, c, i. split; [exact Hmax|].
      vm_compute in Hmax. injection Hmax as <-.
      vm_compute in Hget. injection Hget as <-.
      destruct i as [|[|[|i]]]; vm_compute in Hi; try discriminate.
      repeat split; reflexivity.
  - destruct (Main.main (KNN.knn Scenario.training) false true
                (Scenario.start [Scenario.row_a; Scenario.row_b]))
      as [s' [rep|e]] eqn:Hrun.
    + exists s', rep. split; [reflexivity|]. split.
      * apply (proj1 (proj2 selected_k_first_best)
                 (KNN.knn Scenario.training) false true
                 (Scenario.start [Scenario.row_a; Scenario.row_b])
                 s' rep Hrun).
      * vm_compute in Hrun. injection Hrun as _ <-. reflexivity.
    + vm_compute in Hrun. discriminate.
Defined.

(** ** The classifier as the driver sees it *)

Section KnnAsMethod.
Import PyDict Main.

Lemma vote_all_length (ranked : list (Z * Z)) (ks : list Z) :
  forall ps, KNN.vote_all ranked ks = Ok ps ->
             List.length ps = List.length ks.
Proof.
  induction ks as [|k ks IH]; intros ps; cbn [KNN.vote_all].
  - intros [= <-]. reflexivity.
  - destruct (KNN.vote ranked k) as [l|e]; [|discriminate]. cbn [rbind].
    destruct (KNN.vote_all ranked ks) as [ls|e]; [|discriminate].
    cbn [rbind]. intros [= <-]. simpl. f_equal. now apply IH.
Qed.

Lemma knn_reads_keys (training : list KNN.example) (q : list Z)
  (d d' : dict) :
  keys d = keys d' -> KNN.knn training q d = KNN.knn training q d'.
Proof. intros E. unfold KNN.knn. now rewrite E. Qed.

Lemma knn_one_per_key (training : list KNN.example) (q : list Z)
  (d : dict) (ps : list Z) :
  KNN.knn training q d = Ok ps ->
  List.length ps = List.length (keys d).
Proof.
  unfold KNN.knn. destruct training as [|ex rest]; [discriminate|].
  destruct (KNN.rank q (ex :: rest)) as [ranked|e]; [|discriminate].
  cbn [rbind]. unfold KNN.classify.
  destruct (forallb (KNN.enough ranked) (keys d)); [|discriminate].
  apply vote_all_length.
Qed.

End KnnAsMethod.

(** C4, as the driver has it: the loop visits every test row once; for
    every k of the candidate set the counter ends at the number of test
    rows whose prediction for that k equals the true label, one increment
    per such row, a number between 0 and N.  An accuracy is reported for
    the chosen k only: the percentage [float(count) / N * 100], computed
    in double precision.  When samples are shown the rows must fit the
    plots, or the loop ends early with an error; and N is a number that
    [float] can hold. *)
Theorem counters_count_hits
  (knn : list Z -> PyDict.dict -> result (list Z)) (samples digits : bool)
  (kvals : list Z) (train tests : list Main.test_row) :
  (forall q d d', PyDict.keys d = PyDict.keys d' -> knn q d = knn q d') ->
  (forall q d ps, knn q d = Ok ps ->
                  List.length ps = List.length (PyDict.keys d)) ->
  let kv0 := Main.parse_k_vals digits kvals in
  let N := Z.of_nat (List.length tests) in
  (forall row, In row tests -> exists ps, knn (Main.pixels row) kv0 = Ok ps) ->
  (samples = true -> Main.plottable digits tests) ->
  N < Main.float_limit ->
  exists s' : Main.store,
    Main.for_rows knn samples digits N tests (Main.initial kv0 train tests)
    = (s', Ok tt) /\
    PyDict.keys (Main.k_vals s') = PyDict.keys kv0 /\
    Main.counter s' = N /\
    (forall idx k,
        nth_error (PyDict.keys kv0) idx = Some k ->
        PyDict.get (Main.k_vals s') k = Some (Main.hits knn kv0 idx tests) /\
        Main.times (Main.writes s') k = Main.hits knn kv0 idx tests /\
        0 <= Main.hits knn kv0 idx tests <= N) /\
    (tests <> [] ->
     exists rep : Main.report,
       Main.main knn samples digits (Main.initial kv0 train tests)
       = (s', Ok rep) /\
       Main.guesses_by_k rep = Main.k_vals s' /\
       PyDict.get (Main.k_vals s') (Main.chosen_k rep)
       = Some (Main.correct rep) /\
       Main.total rep = N /\
       Main.percent rep
       = PrimFloat.mul
           (PrimFloat.div (Main.to_float (Main.correct rep))
              (Main.to_float N))
           (Main.to_float 100)).
Proof.
  intros Hkeys Hlen kv0 N Hok Hplot Hlimit.
  assert (Hne : PyDict.keys kv0 <> []) by apply parse_k_vals_nonempty.
  assert (Hnd : NoDup (PyDict.keys kv0)) by apply fromkeys_nodup.
  destruct (for_rows_run knn samples digits N Hkeys Hlen
              ltac:(intros _; unfold N in *; lia) kv0 Hnd Hne tests
              (Main.initial kv0 train tests) eq_refl Hok)
    as (s' & Hrun & Hkeys' & Hcount & Hget & Hwrites & _).
  { intros Hs. destruct (Hplot Hs) as [Hfour Hsized].
    cbn [Main.initial Main.counter]. split; [lia|]. split; [lia|exact Hsized]. }
  assert (Hhits : forall idx k,
             nth_error (PyDict.keys kv0) idx = Some k ->
             PyDict.get (Main.k_vals s') k
             = Some (Main.hits knn kv0 idx tests)).
  { intros idx k Hk.
    destruct (get_in_keys kv0 k (nth_error_In _ _ Hk)) as [c Hc].
    assert (c = 0) as -> by (apply (fromkeys_values _ 0 k c Hc)).
    rewrite (Hget idx k 0 Hk Hc). f_equal. }
  exists s'. split; [exact Hrun|]. split; [exact Hkeys'|].
  split; [rewrite Hcount; simpl; lia|]. split.
  - intros idx k Hk. split; [apply (Hhits idx k Hk)|]. split.
    + rewrite (Hwrites idx k Hk). reflexivity.
    + apply hits_bounds.
  - intros Htests.
    destruct (main_after_loop knn samples digits _ s' Hrun)
      as (k & c & Hmax & Hc & Hmain); [rewrite Hkeys'; exact Hne|].
    cbn [Main.initial Main.df_test_sample Main.df_train_sample] in Hmain.
    fold N in Hmain.
    assert (HN : 0 < N)
      by (unfold N; destruct tests; [congruence|simpl; lia]).
    assert (Hin : In k (PyDict.keys kv0))
      by (rewrite <- Hkeys'; eapply get_some_in_keys, Hc).
    destruct (In_nth_error _ _ Hin) as [idx Hidx].
    pose proof (Hhits idx k Hidx) as Hck. rewrite Hc in Hck.
    injection Hck as ->.
    rewrite percentage_ok in Hmain
      by (try apply hits_bounds; assumption).
    eexists. split; [exact Hmain|]. cbn.
    repeat split. exact Hc.
Qed.

(** The theorem on the six training points, the k values 3 and 1 and the
    test rows a and b: k = 3 is right once, k = 1 twice, and the run
    reports 2 correct answers out of 2, which is 100 per cent. *)
Lemma counters_count_hits_witness :
  exists (s' : Main.store) (rep : Main.report),
    Main.for_rows (KNN.knn Scenario.training) false true 2
      [Scenario.row_a; Scenario.row_b]
      (Scenario.start [Scenario.row_a; Scenario.row_b])
    = (s', Ok tt) /\
    Main.k_vals s' = [(3, 1); (1, 2)] /\
    Main.main (KNN.knn Scenario.training) false true
      (Scenario.start [Scenario.row_a; Scenario.row_b])
    = (s', Ok rep) /\
    Main.correct rep = 2 /\ Main.total rep = 2 /\
    Main.percent rep = Main.to_float 100.
Proof.
  destruct (counters_count_hits (KNN.knn Scenario.training) false true
              [1; 3] (Scenario.frame Scenario.training)
              [Scenario.row_a; Scenario.row_b]
              (knn_reads_keys Scenario.training)
              (knn_one_per_key Scenario.training))
    as (s' & Hrun & _ & _ & _ & Hreport).
  - intros row [<-|[<-|[]]]; eexists; vm_compute; reflexivity.
  - discriminate.
  - vm_compute. reflexivity.
  - destruct Hreport as (rep & Hmain & _); [discriminate|].
    exists s', rep. split; [exact Hrun|].
    pose proof Hmain as Hvalue. vm_compute in Hvalue.
    injection Hvalue as <- <-.
    split; [reflexivity|]. split; [exact Hmain|].
    split; [reflexivity|]. split; [reflexivity|].
    vm_compute. reflexivity.
Defined.

(** On the rows a and b the counters end at 1 for k = 3 and 2 for k = 1:
    the one accuracy reported is 100.0, that of the chosen k = 1, and it
    is neither 1 / 2, the count of k = 3 divided by N, nor 2 / 2, the
    count of k = 1 divided by N.  And a run that shows four rows of one
    pixel ends with [ValueError] at the first row, after the counter of
    k = 1 has been written: the other rows are never visited. *)
Lemma accuracy_of_every_k_counterexample :
  (exists rep : Main.report,
      snd (Main.main (KNN.knn Scenario.training) false true
             (Scenario.start [Scenario.row_a; Scenario.row_b])) = Ok rep /\
      Main.guesses_by_k rep = [(3, 1); (1, 2)] /\
      Main.total rep = 2 /\
      Main.chosen_k rep = 1 /\
      Main.percent rep = Main.to_float 100 /\
      PrimFloat.eqb (Main.percent rep)
        (PrimFloat.div (Main.to_float 1) (Main.to_float 2)) = false /\
      PrimFloat.eqb (Main.percent rep)
        (PrimFloat.div (Main.to_float 2) (Main.to_float 2)) = false) /\
  (let run := Main.main (KNN.knn Scenario.training) true true
                (Scenario.start [Scenario.row_a; Scenario.row_c;
                                 Scenario.row_b; Scenario.row_a]) in
   snd run = Raise ValueError /\
   Main.k_vals (fst run) = [(3, 0); (1, 1)] /\
   Main.counter (fst run) = 0).
Proof.
  split.
  - eexists. split; [vm_compute; reflexivity|].
    repeat split; vm_compute; reflexivity.
  - cbv zeta. repeat split; vm_compute; reflexivity.
Qed.

Section PlotFacts.
Import PyDict Main.

End PlotFacts.



Section ErrorFacts.
Import PyDict Main.

Lemma main_no_tests (knn : list Z -> dict -> result (list Z))
  (samples digits : bool) (kv0 : dict) (train : list test_row) :
  keys kv0 <> [] ->
  all_values 0 kv0 ->
  main knn samples digits (initial kv0 train [])
  = (initial kv0 train [], Raise ZeroDivisionError).
Proof.
  intros Hne Hzero.
  destruct (main_after_loop knn samples digits (initial kv0 train [])
              (initial kv0 train []) eq_refl Hne)
    as (k & c & _ & Hc & Hmain).
  cbn [initial k_vals] in Hc. rewrite (Hzero k c Hc) in Hmain.
  cbn [initial df_test_sample List.length Z.of_nat] in Hmain.
  rewrite percentage_no_rows in Hmain
    by (pose proof float_limit_pos; simpl; lia).
  exact Hmain.
Qed.

Lemma main_first_row_fails (knn : list Z -> dict -> result (list Z))
  (samples digits : bool) (kv0 : dict) (train : list test_row)
  (row : test_row) (rows : list test_row) (e : exn) :
  knn (pixels row) kv0 = Raise e ->
  main knn samples digits (initial kv0 train (row :: rows))
  = (initial kv0 train (row :: rows), Raise e).
Proof.
  intros Hfail. unfold main.
  rewrite (bind_ok _ _ _ _ (row :: rows)) by reflexivity.
  apply bind_raise.
  cbn [for_rows]. apply bind_raise. unfold test_step, loop_body.
  rewrite (bind_ok _ _ _ _ kv0) by reflexivity.
  apply bind_raise. unfold method, lift. cbn [initial k_vals].
  now rewrite Hfail.
Qed.
End ErrorFacts.

(** C7, as the driver has it, for a run that shows no samples and has
    reached the loop (the data are loaded, the classifier is
    constructed): no precondition is checked.  With no test row the loop
    does nothing, the choice of k is made, and the run then fails with a
    division by zero when the accuracy is computed; and when the call of
    the classifier raises an error for the first test row, the run ends
    with that error.  In both cases every counter still has its initial
    value 0. *)
Theorem errors_leave_counters_zero
  (knn : list Z -> PyDict.dict -> result (list Z)) (digits : bool)
  (kvals : list Z) (train : list Main.test_row) :
  let kv0 := Main.parse_k_vals digits kvals in
  PyDict.all_values 0 kv0 /\
  (exists k, py_max (PyDict.get kv0) (PyDict.keys kv0) = Ok k) /\
  Main.main knn false digits (Main.initial kv0 train [])
  = (Main.initial kv0 train [], Raise ZeroDivisionError) /\
  (forall row rows e,
      knn (Main.pixels row) kv0 = Raise e ->
      Main.main knn false digits (Main.initial kv0 train (row :: rows))
      = (Main.initial kv0 train (row :: rows), Raise e)).
Proof.
  intros kv0.
  assert (Hne : PyDict.keys kv0 <> []) by apply parse_k_vals_nonempty.
  assert (Hzero : PyDict.all_values 0 kv0) by apply fromkeys_values.
  split; [exact Hzero|].
  split.
  { destruct (py_max_first_best kv0 Hne) as (k & _ & _ & Hmax & _).
    exists k. exact Hmax. }
  split; [now apply main_no_tests|].
  intros row rows e. apply main_first_row_fails.
Qed.

(** The theorem with the classifier trained on the six points of one
    pixel and a first test row of two pixels, for which the call raises
    DimensionMismatch: the counters are untouched. *)
Lemma errors_leave_counters_zero_witness :
  Main.main (KNN.knn Scenario.training) false true
    (Scenario.start [Scenario.row_wide; Scenario.row_b])
  = (Scenario.start [Scenario.row_wide; Scenario.row_b],
     Raise (KnnError DimensionMismatch)) /\
  Main.k_vals (Scenario.start [Scenario.row_wide; Scenario.row_b])
  = [(3, 0); (1, 0)].
Proof.
  split; [|reflexivity].
  apply (proj2 (proj2 (proj2 (errors_leave_counters_zero
           (KNN.knn Scenario.training) true [1; 3]
           (Scenario.frame Scenario.training))))
           Scenario.row_wide [Scenario.row_b]
           (KnnError DimensionMismatch)).
  reflexivity.
Defined.

(** A run on the six training points with no test row: the choice of k
    succeeds and the error is the division by zero, not EmptyDataset. *)
Lemma no_tests_counterexample :
  py_max (PyDict.get (Main.parse_k_vals true []))
    (PyDict.keys (Main.parse_k_vals true [])) = Ok 1 /\
  snd (Main.main (KNN.knn Scenario.training) false true
         (Main.initial (Main.parse_k_vals true [])
            (Scenario.frame Scenario.training) []))
  = Raise ZeroDivisionError /\
  snd (Main.main (KNN.knn Scenario.training) false true
         (Main.initial (Main.parse_k_vals true [])
            (Scenario.frame Scenario.training) []))
  <> Raise (KnnError EmptyDataset).
Proof.
  split; [reflexivity|]. split; [vm_compute; reflexivity|].
  vm_compute. discriminate.
Qed.

(** C8, as the loop has it.  For one test row, once the call of the
    classifier has returned, each counter is written at most once: once
    when the prediction of its k equals the true label and not at all
    otherwise, and the counter then grows by one; no key is added or
    removed.  Besides the counters the statements of the loop change its
    progress variables, [counter] by one and, when no samples are shown,
    [print_counter], and, when samples are shown, the pyplot figure,
    which receives the plot of the row.  They leave the two DataFrames
    as they are; and with a classifier that is a function, the
    DataFrames are the same after every run of the loop, however it
    ends.  The row is one that can be shown, when samples are shown,
    and the number of rows one that [float] can hold, when they are
    not. *)
Theorem counter_written_when_right :
  (forall (call : list Z -> PyDict.dict -> Main.M (list Z))
          (samples digits : bool) (n : Z) (row : Main.test_row)
          (s s1 : Main.store) (ps : list Z),
      call (Main.pixels row) (Main.k_vals s) s = (s1, Ok ps) ->
      NoDup (PyDict.keys (Main.k_vals s1)) ->
      PyDict.keys (Main.k_vals s1) <> [] ->
      List.length ps = List.length (PyDict.keys (Main.k_vals s1)) ->
      (samples = true ->
       0 <= Main.counter s1 < 4 /\ Main.sized digits row) ->
      (samples = false -> Z.abs n < Main.float_limit) ->
      exists (s' : Main.store) (ws : list Z),
        Main.loop_body call samples digits n row s = (s', Ok tt) /\
        Main.writes s' = Main.writes s1 ++ ws /\
        PyDict.keys (Main.k_vals s') = PyDict.keys (Main.k_vals s1) /\
        (forall idx k c,
            nth_error (PyDict.keys (Main.k_vals s1)) idx = Some k ->
            PyDict.get (Main.k_vals s1) k = Some c ->
            Main.times ws k
            = (if Main.hit ps (Main.label row) idx then 1 else 0) /\
            PyDict.get (Main.k_vals s') k = Some (c + Main.times ws k)) /\
        (forall k, ~ In k (PyDict.keys (Main.k_vals s1)) ->
                   Main.times ws k = 0) /\
        Main.counter s' = Main.counter s1 + 1 /\
        Main.df_train_sample s' = Main.df_train_sample s1 /\
        Main.df_test_sample s' = Main.df_test_sample s1 /\
        (samples = true ->
         Main.print_counter s' = Main.print_counter s1 /\
         exists guess,
           Main.figure s'
           = Main.figure s1 ++ Main.plot (Main.counter s1 + 1) guess row) /\
        (samples = false -> Main.figure s' = Main.figure s1)) /\
  (forall (knn : list Z -> PyDict.dict -> result (list Z))
          (samples digits : bool) (n : Z) (rows : list Main.test_row)
          (s : Main.store),
      let s' := fst (Main.for_rows knn samples digits n rows s) in
      Main.df_train_sample s' = Main.df_train_sample s /\
      Main.df_test_sample s' = Main.df_test_sample s).
Proof.
  split.
  - intros call samples digits n row s s1 ps Hcall Hnd Hne Hlen Hplot Hfits.
    destruct (loop_body_run call samples digits n row s s1 ps Hcall Hlen
                Hne Hplot Hfits)
      as (s' & Hstep & Hkv & Hw & Hc & Htr & Hte & Hshown).
    exists s',
      (Main.scored ps (Main.label row) 0 (PyDict.keys (Main.k_vals s1))).
    split; [exact Hstep|]. split; [exact Hw|].
    split; [rewrite Hkv; apply keys_bump_all|].
    split; [|split; [|split; [|split; [|split; [|split]]]]].
    + intros idx k c Hk Hget. split.
      * apply (times_scored ps (Main.label row) _ 0 idx k Hnd Hk).
      * rewrite Hkv. now apply get_bump_all.
    + intros k Hk. now apply times_scored_absent.
    + exact Hc.
    + exact Htr.
    + exact Hte.
    + intros ->. destruct Hshown as (Hpc & guess & _ & Hfig).
      split; [exact Hpc|]. exists guess. exact Hfig.
    + intros ->. exact Hshown.
  - intros knn samples digits n rows s. apply for_rows_frames.
Qed.

(** The theorem on the first step of the run that shows the four test
    images: image a, on which k = 1 is right and k = 3 is wrong, becomes
    the first plot of the figure. *)
Lemma counter_written_when_right_witness :
  exists s' : Main.store,
    Main.loop_body (Main.method (KNN.knn Scenario.digit_training))
      true true 4 Scenario.digit_a Scenario.digit_start = (s', Ok tt) /\
    Main.k_vals s' = [(3, 0); (1, 1)] /\ Main.writes s' = [1] /\
    Main.counter s' = 1 /\
    Main.figure s' = Main.plot 1 0 Scenario.digit_a /\
    Main.df_test_sample s' = Scenario.digit_sample.
Proof.
  destruct (proj1 counter_written_when_right
              (Main.method (KNN.knn Scenario.digit_training)) true true 4
              Scenario.digit_a Scenario.digit_start Scenario.digit_start
              [1; 0])
    as (s' & ws & Hstep & _).
  - vm_compute. reflexivity.
  - vm_compute. repeat constructor; simpl; intuition discriminate.
  - discriminate.
  - reflexivity.
  - intros _. split; [simpl; lia|reflexivity].
  - discriminate.
  - exists s'. split; [exact Hstep|].
    vm_compute in Hstep. injection Hstep as <-.
    repeat split; reflexivity.
Defined.

(** On row a the prediction of k = 3 is wrong: its counter is not written
    during that query, while the loop variable [counter] is; and the step
    that shows image a changes the figure. *)
Lemma written_exactly_once_counterexample :
  let s0 := Scenario.start [Scenario.row_a; Scenario.row_b] in
  let run := Main.test_step (KNN.knn Scenario.training) false true 2
               Scenario.row_a s0 in
  let shown := Main.test_step (KNN.knn Scenario.digit_training) true true 4
                 Scenario.digit_a Scenario.digit_start in
  snd run = Ok tt /\
  In 3 (PyDict.keys (Main.k_vals s0)) /\
  Main.times (Main.writes (fst run)) 3 = 0 /\
  Main.times (Main.writes (fst run)) 3 <> 1 /\
  Main.counter (fst run) <> Main.counter s0 /\
  snd shown = Ok tt /\
  Main.figure (fst shown) <> Main.figure Scenario.digit_start.
Proof.
  cbv zeta. split; [reflexivity|]. split; [simpl; tauto|].
  split; [reflexivity|]. split; [vm_compute; discriminate|].
  split; [vm_compute; discriminate|]. split; [vm_compute; reflexivity|].
  vm_compute. discriminate.
Qed.

(** * Further properties of the loader *)

Section LoaderMore.
Import Loader.
Local Open Scope nat_scope.

(** More rounds do not change a result. *)
Lemma while_lines_more_fuel (height : Z) (fuel : nat) :
  forall (lines : list string) (items : list (list Z))
         (r : result (list (list Z))),
    while_lines fuel height lines items = Some r ->
    forall fuel', fuel <= fuel' ->
                  while_lines fuel' height lines items = Some r.
Proof.
  induction fuel as [|fuel IH]; intros lines items r Hrun fuel' Hle;
    [discriminate|].
  destruct fuel' as [|fuel']; [lia|]. cbn [while_lines] in Hrun |- *.
  destruct (Z.of_nat (List.length lines) >? 0)%Z; [|exact Hrun].
  destruct (for_range (Z.to_nat height) lines []) as [|e|lines' data];
    try exact Hrun.
  apply (IH _ _ _ Hrun). lia.
Qed.

Lemma rev_map_nonempty {A B} (f : A -> B) (l : list A) :
  l <> [] -> rev (map f l) <> [].
Proof.
  intros Hne E. apply (f_equal (@List.length B)) in E.
  rewrite length_rev, length_map in E. destruct l; [congruence|discriminate].
Qed.

Lemma flat_map_pixels_length (w : nat) (ls : list string) :
  Forall (fun l => String.length l = w) ls ->
  List.length (flat_map translate_pixels ls) = List.length ls * w.
Proof.
  induction 1 as [|l ls Hl _ IH]; [reflexivity|].
  cbn [flat_map]. rewrite length_app, translate_pixels_length, IH, Hl.
  simpl. lia.
Qed.

Lemma pixels_in_range (line : string) :
  Forall (fun p => (0 <= p <= 2)%Z) (translate_pixels line).
Proof.
  induction line as [|c rest IH]; simpl; constructor; [|exact IH].
  destruct (pixel_cases c) as [[_ E]|[[_ E]|(_ & _ & E)]]; rewrite E; lia.
Qed.

Lemma in_firstn_skipn {A} (n m : nat) (l : list A) (x : A) :
  In x (firstn n (skipn m l)) -> In x l.
Proof.
  intros Hx. rewrite <- (firstn_skipn m l). apply in_or_app. right.
  rewrite <- (firstn_skipn n (skipn m l)). apply in_or_app. now left.
Qed.

Lemma block_shape (w h : nat) (lines : list string) (i : nat) :
  Forall (fun l => String.length l = w) lines ->
  (i + 1) * h <= List.length lines ->
  List.length (block h lines i) = w * h /\
  Forall (fun p => (0 <= p <= 2)%Z) (block h lines i).
Proof.
  intros Hw Hi. unfold block. split.
  - rewrite (flat_map_pixels_length w).
    + rewrite length_firstn, length_skipn. nia.
    + apply Forall_forall. intros l Hl.
      apply (proj1 (Forall_forall _ _) Hw).
      eapply in_firstn_skipn, Hl.
  - apply Forall_flat_map, Forall_forall. intros l _.
    apply pixels_in_range.
Qed.

(** Lines of one width give examples of one length, which [np.array]
    accepts. *)
Lemma blocks_rectangular (w h : nat) (lines : list string) :
  Forall (fun l => String.length l = w) lines ->
  np_array (map (block h lines) (seq 0 (List.length lines / h)))
  = Ok (map (block h lines) (seq 0 (List.length lines / h))).
Proof.
  intros Hw. apply np_array_uniform.
  assert (Hlen : forall a,
             In a (map (block h lines) (seq 0 (List.length lines / h))) ->
             List.length a = w * h).
  { intros a Ha. apply in_map_iff in Ha. destruct Ha as (i & <- & Hi).
    apply in_seq in Hi. apply block_shape; [exact Hw|].
    pose proof (Nat.Div0.mul_div_le (List.length lines) h). nia. }
  intros a b Ha Hb. now rewrite (Hlen a Ha), (Hlen b Hb).
Qed.

Lemma block_app_left (h : nat) (l1 l2 : list string) (i : nat) :
  (i + 1) * h <= List.length l1 ->
  block h (l1 ++ l2) i = block h l1 i.
Proof.
  intros Hi. unfold block. f_equal.
  rewrite skipn_app, firstn_app, length_skipn.
  replace (h - (List.length l1 - i * h)) with 0 by nia.
  replace (i * h - List.length l1) with 0 by nia.
  cbn [skipn firstn]. now rewrite app_nil_r.
Qed.

Lemma block_app_right (h q : nat) (l1 l2 : list string) (j : nat) :
  List.length l1 = q * h ->
  block h (l1 ++ l2) (q + j) = block h l2 j.
Proof.
  intros Hq. unfold block. f_equal. f_equal.
  rewrite skipn_app, Hq.
  replace ((q + j) * h - q * h) with (j * h) by nia.
  rewrite skipn_all2 by nia. reflexivity.
Qed.

(** What a call that raises on a file that was read has met. *)
Lemma while_lines_raise (height : Z) (fuel : nat) (ls : list string)
  (e : exn) :
  while_lines fuel height (rev ls) [] = Some (Raise e) ->
  (1 <= height)%Z /\ e = ValueError /\
  exists i j,
    i < List.length ls / Z.to_nat height /\
    j < List.length ls / Z.to_nat height /\
    List.length (block (Z.to_nat height) ls i)
    <> List.length (block (Z.to_nat height) ls j).
Proof.
  intros Hrun. destruct (Z_le_gt_dec 1 height) as [Hh|Hh].
  - split; [exact Hh|].
    set (h := Z.to_nat height) in *.
    assert (Hh' : 1 <= h) by (unfold h; lia).
    pose proof (while_lines_more_fuel height fuel _ _ _ Hrun
                  (fuel + (List.length ls / h + 1)) ltac:(lia)) as Hmore.
    rewrite (while_lines_blocks height Hh') in Hmore by (fold h; lia).
    cbn [app] in Hmore. injection Hmore as Hmore.
    destruct (np_array_raise _ _ Hmore) as (-> & a & b & Ha & Hb & Hne).
    split; [reflexivity|].
    apply in_map_iff in Ha. destruct Ha as (i & <- & Hi).
    apply in_map_iff in Hb. destruct Hb as (j & <- & Hj).
    apply in_seq in Hi, Hj. exists i, j. fold h in Hi, Hj, Hne |- *.
    split; [lia|]. split; [lia|exact Hne].
  - exfalso. destruct ls as [|l ls].
    + destruct fuel; discriminate.
    + rewrite while_lines_diverges in Hrun; [discriminate|lia|].
      intros E. apply (f_equal (@List.length string)) in E.
      rewrite length_rev in E. discriminate.
Qed.
End LoaderMore.

(** X1: [load_data_file] fails in three cases only: with the [ValueError]
    of [read_lines] when the file does not exist, with the error of
    [open] or [readlines] when the path exists and cannot be read as
    text, and with the [ValueError] of [np.array] when the file was read
    and two of its examples differ in length.  [pop] is never reached
    with an empty list, whatever the height and the number of rounds. *)
Theorem load_data_file_failures (fuel : nat) (fs : Loader.filesystem)
  (filename : string) (width height : Z) (e : exn) :
  Loader.load_data_file fuel fs filename width height = Some (Raise e) ->
  (fs filename = None /\ e = ValueError) \/
  fs filename = Some (Raise e) \/
  (exists raw : list string,
      fs filename = Some (Ok raw) /\ e = ValueError /\ 1 <= height /\
      let lines := map Loader.drop_last_char raw in
      let h := Z.to_nat height in
      exists i j : nat,
        (i < List.length raw / h)%nat /\ (j < List.length raw / h)%nat /\
        List.length (Loader.block h lines i)
        <> List.length (Loader.block h lines j)).
Proof.
  unfold Loader.load_data_file, Loader.read_lines.
  destruct (fs filename) as [[raw|e0]|].
  - intros Hrun. right. right. exists raw. split; [reflexivity|].
    destruct (while_lines_raise _ _ _ _ Hrun) as (Hh & -> & i & j & Hij).
    rewrite length_map in Hij.
    split; [reflexivity|]. split; [exact Hh|]. exists i, j. exact Hij.
  - intros [= <-]. right. now left.
  - intros [= <-]. left. split; reflexivity.
Qed.

(** The theorem on a file of five lines read with height 2 whose first
    line is longer than the others: the examples 0 and 1 differ in
    length. *)
Lemma load_data_file_failures_witness :
  exists i j : nat,
    List.length (Loader.block 2 ["#+ "; " +"; "##"; "+ "; "+#"]%string i)
    <> List.length (Loader.block 2 ["#+ "; " +"; "##"; "+ "; "+#"]%string j).
Proof.
  destruct (load_data_file_failures 3
              (fun _ => Some (Ok ["#+ x"; " +x"; "##x"; "+ x"; "+#x"]%string))
              "f"%string 2 2 ValueError eq_refl)
    as [[Hnone _]|[Hraise|(raw & Hraw & _ & _ & Hij)]];
    try discriminate.
  injection Hraw as <-. destruct Hij as (i & j & _ & _ & Hne).
  exists i, j. exact Hne.
Defined.

(** X2: with a height of 0 or less no line is ever consumed: an empty file
    still gives no example at once, and on a file with at least one line
    the loop never ends, however many rounds it is given. *)
Theorem load_data_file_height_not_positive (fs : Loader.filesystem)
  (filename : string) (file_lines : list string) (width height : Z) :
  fs filename = Some (Ok file_lines) ->
  height <= 0 ->
  forall fuel : nat,
    Loader.load_data_file (S fuel) fs filename width height =
    match file_lines with
    | [] => Some (Ok [])
    | _ :: _ => None
    end.
Proof.
  intros Hfile Hh fuel. unfold Loader.load_data_file, Loader.read_lines.
  rewrite Hfile. destruct file_lines as [|l ls]; [reflexivity|].
  apply while_lines_diverges; [exact Hh|].
  apply rev_map_nonempty. discriminate.
Qed.

(** The theorem on a file of two lines read with height 0. *)
Lemma load_data_file_height_not_positive_witness :
  Loader.load_data_file 1000 (fun _ => Some (Ok ["##x"; "++x"]%string))
    "f"%string 2 0 = None.
Proof.
  apply (load_data_file_height_not_positive
           (fun _ => Some (Ok ["##x"; "++x"]%string)) "f"%string
           ["##x"; "++x"]%string 2 0 eq_refl).
  lia.
Defined.

(** X3: when every line of the file holds [w] pixels (and its end-of-line
    character), every example returned for a height [h >= 1] has exactly
    [w * h] entries, each 0, 1 or 2; the [width] argument plays no part. *)
Theorem load_data_file_shape (fs : Loader.filesystem) (filename : string)
  (file_lines : list string) (width height : Z) (w : nat) :
  fs filename = Some (Ok file_lines) ->
  1 <= height ->
  Forall (fun l => String.length (Loader.drop_last_char l) = w) file_lines ->
  exists items : list (list Z),
    (forall fuel : nat,
        (List.length file_lines / Z.to_nat height + 1 <= fuel)%nat ->
        Loader.load_data_file fuel fs filename width height
        = Some (Ok items)) /\
    Forall (fun ex => Z.of_nat (List.length ex) = Z.of_nat w * height /\
                      Forall (fun p => 0 <= p <= 2) ex) items.
Proof.
  intros Hfile Hh Hw.
  set (h := Z.to_nat height).
  set (lines := map Loader.drop_last_char file_lines).
  assert (Hh' : (1 <= h)%nat) by (unfold h; lia).
  assert (HL : List.length lines = List.length file_lines)
    by apply length_map.
  assert (Hw' : Forall (fun l => String.length l = w) lines).
  { unfold lines. apply Forall_map. exact Hw. }
  exists (map (Loader.block h lines) (seq 0 (List.length file_lines / h))).
  split.
  - intros fuel Hfuel. unfold Loader.load_data_file, Loader.read_lines.
    rewrite Hfile. fold lines.
    rewrite (while_lines_blocks height Hh' fuel lines [])
      by (rewrite HL; exact Hfuel).
    cbn [app]. fold h. rewrite <- HL.
    now rewrite (blocks_rectangular w h lines Hw').
  - apply Forall_map, Forall_forall. intros i Hi. apply in_seq in Hi.
    assert (Hfull : ((i + 1) * h <= List.length lines)%nat).
    { rewrite HL.
      pose proof (Nat.Div0.mul_div_le (List.length file_lines) h). nia. }
    destruct (block_shape w h lines i Hw' Hfull) as [Hlen Hrange].
    split; [|exact Hrange]. rewrite Hlen. unfold h. lia.
Qed.

(** The theorem on a file of five lines of two pixels read with height 2:
    two examples of four pixels. *)
Lemma load_data_file_shape_witness :
  exists items : list (list Z),
    Loader.load_data_file 3
      (fun _ => Some (Ok ["#+x"; " +x"; "##x"; "+ x"; "+#x"]%string))
      "f"%string 28 2 = Some (Ok items) /\
    Forall (fun ex => Z.of_nat (List.length ex) = 4) items.
Proof.
  destruct (load_data_file_shape
              (fun _ => Some (Ok ["#+x"; " +x"; "##x"; "+ x"; "+#x"]%string))
              "f"%string ["#+x"; " +x"; "##x"; "+ x"; "+#x"]%string 28 2 2
              eq_refl ltac:(lia)) as (items & Hrun & Hshape).
  - repeat constructor.
  - exists items. split; [apply Hrun; simpl; lia|].
    eapply Forall_impl; [|exact Hshape]. intros ex [Hlen _]. exact Hlen.
Defined.

Section LoaderCompose.
Import Loader.
Local Open Scope nat_scope.

Lemma map_seq_offset {B} (F : nat -> B) (q m : nat) :
  forall s, map F (seq (q + s) m) = map (fun j => F (q + j)) (seq s m).
Proof.
  induction m as [|m IH]; intros s; [reflexivity|].
  cbn [seq map]. f_equal. rewrite <- IH. f_equal. f_equal. lia.
Qed.

Lemma blocks_app (h q : nat) (l1 l2 : list string) :
  1 <= h ->
  List.length l1 = q * h ->
  map (block h (l1 ++ l2)) (seq 0 (List.length (l1 ++ l2) / h)) =
  map (block h l1) (seq 0 (List.length l1 / h)) ++
  map (block h l2) (seq 0 (List.length l2 / h)).
Proof.
  intros Hh Hq. rewrite length_app, Hq.
  rewrite Nat.div_add_l, Nat.div_mul by lia.
  rewrite seq_app, map_app. f_equal.
  - apply map_ext_in. intros i Hi. apply in_seq in Hi.
    apply block_app_left. nia.
  - cbn [Nat.add]. rewrite <- (Nat.add_0_r q) at 1.
    rewrite map_seq_offset. apply map_ext. intros j.
    now apply block_app_right.
Qed.
End LoaderCompose.

(** X4: reading two files one after the other gives the examples of the
    first followed by those of the second, as long as the lines of both
    hold the same number of pixels and the first file holds whole
    examples only (its number of lines is a multiple of the height): the
    examples of a file do not depend on what comes after them. *)
Theorem load_data_file_append (fs : Loader.filesystem)
  (f1 f2 f : string) (raw1 raw2 : list string) (width height : Z)
  (w : nat) :
  fs f1 = Some (Ok raw1) ->
  fs f2 = Some (Ok raw2) ->
  fs f = Some (Ok (raw1 ++ raw2)) ->
  1 <= height ->
  (List.length raw1 mod Z.to_nat height = 0)%nat ->
  Forall (fun l => String.length (Loader.drop_last_char l) = w)
    (raw1 ++ raw2) ->
  exists items1 items2 : list (list Z),
    forall fuel : nat,
      (List.length (raw1 ++ raw2) / Z.to_nat height + 1 <= fuel)%nat ->
      Loader.load_data_file fuel fs f1 width height = Some (Ok items1) /\
      Loader.load_data_file fuel fs f2 width height = Some (Ok items2) /\
      Loader.load_data_file fuel fs f width height
      = Some (Ok (items1 ++ items2)).
Proof.
  intros H1 H2 H12 Hh Hmod Hw.
  set (h := Z.to_nat height) in *.
  assert (Hh' : (1 <= h)%nat) by (unfold h; lia).
  set (l1 := map Loader.drop_last_char raw1).
  set (l2 := map Loader.drop_last_char raw2).
  assert (Hq : List.length l1 = (List.length raw1 / h * h)%nat).
  { unfold l1. rewrite length_map.
    pose proof (Nat.Div0.div_mod (List.length raw1) h). lia. }
  apply Forall_app in Hw. destruct Hw as [Hw1 Hw2].
  assert (Hw1' : Forall (fun l => String.length l = w) l1)
    by (unfold l1; apply Forall_map; exact Hw1).
  assert (Hw2' : Forall (fun l => String.length l = w) l2)
    by (unfold l2; apply Forall_map; exact Hw2).
  assert (Hw12 : Forall (fun l => String.length l = w) (l1 ++ l2))
    by (apply Forall_app; split; assumption).
  exists (map (Loader.block h l1) (seq 0 (List.length l1 / h))),
         (map (Loader.block h l2) (seq 0 (List.length l2 / h))).
  intros fuel Hfuel. rewrite length_app in Hfuel.
  assert (HL1 : List.length l1 = List.length raw1) by apply length_map.
  assert (HL2 : List.length l2 = List.length raw2) by apply length_map.
  pose proof (Nat.Div0.div_le_mono (List.length raw1)
                (List.length raw1 + List.length raw2) h ltac:(lia)) as Hle1.
  pose proof (Nat.Div0.div_le_mono (List.length raw2)
                (List.length raw1 + List.length raw2) h ltac:(lia)) as Hle2.
  assert (E1 : Loader.while_lines fuel height (rev l1) [] =
               Some (Ok (map (Loader.block h l1)
                           (seq 0 (List.length l1 / h))))).
  { rewrite (while_lines_blocks height Hh') by (fold h; rewrite HL1; lia).
    cbn [app]. fold h. now rewrite (blocks_rectangular w h l1 Hw1'). }
  assert (E2 : Loader.while_lines fuel height (rev l2) [] =
               Some (Ok (map (Loader.block h l2)
                           (seq 0 (List.length l2 / h))))).
  { rewrite (while_lines_blocks height Hh') by (fold h; rewrite HL2; lia).
    cbn [app]. fold h. now rewrite (blocks_rectangular w h l2 Hw2'). }
  assert (E12 : Loader.while_lines fuel height (rev (l1 ++ l2)) [] =
                Some (Ok (map (Loader.block h (l1 ++ l2))
                            (seq 0 (List.length (l1 ++ l2) / h))))).
  { rewrite (while_lines_blocks height Hh')
      by (fold h; rewrite length_app, HL1, HL2; lia).
    cbn [app]. fold h. now rewrite (blocks_rectangular w h _ Hw12). }
  unfold Loader.load_data_file, Loader.read_lines.
  rewrite H1, H2, H12. fold l1 l2. rewrite map_app. fold l1 l2.
  rewrite E1, E2, E12.
  split; [reflexivity|]. split; [reflexivity|].
  f_equal. f_equal.
  now apply blocks_app with (q := (List.length raw1 / h)%nat).
Qed.

(** The theorem on a file of two lines followed by a file of three, all
    of one pixel, read with height 2. *)
Lemma load_data_file_append_witness :
  exists items1 items2 : list (list Z),
    Loader.load_data_file 3
      (fun name => if String.eqb name "a" then Some (Ok ["#x"; "+x"])
                   else if String.eqb name "b"
                        then Some (Ok [" x"; "#x"; "+x"])
                        else Some (Ok ["#x"; "+x"; " x"; "#x"; "+x"]))%string
      "ab"%string 1 2 = Some (Ok (items1 ++ items2)) /\
    items1 = [[2; 1]] /\ items2 = [[0; 2]].
Proof.
  destruct (load_data_file_append
              (fun name => if String.eqb name "a" then Some (Ok ["#x"; "+x"])
                   else if String.eqb name "b"
                        then Some (Ok [" x"; "#x"; "+x"])
                        else Some (Ok ["#x"; "+x"; " x"; "#x"; "+x"]))%string
              "a"%string "b"%string "ab"%string
              ["#x"; "+x"]%string [" x"; "#x"; "+x"]%string 1 2 1%nat
              eq_refl eq_refl eq_refl ltac:(lia) eq_refl
              ltac:(repeat constructor))
    as (items1 & items2 & Hrun).
  destruct (Hrun 3%nat ltac:(simpl; lia)) as (Ha & Hb & Hab).
  exists items1, items2. split; [exact Hab|].
  vm_compute in Ha, Hb. split; congruence.
Defined.

(** * Text files and labels *)

Section TextFacts.
Import Loader.
Local Open Scope string_scope.

Lemma append_assoc_string (a b c : string) : (a ++ b) ++ c = a ++ (b ++ c).
Proof. induction a as [|x a IH]; simpl; congruence. Qed.

Lemma length_append_string (a b : string) :
  String.length (a ++ b) = (String.length a + String.length b)%nat.
Proof. induction a as [|x a IH]; simpl; congruence. Qed.

Lemma substring_prefix (a b : string) :
  substring 0 (String.length a) (a ++ b) = a.
Proof.
  induction a as [|x a IH]; simpl.
  - destruct b; reflexivity.
  - now rewrite IH.
Qed.

Lemma drop_last_char_snoc (l : string) (c : ascii) :
  drop_last_char (l ++ String c "") = l.
Proof.
  unfold drop_last_char. rewrite length_append_string. simpl.
  replace (String.length l + 1 - 1)%nat with (String.length l) by lia.
  apply substring_prefix.
Qed.

Lemma nonempty_snoc (l : string) :
  l <> "" -> exists l' c, l = l' ++ String c "".
Proof.
  induction l as [|x l IH]; [congruence|]. intros _.
  destruct l as [|y l].
  - exists "", x. reflexivity.
  - destruct IH as (l' & c & E); [discriminate|].
    exists (String x l'), c. simpl. now rewrite <- E.
Qed.

Lemma plain_snoc (l : string) (c : ascii) :
  plain (l ++ String c "") = true -> plain l = true.
Proof.
  induction l as [|x l IH]; [reflexivity|]. simpl.
  rewrite !andb_true_iff. intros [Hx Hl]. split; [exact Hx|now apply IH].
Qed.

Lemma universal_plain (l rest : string) :
  plain l = true ->
  universal_newlines (l ++ rest) = l ++ universal_newlines rest.
Proof.
  induction l as [|x l IH]; [reflexivity|]. cbn [plain].
  rewrite !andb_true_iff, !negb_true_iff. intros [[_ Hcr] Hl].
  cbn [append universal_newlines]. rewrite Hcr. f_equal. now apply IH.
Qed.

Lemma universal_text (ls : list string) (last : string) :
  Forall (fun l => plain l = true) ls ->
  plain last = true ->
  universal_newlines (text ls ++ last) = text ls ++ last.
Proof.
  intros Hls Hlast. induction Hls as [|l ls Hl _ IH]; cbn [text].
  - cbn [append]. revert Hlast.
    induction last as [|x last IH]; [reflexivity|]. cbn [plain].
    rewrite !andb_true_iff, !negb_true_iff. intros [[_ Hcr] Hl].
    cbn [universal_newlines]. rewrite Hcr. f_equal. now apply IH.
  - rewrite append_assoc_string. cbn [append].
    rewrite (universal_plain l _ Hl). f_equal.
    cbn [universal_newlines]. cbn. now rewrite IH.
Qed.

Lemma cut_lines_plain_line (l rest : string) :
  plain l = true ->
  cut_lines (l ++ String LF rest) = (l ++ String LF "") :: cut_lines rest.
Proof.
  induction l as [|x l IH]; [reflexivity|]. cbn [plain].
  rewrite !andb_true_iff, !negb_true_iff. intros [[Hlf _] Hl].
  cbn [append cut_lines]. rewrite Hlf, (IH Hl). reflexivity.
Qed.

Lemma cut_lines_plain_last (last : string) :
  plain last = true ->
  cut_lines last = match last with "" => [] | String _ _ => [last] end.
Proof.
  induction last as [|x last IH]; [reflexivity|]. cbn [plain].
  rewrite !andb_true_iff, !negb_true_iff. intros [[Hlf _] Hl].
  cbn [cut_lines]. rewrite Hlf, (IH Hl). destruct last; reflexivity.
Qed.

Lemma cut_lines_text (ls : list string) (last : string) :
  Forall (fun l => plain l = true) ls ->
  plain last = true ->
  cut_lines (text ls ++ last) =
  app (map (fun l => l ++ String LF "") ls)
      match last with "" => [] | String _ _ => [last] end.
Proof.
  intros Hls Hlast. induction Hls as [|l ls Hl _ IH]; cbn [text map app].
  - now apply cut_lines_plain_last.
  - rewrite append_assoc_string. cbn [append].
    rewrite (cut_lines_plain_line l _ Hl). now rewrite IH.
Qed.

(** What [read_lines] returns on a text of plain lines. *)
Lemma read_lines_mount_text (d : disk) (filename : string)
  (ls : list string) (last : string) :
  Forall (fun l => plain l = true) ls ->
  plain last = true ->
  d filename = Some (text ls ++ last) ->
  read_lines (mount d) filename =
  Ok (app ls match last with
             | "" => []
             | String _ _ => [drop_last_char last]
             end).
Proof.
  intros Hls Hlast Hfile. unfold read_lines, mount. rewrite Hfile.
  cbn [option_map]. unfold readlines.
  rewrite universal_text, cut_lines_text by assumption.
  rewrite map_app, map_map. f_equal. f_equal.
  - rewrite <- (map_id ls) at 2. apply map_ext. intros l.
    apply drop_last_char_snoc.
  - destruct last; reflexivity.
Qed.

Section LabelFacts.
Variable int_of : string -> result Z.

Lemma labels_loop_prefix (before after : list string) (ns : list Z) :
  Forall2 (fun l n => l <> "" /\ int_of l = Ok n) before ns ->
  forall acc,
    labels_loop int_of (before ++ after)%list acc
    = labels_loop int_of after (acc ++ ns)%list.
Proof.
  induction 1 as [|l n before ns [Hne Hint] _ IH]; intros acc.
  - now rewrite app_nil_r.
  - cbn [app labels_loop]. destruct l as [|c l]; [congruence|].
    rewrite Hint, IH, <- app_assoc. reflexivity.
Qed.
End LabelFacts.
End TextFacts.

(** X5: a text file whose lines all end with a line feed is read back
    line by line, without the line feeds; when the last line has no line
    feed, [read_lines] still cuts one character off it, so that line comes
    back without its last character. *)
Theorem read_lines_text (d : Loader.disk) (filename : string)
  (ls : list string) (last : string) :
  Forall (fun l => Loader.plain l = true) ls ->
  Loader.plain last = true ->
  d filename = Some (Loader.text ls ++ last)%string ->
  match last with
  | EmptyString => Loader.read_lines (Loader.mount d) filename = Ok ls
  | String _ _ =>
      exists (short : string) (c : ascii),
        last = (short ++ String c "")%string /\
        Loader.read_lines (Loader.mount d) filename = Ok (ls ++ [short])
  end.
Proof.
  intros Hls Hlast Hfile.
  rewrite (read_lines_mount_text d filename ls last Hls Hlast Hfile).
  destruct last as [|x last]; [now rewrite app_nil_r|].
  destruct (nonempty_snoc (String x last)) as (short & c & E);
    [discriminate|].
  exists short, c. split; [exact E|].
  rewrite E, drop_last_char_snoc. reflexivity.
Qed.

(** The theorem on a text of two lines, the second without line feed. *)
Lemma read_lines_text_witness :
  Loader.read_lines
    (Loader.mount (fun _ => Some (String "#" (String "+" (String Loader.LF
                                   (String "+" (String "#" "")))))))
    "f"%string = Ok ["#+"; "+"]%string.
Proof.
  destruct (read_lines_text
              (fun _ => Some (String "#" (String "+" (String Loader.LF
                               (String "+" (String "#" ""))))))
              "f"%string ["#+"%string] "+#"%string)
    as (short & c & E & Hread).
  - repeat constructor.
  - reflexivity.
  - reflexivity.
  - rewrite Hread. vm_compute in Hread. injection Hread as <-. reflexivity.
Defined.

Section LabelErrors.
Import Loader.
Variable int_of : string -> result Z.

Lemma labels_loop_raise (lines : list string) :
  forall (acc : list Z) (e : exn),
    labels_loop int_of lines acc = Raise e ->
    exists before bad after ns,
      lines = before ++ bad :: after /\
      Forall2 (fun l n => l <> EmptyString /\ int_of l = Ok n) before ns /\
      bad <> EmptyString /\
      int_of bad = Raise e.
Proof.
  induction lines as [|l lines IH]; intros acc e; cbn [labels_loop];
    [discriminate|].
  destruct l as [|c l]; [discriminate|].
  destruct (int_of (String c l)) as [n|e'] eqn:Hint.
  - intros Hrest.
    destruct (IH _ _ Hrest) as (before & bad & after & ns & -> & Hb & Hbad).
    exists (String c l :: before), bad, after, (n :: ns).
    split; [reflexivity|]. split; [|exact Hbad].
    constructor; [|exact Hb]. split; [discriminate|exact Hint].
  - intros [= <-]. exists [], (String c l), lines, [].
    split; [reflexivity|]. split; [constructor|].
    split; [discriminate|exact Hint].
Qed.
End LabelErrors.

(** X6: [load_labels_file] returns the labels of the lines before the
    first empty line, in order; the lines after it are not read at all,
    not even to see whether they are numbers. *)
Theorem load_labels_file_stops_at_blank (int_of : string -> result Z)
  (fs : Loader.filesystem) (filename : string)
  (raw before after : list string) (ns : list Z) :
  fs filename = Some (Ok raw) ->
  map Loader.drop_last_char raw = before ++ after ->
  match after with [] => True | l :: _ => l = EmptyString end ->
  Forall2 (fun l n => l <> EmptyString /\ int_of l = Ok n) before ns ->
  Loader.load_labels_file int_of fs filename = Ok ns.
Proof.
  intros Hfile Hlines Hafter Hbefore.
  unfold Loader.load_labels_file, Loader.read_lines.
  rewrite Hfile. cbn [rbind]. rewrite Hlines.
  rewrite (labels_loop_prefix int_of before after ns Hbefore). cbn [app].
  destruct after as [|l after]; [reflexivity|]. subst l. reflexivity.
Qed.

(** The theorem on four lines, the third one empty and the fourth one not
    a number. *)
Lemma load_labels_file_stops_at_blank_witness :
  Loader.load_labels_file Scenario.digit_label
    (fun _ => Some (Ok ["5x"; "8x"; "x"; "nox"]%string)) "f"%string
  = Ok [5; 8].
Proof.
  apply (load_labels_file_stops_at_blank Scenario.digit_label
           (fun _ => Some (Ok ["5x"; "8x"; "x"; "nox"]%string)) "f"%string
           ["5x"; "8x"; "x"; "nox"]%string ["5"; "8"]%string
           [""; "no"]%string [5; 8]).
  - reflexivity.
  - reflexivity.
  - reflexivity.
  - repeat constructor; discriminate.
Defined.

(** X7: [load_labels_file] fails in three cases only: with [ValueError]
    when the file does not exist, with the error of [open] or
    [readlines] when the path exists and cannot be read as text, and with
    the error of [int] on the first line that is not a number, provided
    no empty line comes before it; no label is returned then. *)
Theorem load_labels_file_raises_iff (int_of : string -> result Z)
  (fs : Loader.filesystem) (filename : string) (e : exn) :
  Loader.load_labels_file int_of fs filename = Raise e <->
  (fs filename = None /\ e = ValueError) \/
  fs filename = Some (Raise e) \/
  (exists raw before bad after ns,
      fs filename = Some (Ok raw) /\
      map Loader.drop_last_char raw = before ++ bad :: after /\
      Forall2 (fun l n => l <> EmptyString /\ int_of l = Ok n) before ns /\
      bad <> EmptyString /\
      int_of bad = Raise e).
Proof.
  unfold Loader.load_labels_file, Loader.read_lines. split.
  - destruct (fs filename) as [[raw|e0]|]; cbn [rbind].
    + intros Hloop. right. right.
      destruct (labels_loop_raise int_of _ _ _ Hloop)
        as (before & bad & after & ns & Hlines & Hrest).
      exists raw, before, bad, after, ns. auto.
    + intros [= <-]. right. now left.
    + intros [= <-]. left. split; reflexivity.
  - intros [[-> ->]|[->|(raw & before & bad & after & ns & -> & Hlines & Hb
                         & Hne & Hbad)]]; [reflexivity|reflexivity|].
    cbn [rbind]. rewrite Hlines.
    rewrite (labels_loop_prefix int_of before (bad :: after) ns Hb).
    cbn [Loader.labels_loop]. destruct bad as [|c bad]; [congruence|].
    now rewrite Hbad.
Qed.

(** The theorem on three lines, the second one not a number, and on a
    path that is a directory. *)
Lemma load_labels_file_raises_iff_witness :
  Loader.load_labels_file Scenario.digit_label
    (fun _ => Some (Ok ["5x"; "nox"; "8x"]%string)) "f"%string
  = Raise ValueError /\
  Loader.load_labels_file Scenario.digit_label
    (fun _ => Some (Raise OSError)) "f"%string
  = Raise OSError.
Proof.
  split.
  - apply (proj2 (load_labels_file_raises_iff Scenario.digit_label
                    (fun _ => Some (Ok ["5x"; "nox"; "8x"]%string))
                    "f"%string ValueError)).
    right. right.
    exists ["5x"; "nox"; "8x"]%string, ["5"%string], "no"%string,
      ["8"%string], [5].
    split; [reflexivity|]. split; [reflexivity|].
    split; [repeat constructor; discriminate|].
    split; [discriminate|reflexivity].
  - apply (proj2 (load_labels_file_raises_iff Scenario.digit_label
                    (fun _ => Some (Raise OSError)) "f"%string OSError)).
    right. left. reflexivity.
Defined.

(** X8: when the text of a labels file does not end with a line feed and
    its last line is a single character, that label is lost without an
    error: the character is cut off, the line is empty and ends the
    reading.  The file gives the labels of the lines before. *)
Theorem load_labels_file_last_label_lost (int_of : string -> result Z)
  (d : Loader.disk) (filename : string) (ls : list string) (c : ascii)
  (ns : list Z) :
  Forall (fun l => Loader.plain l = true) ls ->
  Loader.plain (String c EmptyString) = true ->
  Forall2 (fun l n => l <> EmptyString /\ int_of l = Ok n) ls ns ->
  d filename = Some (Loader.text ls ++ String c EmptyString)%string ->
  Loader.load_labels_file int_of (Loader.mount d) filename = Ok ns.
Proof.
  intros Hls Hc Hns Hfile. unfold Loader.load_labels_file.
  rewrite (read_lines_mount_text d filename ls (String c EmptyString)
             Hls Hc Hfile).
  cbn [rbind].
  rewrite (labels_loop_prefix int_of ls _ ns Hns). reflexivity.
Qed.

(** The theorem on the text of the labels 5 and 8, each on its line, and
    a last line [3] without line feed. *)
Lemma load_labels_file_last_label_lost_witness :
  Loader.load_labels_file Scenario.digit_label
    (Loader.mount
       (fun _ => Some (String "5" (String Loader.LF (String "8"
                         (String Loader.LF (String "3" "")))))))
    "f"%string = Ok [5; 8].
Proof.
  apply (load_labels_file_last_label_lost Scenario.digit_label
           (fun _ => Some (String "5" (String Loader.LF (String "8"
                             (String Loader.LF (String "3" ""))))))
           "f"%string ["5"; "8"]%string "3"%char [5; 8]).
  - repeat constructor.
  - reflexivity.
  - repeat constructor; discriminate.
  - reflexivity.
Defined.

(** * Further properties of the driver *)

Section KValsFacts.
Import PyDict Main.

Lemma sorted_snoc (R : Z -> Z -> Prop) (l : list Z) (k : Z) :
  StronglySorted R l -> Forall (fun x => R x k) l ->
  StronglySorted R (l ++ [k]).
Proof.
  induction 1 as [|x l Hs IH Hx]; intros Hall; simpl.
  - repeat constructor.
  - inversion Hall as [|? ? Hxk Hall']; subst.
    constructor; [now apply IH|].
    apply Forall_app. split; [exact Hx|repeat constructor; exact Hxk].
Qed.

Lemma fold_set_members (v : Z) (l : list Z) :
  forall (d : dict) (k : Z),
    In k (keys (fold_left (fun d k => set d k v) l d)) <->
    In k (keys d) \/ In k l.
Proof.
  induction l as [|x l IH]; intros d k; cbn [fold_left].
  - simpl. tauto.
  - rewrite IH. destruct (in_dec Z.eq_dec x (keys d)) as [Hx|Hx].
    + rewrite keys_set_present by exact Hx. simpl.
      split; [tauto|]. intros [H|[<-|H]]; tauto.
    + rewrite keys_set_absent by exact Hx. rewrite in_app_iff. simpl.
      tauto.
Qed.

Lemma fold_set_descending (v : Z) (l : list Z) :
  StronglySorted (fun a b => b <= a) l ->
  forall d : dict,
    StronglySorted (fun a b => b < a) (keys d) ->
    (forall x y, In x (keys d) -> In y l -> y <= x) ->
    StronglySorted (fun a b => b < a)
      (keys (fold_left (fun d k => set d k v) l d)).
Proof.
  induction 1 as [|k l Hs IH Hk]; intros d Hd Hge; cbn [fold_left];
    [exact Hd|].
  rewrite Forall_forall in Hk.
  destruct (in_dec Z.eq_dec k (keys d)) as [Hin|Hnot].
  - apply IH.
    + now rewrite keys_set_present.
    + rewrite keys_set_present by exact Hin.
      intros x y Hx Hy. apply Hge; [exact Hx|now right].
  - apply IH.
    + rewrite keys_set_absent by exact Hnot. apply sorted_snoc; [exact Hd|].
      apply Forall_forall. intros x Hx.
      assert (k <= x) by (apply Hge; [exact Hx|now left]).
      assert (x <> k) by (intros ->; contradiction). lia.
    + rewrite keys_set_absent by exact Hnot.
      intros x y Hx Hy. apply in_app_iff in Hx.
      destruct Hx as [Hx|[<-|[]]].
      * apply Hge; [exact Hx|now right].
      * now apply Hk.
Qed.

Lemma parse_k_vals_keys_descending (digits : bool) (kvals : list Z) :
  StronglySorted (fun a b => b < a) (keys (parse_k_vals digits kvals)).
Proof.
  unfold parse_k_vals, fromkeys. apply fold_set_descending.
  - destruct kvals as [|k kvals].
    + destruct digits; repeat constructor.
    + pose proof (stable_sort_sorted Z.opp (k :: kvals)) as Hs.
      eapply StronglySorted_ind with (P := fun l =>
        StronglySorted (fun a b => b <= a) l); [| |exact Hs].
      * constructor.
      * intros a l _ Hl Ha. constructor; [exact Hl|].
        eapply Forall_impl; [|exact Ha]. simpl. intros; lia.
  - constructor.
  - simpl. tauto.
Qed.

Lemma parse_k_vals_members (digits : bool) (kvals : list Z) (k : Z) :
  kvals <> [] ->
  In k (keys (parse_k_vals digits kvals)) <-> In k kvals.
Proof.
  intros Hne. unfold parse_k_vals, fromkeys. rewrite fold_set_members.
  destruct kvals as [|x kvals]; [congruence|]. simpl keys.
  split.
  - intros [[]|Hin].
    eapply Permutation_in; [apply (stable_sort_perm Z.opp)|exact Hin].
  - intros Hin. right.
    eapply Permutation_in; [symmetry; apply (stable_sort_perm Z.opp)|].
    exact Hin.
Qed.

Lemma descending_nth (l : list Z) :
  StronglySorted (fun a b => b < a) l ->
  forall i j a b, (i < j)%nat -> nth_error l i = Some a ->
                  nth_error l j = Some b -> b < a.
Proof.
  induction 1 as [|x l Hs IH Hx]; intros i j a b Hij Ha Hb;
    [destruct i; discriminate|].
  destruct j as [|j]; [lia|]. simpl in Hb.
  destruct i as [|i]; simpl in Ha.
  - injection Ha as <-. rewrite Forall_forall in Hx.
    apply Hx. eapply nth_error_In, Hb.
  - apply (IH i j a b); [lia|exact Ha|exact Hb].
Qed.
End KValsFacts.

(** X9: the dictionary of k values iterates in strictly descending order
    of k, whatever the order and the repetitions on the command line; its
    keys are the values asked for, or the single default 1 (digits) or 5
    (faces) when none is given.  So the first k is the largest and the
    last k, the one whose guess is shown, is the smallest. *)
Theorem parse_k_vals_descending (digits : bool) (kvals : list Z) :
  let kv := Main.parse_k_vals digits kvals in
  StronglySorted (fun a b => b < a) (PyDict.keys kv) /\
  (kvals <> [] -> forall k, In k (PyDict.keys kv) <-> In k kvals) /\
  (kvals = [] -> kv = [(if digits then 1 else 5, 0)]) /\
  (forall k_first k_last k,
      hd_error (PyDict.keys kv) = Some k_first ->
      index_last (PyDict.keys kv) = Ok k_last ->
      In k (PyDict.keys kv) ->
      k_last <= k <= k_first).
Proof.
  intros kv.
  pose proof (parse_k_vals_keys_descending digits kvals) as Hdesc.
  fold kv in Hdesc.
  split; [exact Hdesc|]. split.
  { intros Hne k. now apply parse_k_vals_members. }
  split.
  { intros ->. unfold kv. destruct digits; reflexivity. }
  intros k_first k_last k Hfirst Hlast Hk.
  destruct (In_nth_error _ _ Hk) as [i Hi].
  assert (Hne : PyDict.keys kv <> []) by (intros E; rewrite E in Hk; tauto).
  destruct (index_last_nth _ Hne) as (x & Hx & Hnth).
  rewrite Hx in Hlast. injection Hlast as ->.
  assert (Hi' : (i < List.length (PyDict.keys kv))%nat)
    by (apply nth_error_Some; congruence).
  split.
  - destruct (Nat.eq_dec i (List.length (PyDict.keys kv) - 1)) as [->|Hne'].
    + rewrite Hnth in Hi. injection Hi as ->. lia.
    + pose proof (descending_nth _ Hdesc i
                    (List.length (PyDict.keys kv) - 1)%nat k k_last
                    ltac:(lia) Hi Hnth).
      lia.
  - assert (H0 : nth_error (PyDict.keys kv) 0 = Some k_first).
    { rewrite <- Hfirst. clear. destruct (PyDict.keys kv); reflexivity. }
    destruct i as [|i].
    + rewrite H0 in Hi. injection Hi as ->. lia.
    + pose proof (descending_nth _ Hdesc 0%nat (S i) k_first k
                    ltac:(lia) H0 Hi).
      lia.
Qed.

(** The theorem on the command line [-k 1,20,5,20]. *)
Lemma parse_k_vals_descending_witness :
  Main.parse_k_vals false [1; 20; 5; 20] = [(20, 0); (5, 0); (1, 0)] /\
  (In 5 (PyDict.keys (Main.parse_k_vals false [1; 20; 5; 20])) <->
   In 5 [1; 20; 5; 20]) /\
  1 <= 5 <= 20.
Proof.
  destruct (parse_k_vals_descending false [1; 20; 5; 20])
    as (_ & Hmem & _ & Hends).
  split; [reflexivity|]. split.
  - apply Hmem. discriminate.
  - apply (Hends 20 1 5); [reflexivity|reflexivity|simpl; tauto].
Defined.


Section FailureFacts.
Import PyDict Main.

Variable knn : list Z -> dict -> result (list Z).
Variable samples digits : bool.
Variable n : Z.

Hypothesis knn_length :
  forall q d ps, knn q d = Ok ps -> List.length ps = List.length (keys d).

Lemma times_scored_le (predictions : list Z) (actual : Z) (ks : list Z)
  (k : Z) :
  NoDup ks -> 0 <= times (scored predictions actual 0 ks) k <= 1.
Proof.
  intros Hnd. destruct (in_dec Z.eq_dec k ks) as [Hin|Hnot].
  - destruct (In_nth_error _ _ Hin) as [j Hj].
    rewrite (times_scored predictions actual ks 0 j k Hnd Hj).
    destruct (hit predictions actual (0 + j)); lia.
  - rewrite times_scored_absent by exact Hnot. lia.
Qed.

(** The loop ends well, with counters that have grown by no more than
    the number of rows; or with an error that the classifier raised; or,
    when samples are shown, with the [ValueError] of a row that does not
    fit the plots; or, when they are not, with the [OverflowError] of a
    number of rows that no float can hold. *)
Lemma test_step_overflow (row : test_row) (s : store) (ps : list Z) :
  knn (pixels row) (k_vals s) = Ok ps ->
  List.length ps = List.length (keys (k_vals s)) ->
  samples = false ->
  float_limit <= Z.abs n ->
  exists s' : store,
    test_step knn samples digits n row s = (s', Raise OverflowError).
Proof.
  intros Hrow Hlen Hs Hbig. unfold test_step, loop_body.
  rewrite (bind_ok _ _ s s (k_vals s)) by reflexivity.
  rewrite (bind_ok _ _ s s ps) by (unfold method, lift; now rewrite Hrow).
  rewrite (bind_ok _ _ s s (k_vals s)) by reflexivity.
  erewrite bind_ok
    by (apply score_run; [auto|rewrite Hlen; simpl; lia]).
  rewrite Hs. unfold bind, progress, float_of_int.
  destruct (Z.ltb_spec (Z.abs n) float_limit); [lia|].
  eexists. reflexivity.
Qed.

Lemma for_rows_outcome (kv0 : dict) :
  keys kv0 <> [] ->
  NoDup (keys kv0) ->
  forall (rows : list test_row) (s : store),
    keys (k_vals s) = keys kv0 ->
    0 <= counter s ->
    match for_rows knn samples digits n rows s with
    | (s', Ok _) =>
        keys (k_vals s') = keys kv0 /\
        forall k c', get (k_vals s') k = Some c' ->
                     exists c, get (k_vals s) k = Some c /\
                               c <= c' <= c + Z.of_nat (List.length rows)
    | (_, Raise e) =>
        (exists row d, In row rows /\ keys d = keys kv0 /\
                       knn (pixels row) d = Raise e) \/
        (samples = true /\ e = ValueError /\
         (4 < counter s + Z.of_nat (List.length rows) \/
          Exists (fun row => ~ sized digits row) rows)) \/
        (samples = false /\ e = OverflowError /\ float_limit <= Z.abs n)
    end.
Proof.
  intros Hne Hnd. induction rows as [|row rows IH]; intros s Hkeys Hc.
  - cbn [for_rows ret]. split; [exact Hkeys|].
    intros k c' Hget. exists c'. split; [exact Hget|simpl; lia].
  - cbn [for_rows].
    destruct (knn (pixels row) (k_vals s)) as [ps|e] eqn:Hrow.
    + assert (Hlen : List.length ps = List.length (keys (k_vals s)))
        by (apply (knn_length _ _ _ Hrow)).
      assert (Hne' : keys (k_vals s) <> []) by (rewrite Hkeys; exact Hne).
      assert (Hdec : ((samples = true -> 0 <= counter s < 4 /\
                                         sized digits row) /\
                      (samples = false -> Z.abs n < float_limit)) \/
                     (samples = true /\
                      ~ (counter s < 4 /\ sized digits row)) \/
                     (samples = false /\ float_limit <= Z.abs n)).
      { destruct samples.
        - destruct (Z_lt_dec (counter s) 4) as [Hlt|Hge];
            [|right; left; split; [reflexivity|tauto]].
          destruct (Z.eq_dec (Z.of_nat (List.length (pixels row)))
                      (height digits * width digits)) as [Hsize|Hsize].
          + left. split; [|discriminate]. intros _. split; [lia|exact Hsize].
          + right. left. split; [reflexivity|]. unfold sized. tauto.
        - destruct (Z_lt_dec (Z.abs n) float_limit) as [Hfits|Hbig].
          + left. split; [discriminate|]. intros _. exact Hfits.
          + right. right. split; [reflexivity|lia]. }
      destruct Hdec as [[Hplot Hfits]|[[Hs Hbad]|[Hs Hbig]]].
      * destruct (test_step_run knn samples digits n row s ps Hrow Hlen
                    Hne' Hplot Hfits)
          as (s1 & Hstep & Hkv & _ & Hc1 & _).
        rewrite (bind_ok _ _ _ _ _ Hstep).
        assert (Hkeys1 : keys (k_vals s1) = keys kv0)
          by (rewrite Hkv, keys_bump_all; exact Hkeys).
        specialize (IH s1 Hkeys1 ltac:(lia)).
        destruct (for_rows knn samples digits n rows s1) as [s' [[]|e]].
        -- destruct IH as [Hkeys' Hbound]. split; [exact Hkeys'|].
           intros k c' Hget.
           destruct (Hbound k c' Hget) as (c1 & Hget1 & Hc').
           assert (Hin : In k (keys (k_vals s)))
             by (rewrite Hkeys, <- Hkeys1;
                 eapply get_some_in_keys, Hget1).
           destruct (get_in_keys _ _ Hin) as [c Hget0].
           rewrite Hkv, (get_bump_all _ _ k c Hget0) in Hget1.
           injection Hget1 as <-.
           pose proof (times_scored_le ps (label row) (keys (k_vals s)) k
                         ltac:(rewrite Hkeys; exact Hnd)).
           exists c. split; [exact Hget0|].
           cbn [List.length]. lia.
        -- destruct IH as [(r & d & Hr & Hd & Hfail)
                          |[(Hs & He & Hwhy)|Hover]].
           ++ left. exists r, d. split; [now right|]. split; assumption.
           ++ right. left. split; [exact Hs|]. split; [exact He|].
              destruct Hwhy as [Hfive|Hsize].
              ** left. cbn [List.length]. lia.
              ** right. now apply Exists_cons_tl.
           ++ right. right. exact Hover.
      * destruct (test_step_unplottable knn samples digits n row s ps Hrow
                    Hlen Hne' Hs Hc Hbad) as [s1 Hstep].
        rewrite (bind_raise _ _ _ _ _ Hstep).
        right. left. split; [exact Hs|]. split; [reflexivity|].
        destruct (Z_lt_dec (counter s) 4) as [Hlt|Hge].
        -- right. apply Exists_cons_hd. tauto.
        -- left. cbn [List.length]. lia.
      * destruct (test_step_overflow row s ps Hrow Hlen Hs Hbig)
          as [s1 Hstep].
        rewrite (bind_raise _ _ _ _ _ Hstep).
        right. right. split; [exact Hs|]. split; [reflexivity|exact Hbig].
    + assert (Hstep : test_step knn samples digits n row s = (s, Raise e)).
      { unfold test_step, loop_body.
        rewrite (bind_ok _ _ s s (k_vals s)) by reflexivity.
        apply bind_raise. unfold method, lift. now rewrite Hrow. }
      rewrite (bind_raise _ _ _ _ _ Hstep).
      left. exists row, (k_vals s). split; [now left|]. split; assumption.
Qed.
End FailureFacts.

(** X10: when the classifier answers with one prediction per k, an error
    raised from the loop on (lines 125-178) has one of four sources: the
    division by zero of a run without test rows; the classifier, on one
    of the test rows; when samples are shown, the [ValueError] of pyplot
    or numpy on rows that do not fit the plots (more than four, or not
    of the size of an image); and the overflow of [float] on a number of
    rows no double can hold.  No [KeyError], [IndexError] or [TypeError]
    comes from the loop or from the choice of k. *)
Theorem main_failure_source
  (knn : list Z -> PyDict.dict -> result (list Z)) (samples digits : bool)
  (kvals : list Z) (train tests : list Main.test_row) (s' : Main.store)
  (e : exn) :
  (forall q d ps, knn q d = Ok ps ->
                  List.length ps = List.length (PyDict.keys d)) ->
  let kv0 := Main.parse_k_vals digits kvals in
  Main.main knn samples digits (Main.initial kv0 train tests)
  = (s', Raise e) ->
  (tests = [] /\ e = ZeroDivisionError) \/
  (exists row d, In row tests /\ PyDict.keys d = PyDict.keys kv0 /\
                 knn (Main.pixels row) d = Raise e) \/
  (samples = true /\ e = ValueError /\ ~ Main.plottable digits tests) \/
  (e = OverflowError /\
   Main.float_limit <= Z.of_nat (List.length tests)).
Proof.
  intros Hlen kv0 Hmain.
  assert (Hne : PyDict.keys kv0 <> []) by apply parse_k_vals_nonempty.
  assert (Hnd : NoDup (PyDict.keys kv0)) by apply fromkeys_nodup.
  pose proof (for_rows_outcome knn samples digits
                (Z.of_nat (List.length tests)) Hlen kv0 Hne Hnd tests
                (Main.initial kv0 train tests) eq_refl ltac:(simpl; lia))
    as Hloop.
  destruct (Main.for_rows knn samples digits (Z.of_nat (List.length tests))
              tests (Main.initial kv0 train tests))
    as [s1 [[]|e1]] eqn:Hrun.
  - destruct Hloop as [Hkeys Hbound].
    destruct (main_after_loop knn samples digits _ s1 Hrun)
      as (k & c & _ & Hc & Hmain'); [rewrite Hkeys; exact Hne|].
    rewrite Hmain' in Hmain.
    cbn [Main.initial Main.df_test_sample] in Hmain.
    destruct (Main.percentage c (Z.of_nat (List.length tests)))
      as [pc|e2] eqn:Hpc; [discriminate|].
    injection Hmain as _ <-.
    destruct (percentage_raise _ _ _ Hpc) as [[-> HN]|[-> Hbig]].
    + left. split; [|reflexivity].
      destruct tests; [reflexivity|simpl in HN; lia].
    + right. right. right. split; [reflexivity|].
      destruct (Hbound k c Hc) as (c0 & Hc0 & Hrange).
      cbn [Main.initial Main.k_vals] in Hc0.
      rewrite (fromkeys_values _ 0 k c0 Hc0) in Hrange. lia.
  - unfold Main.main in Hmain.
    rewrite (bind_ok _ _ _ _ tests) in Hmain by reflexivity.
    rewrite (bind_raise _ _ _ _ _ Hrun) in Hmain.
    injection Hmain as _ <-.
    destruct Hloop as [Hrow|[(Hs & He & Hwhy)|(_ & He & Hbig)]];
      [right; left; exact Hrow| |right; right; right; split; [exact He|lia]].
    right. right. left. split; [exact Hs|]. split; [exact He|].
    intros [Hfour Hsized]. cbn [Main.initial Main.counter] in Hwhy.
    destruct Hwhy as [Hfive|Hsize]; [lia|].
    apply Exists_exists in Hsize. destruct Hsize as (row & Hrow & Hbad).
    apply Hbad. apply (proj1 (Forall_forall _ _) Hsized row Hrow).
Qed.

(** The theorem on a run with k = 7 on the six training points: the error
    is the one of the classifier on a test row. *)
Lemma main_failure_source_witness :
  exists row d,
    In row [Scenario.row_a; Scenario.row_b] /\
    PyDict.keys d = [7; 1] /\
    KNN.knn Scenario.training (Main.pixels row) d
    = Raise (KnnError InsufficientNeighbors).
Proof.
  destruct (main_failure_source (KNN.knn Scenario.training) false true
              [1; 7] (Scenario.frame Scenario.training)
              [Scenario.row_a; Scenario.row_b]
              (Main.initial (Main.parse_k_vals true [1; 7])
                 (Scenario.frame Scenario.training)
                 [Scenario.row_a; Scenario.row_b])
              (KnnError InsufficientNeighbors)
              (knn_one_per_key Scenario.training) eq_refl)
    as [[Hnil _]|[Hrow|[(Hs & _)|(He & _)]]];
    [discriminate|exact Hrow|discriminate|discriminate].
Defined.

Section SuccessFacts.
Import PyDict Main.

Variable knn : list Z -> dict -> result (list Z).
Variable samples digits : bool.

Hypothesis knn_keys : forall q d d', keys d = keys d' -> knn q d = knn q d'.
Hypothesis knn_length :
  forall q d ps, knn q d = Ok ps -> List.length ps = List.length (keys d).

(** A run on at least one test row, every row answered and, when
    samples are shown, fit for the plots: what [main] returns, in terms
    of the hits of every k. *)
Lemma main_success (kvals : list Z) (train tests : list test_row) :
  let kv0 := parse_k_vals digits kvals in
  let N := Z.of_nat (List.length tests) in
  tests <> [] ->
  N < float_limit ->
  (forall row, In row tests -> exists ps, knn (pixels row) kv0 = Ok ps) ->
  (samples = true -> plottable digits tests) ->
  exists (s' : store) (rep : report) (i : nat),
    main knn samples digits (initial kv0 train tests) = (s', Ok rep) /\
    guesses_by_k rep = k_vals s' /\
    keys (k_vals s') = keys kv0 /\
    (forall idx k, nth_error (keys kv0) idx = Some k ->
                   get (k_vals s') k = Some (hits knn kv0 idx tests)) /\
    nth_error (keys kv0) i = Some (chosen_k rep) /\
    correct rep = hits knn kv0 i tests /\
    (forall idx k, nth_error (keys kv0) idx = Some k ->
                   hits knn kv0 idx tests <= correct rep) /\
    (forall j k, (j < i)%nat -> nth_error (keys kv0) j = Some k ->
                 hits knn kv0 j tests < correct rep) /\
    total rep = N /\
    trained rep = Z.of_nat (List.length train) /\
    percent rep
    = PrimFloat.mul (PrimFloat.div (to_float (correct rep)) (to_float N))
        (to_float 100).
Proof.
  intros kv0 N Htests Hlimit Hok Hplot.
  assert (Hne : keys kv0 <> []) by apply parse_k_vals_nonempty.
  assert (Hnd : NoDup (keys kv0)) by apply fromkeys_nodup.
  destruct (for_rows_run knn samples digits N knn_keys knn_length
              ltac:(intros _; unfold N in *; lia) kv0 Hnd Hne
              tests (initial kv0 train tests) eq_refl Hok)
    as (s' & Hrun & Hkeys' & _ & Hget & _).
  { intros Hs. destruct (Hplot Hs) as [Hfour Hsized].
    cbn [initial counter]. split; [lia|]. split; [lia|exact Hsized]. }
  assert (Hcount : forall idx k, nth_error (keys kv0) idx = Some k ->
                     get (k_vals s') k = Some (hits knn kv0 idx tests)).
  { intros idx k Hk.
    destruct (get_in_keys kv0 k (nth_error_In _ _ Hk)) as [c Hc].
    assert (c = 0) as -> by (apply (fromkeys_values _ 0 k c Hc)).
    rewrite (Hget idx k 0 Hk Hc). f_equal. }
  destruct (main_after_loop knn samples digits _ s' Hrun)
    as (k & c & Hmax & Hc & Hmain); [rewrite Hkeys'; exact Hne|].
  cbn [initial df_test_sample df_train_sample] in Hmain. fold N in Hmain.
  destruct (py_max_first_best (k_vals s'))
    as (k' & c' & i & Hmax' & Hc' & Hi & Hall & Hbefore);
    [rewrite Hkeys'; exact Hne|].
  rewrite Hmax in Hmax'. injection Hmax' as <-.
  rewrite Hc in Hc'. injection Hc' as <-.
  rewrite Hkeys' in Hi, Hall, Hbefore.
  assert (HN : 0 < N)
    by (unfold N; destruct tests; [congruence|simpl; lia]).
  assert (Hci : c = hits knn kv0 i tests).
  { pose proof (Hcount i k Hi) as H. rewrite Hc in H. congruence. }
  rewrite percentage_ok in Hmain
    by (try (rewrite Hci; apply hits_bounds); assumption).
  eexists s', _, i. split; [exact Hmain|]. cbn.
  split; [reflexivity|]. split; [exact Hkeys'|]. split; [exact Hcount|].
  split; [exact Hi|].
  split; [exact Hci|]. split; [|split; [|repeat split]].
  - intros idx k0 Hk0.
    apply (Hall k0 _ (nth_error_In _ _ Hk0) (Hcount idx k0 Hk0)).
  - intros j k0 Hj Hk0.
    apply (Hbefore j k0 _ Hj Hk0 (Hcount j k0 Hk0)).
Qed.

Lemma hits_perm (kv : dict) (idx : nat) (tests tests' : list test_row) :
  Permutation tests tests' ->
  hits knn kv idx tests = hits knn kv idx tests'.
Proof.
  unfold hits. intros Hperm. f_equal.
  induction Hperm as [|x l l' _ IH|x y l|l l' l'' _ IH1 _ IH2]; cbn [filter].
  - reflexivity.
  - destruct (row_hit knn kv idx x); simpl; congruence.
  - destruct (row_hit knn kv idx x), (row_hit knn kv idx y); reflexivity.
  - congruence.
Qed.

Lemma hits_app (kv : dict) (idx : nat) (t1 t2 : list test_row) :
  hits knn kv idx (t1 ++ t2) = hits knn kv idx t1 + hits knn kv idx t2.
Proof. unfold hits. rewrite filter_app, length_app. lia. Qed.

Lemma plottable_perm (tests tests' : list test_row) :
  Permutation tests tests' ->
  plottable digits tests -> plottable digits tests'.
Proof.
  intros Hperm [Hfour Hsized]. split.
  - now rewrite <- (Permutation_length Hperm).
  - eapply Permutation_Forall; eassumption.
Qed.

Lemma plottable_app (t1 t2 : list test_row) :
  plottable digits (t1 ++ t2) ->
  plottable digits t1 /\ plottable digits t2.
Proof.
  intros [Hfour Hsized]. rewrite length_app in Hfour.
  apply Forall_app in Hsized. destruct Hsized as [H1 H2].
  split; (split; [lia|assumption]).
Qed.
End SuccessFacts.

Section DictEquality.
Import PyDict.

Lemma dict_ext (d d' : dict) :
  NoDup (keys d) ->
  keys d = keys d' ->
  (forall k, In k (keys d) -> get d k = get d' k) ->
  d = d'.
Proof.
  revert d'. induction d as [|[k v] d IH]; intros [|[k' v'] d'] Hnd Hkeys Hget;
    try discriminate; [reflexivity|].
  simpl in Hkeys. injection Hkeys as <- Hkeys.
  inversion Hnd as [|? ? Hnot Hnd']; subst.
  pose proof (Hget k (or_introl eq_refl)) as Hk. simpl in Hk.
  rewrite Z.eqb_refl in Hk. injection Hk as <-.
  f_equal. apply IH; [exact Hnd'|exact Hkeys|].
  intros k0 Hk0. specialize (Hget k0 (or_intror Hk0)). simpl in Hget.
  destruct (Z.eqb_spec k k0) as [->|_]; [contradiction|exact Hget].
Qed.
End DictEquality.

(** X11: on a run with at least one test row that the classifier answers
    throughout (and whose rows fit the plots when samples are shown),
    [main] reports the best count of all k: the count of the chosen k is
    the highest of all counters and lies between 0 and N, and the value
    returned is the double [float(count) / N * 100] of that count. *)
Theorem main_returns_best_accuracy
  (knn : list Z -> PyDict.dict -> result (list Z)) (samples digits : bool)
  (kvals : list Z) (train tests : list Main.test_row) :
  (forall q d d', PyDict.keys d = PyDict.keys d' -> knn q d = knn q d') ->
  (forall q d ps, knn q d = Ok ps ->
                  List.length ps = List.length (PyDict.keys d)) ->
  let kv0 := Main.parse_k_vals digits kvals in
  let N := Z.of_nat (List.length tests) in
  tests <> [] ->
  N < Main.float_limit ->
  (forall row, In row tests -> exists ps, knn (Main.pixels row) kv0 = Ok ps) ->
  (samples = true -> Main.plottable digits tests) ->
  exists (s' : Main.store) (rep : Main.report),
    Main.main knn samples digits (Main.initial kv0 train tests)
    = (s', Ok rep) /\
    0 <= Main.correct rep <= N /\
    Main.total rep = N /\
    Main.percent rep
    = PrimFloat.mul
        (PrimFloat.div (Main.to_float (Main.correct rep)) (Main.to_float N))
        (Main.to_float 100) /\
    forall idx k,
      nth_error (PyDict.keys kv0) idx = Some k ->
      Main.hits knn kv0 idx tests <= Main.correct rep.
Proof.
  intros Hkeys Hlen kv0 N Htests Hlimit Hok Hplot.
  destruct (main_success knn samples digits Hkeys Hlen kvals train tests
              Htests Hlimit Hok Hplot)
    as (s' & rep & i & Hmain & _ & _ & _ & Hi & Hcorrect & Hbest & _ & Htotal
        & _ & Hpercent).
  fold kv0 in Hi, Hcorrect, Hbest. fold N in Hpercent, Htotal.
  exists s', rep. split; [exact Hmain|].
  split; [rewrite Hcorrect; apply hits_bounds|].
  split; [exact Htotal|]. split; [exact Hpercent|exact Hbest].
Qed.

(** The theorem on the six training points, the k values 3 and 1 and the
    test rows a, b and c: two correct answers each out of three, and the
    value returned is the double 66.66666666666666 that the division
    followed by the multiplication gives, not the double nearest to
    200 / 3. *)
Lemma main_returns_best_accuracy_witness :
  exists (s' : Main.store) (rep : Main.report),
    Main.main (KNN.knn Scenario.training) false true
      (Scenario.start [Scenario.row_a; Scenario.row_b; Scenario.row_c])
    = (s', Ok rep) /\
    Main.correct rep = 2 /\ Main.total rep = 3 /\
    Main.percent rep = 0x1.0aaaaaaaaaaaap+6%float /\
    PrimFloat.eqb (Main.percent rep)
      (PrimFloat.div (Main.to_float 200) (Main.to_float 3)) = false.
Proof.
  destruct (main_returns_best_accuracy (KNN.knn Scenario.training) false
              true [1; 3] (Scenario.frame Scenario.training)
              [Scenario.row_a; Scenario.row_b; Scenario.row_c]
              (knn_reads_keys Scenario.training)
              (knn_one_per_key Scenario.training))
    as (s' & rep & Hmain & _).
  - discriminate.
  - vm_compute. reflexivity.
  - intros row [<-|[<-|[<-|[]]]]; eexists; vm_compute; reflexivity.
  - discriminate.
  - exists s', rep. split; [exact Hmain|].
    vm_compute in Hmain. injection Hmain as _ <-.
    repeat split; vm_compute; reflexivity.
Defined.

(** X12: when several k have the highest count, [main] chooses the
    largest of them: every k whose counter equals the count reported is
    at most the chosen k. *)
Theorem main_tie_goes_to_largest_k
  (knn : list Z -> PyDict.dict -> result (list Z)) (samples digits : bool)
  (kvals : list Z) (train tests : list Main.test_row) :
  (forall q d d', PyDict.keys d = PyDict.keys d' -> knn q d = knn q d') ->
  (forall q d ps, knn q d = Ok ps ->
                  List.length ps = List.length (PyDict.keys d)) ->
  let kv0 := Main.parse_k_vals digits kvals in
  tests <> [] ->
  Z.of_nat (List.length tests) < Main.float_limit ->
  (forall row, In row tests -> exists ps, knn (Main.pixels row) kv0 = Ok ps) ->
  (samples = true -> Main.plottable digits tests) ->
  exists (s' : Main.store) (rep : Main.report),
    Main.main knn samples digits (Main.initial kv0 train tests)
    = (s', Ok rep) /\
    In (Main.chosen_k rep) (PyDict.keys kv0) /\
    forall k,
      PyDict.get (Main.k_vals s') k = Some (Main.correct rep) ->
      k <= Main.chosen_k rep.
Proof.
  intros Hkeys Hlen kv0 Htests Hlimit Hok Hplot.
  destruct (main_success knn samples digits Hkeys Hlen kvals train tests
              Htests Hlimit Hok Hplot)
    as (s' & rep & i & Hmain & _ & Hkeys' & Hcount & Hi & Hcorrect & _
        & Hbefore & _).
  fold kv0 in Hkeys', Hcount, Hi, Hcorrect, Hbefore.
  exists s', rep. split; [exact Hmain|].
  split; [eapply nth_error_In, Hi|].
  intros k Hk.
  assert (Hin : In k (PyDict.keys kv0))
    by (rewrite <- Hkeys'; eapply get_some_in_keys, Hk).
  destruct (In_nth_error _ _ Hin) as [idx Hidx].
  rewrite (Hcount idx k Hidx) in Hk. injection Hk as Hk.
  pose proof (parse_k_vals_keys_descending digits kvals) as Hdesc.
  fold kv0 in Hdesc.
  destruct (Nat.lt_trichotomy idx i) as [Hlt|[->|Hgt]].
  - pose proof (Hbefore idx k Hlt Hidx). lia.
  - rewrite Hi in Hidx. injection Hidx as ->. lia.
  - pose proof (descending_nth _ Hdesc i idx _ k Hgt Hi Hidx). lia.
Qed.

(** The theorem on the six training points, the k values 3 and 1 and the
    test rows a and c, where both k are right once: k = 3 is chosen. *)
Lemma main_tie_goes_to_largest_k_witness :
  exists (s' : Main.store) (rep : Main.report),
    Main.main (KNN.knn Scenario.training) false true
      (Scenario.start [Scenario.row_a; Scenario.row_c])
    = (s', Ok rep) /\
    Main.k_vals s' = [(3, 1); (1, 1)] /\ Main.chosen_k rep = 3.
Proof.
  destruct (main_tie_goes_to_largest_k (KNN.knn Scenario.training) false
              true [1; 3] (Scenario.frame Scenario.training)
              [Scenario.row_a; Scenario.row_c]
              (knn_reads_keys Scenario.training)
              (knn_one_per_key Scenario.training))
    as (s' & rep & Hmain & _).
  - discriminate.
  - vm_compute. reflexivity.
  - intros row [<-|[<-|[]]]; eexists; vm_compute; reflexivity.
  - discriminate.
  - exists s', rep. split; [exact Hmain|].
    vm_compute in Hmain. injection Hmain as <- <-.
    split; reflexivity.
Defined.

(** X13: the order of the test rows does not matter for the result: two
    runs on the same rows in different orders (rows that fit the plots,
    when samples are shown) end with the same counters and report the
    same k, the same count and the same accuracy. *)
Theorem main_order_of_rows
  (knn : list Z -> PyDict.dict -> result (list Z)) (samples digits : bool)
  (kvals : list Z) (train tests tests' : list Main.test_row) :
  (forall q d d', PyDict.keys d = PyDict.keys d' -> knn q d = knn q d') ->
  (forall q d ps, knn q d = Ok ps ->
                  List.length ps = List.length (PyDict.keys d)) ->
  let kv0 := Main.parse_k_vals digits kvals in
  tests <> [] ->
  Z.of_nat (List.length tests) < Main.float_limit ->
  (forall row, In row tests -> exists ps, knn (Main.pixels row) kv0 = Ok ps) ->
  (samples = true -> Main.plottable digits tests) ->
  Permutation tests tests' ->
  exists (s1 s2 : Main.store) (rep1 rep2 : Main.report),
    Main.main knn samples digits (Main.initial kv0 train tests)
    = (s1, Ok rep1) /\
    Main.main knn samples digits (Main.initial kv0 train tests')
    = (s2, Ok rep2) /\
    Main.k_vals s1 = Main.k_vals s2 /\
    Main.chosen_k rep1 = Main.chosen_k rep2 /\
    Main.correct rep1 = Main.correct rep2 /\
    Main.total rep1 = Main.total rep2 /\
    Main.percent rep1 = Main.percent rep2.
Proof.
  intros Hkeys Hlen kv0 Htests Hlimit Hok Hplot Hperm.
  assert (Htests' : tests' <> []).
  { intros ->. apply Permutation_sym, Permutation_nil in Hperm.
    contradiction. }
  assert (Hok' : forall row, In row tests' ->
                   exists ps, knn (Main.pixels row) kv0 = Ok ps).
  { intros row Hrow. apply Hok.
    eapply Permutation_in; [symmetry; exact Hperm|exact Hrow]. }
  assert (Hlimit' : Z.of_nat (List.length tests') < Main.float_limit)
    by (now rewrite <- (Permutation_length Hperm)).
  assert (Hplot' : samples = true -> Main.plottable digits tests')
    by (intros Hs; eapply plottable_perm; [exact Hperm|auto]).
  destruct (main_success knn samples digits Hkeys Hlen kvals train tests
              Htests Hlimit Hok Hplot)
    as (s1 & rep1 & i1 & Hmain1 & _ & Hkeys1 & Hcount1 & _).
  destruct (main_success knn samples digits Hkeys Hlen kvals train tests'
              Htests' Hlimit' Hok' Hplot')
    as (s2 & rep2 & i2 & Hmain2 & _ & Hkeys2 & Hcount2 & _).
  fold kv0 in Hkeys1, Hkeys2, Hcount1, Hcount2.
  assert (Hsame : Main.k_vals s1 = Main.k_vals s2).
  { apply dict_ext.
    - rewrite Hkeys1. apply fromkeys_nodup.
    - congruence.
    - intros k Hk. rewrite Hkeys1 in Hk.
      destruct (In_nth_error _ _ Hk) as [idx Hidx].
      rewrite (Hcount1 idx k Hidx), (Hcount2 idx k Hidx).
      f_equal. now apply hits_perm. }
  destruct (main_fields _ _ _ _ _ _ Hmain1)
    as (Hs1 & _ & Hk1 & Hc1 & Ht1 & _ & Hp1 & _).
  destruct (main_fields _ _ _ _ _ _ Hmain2)
    as (Hs2 & _ & Hk2 & Hc2 & Ht2 & _ & Hp2 & _).
  pose proof (for_rows_frames knn samples digits
                (Z.of_nat (List.length tests)) tests
                (Main.initial kv0 train tests)) as [_ Hte1].
  pose proof (for_rows_frames knn samples digits
                (Z.of_nat (List.length tests')) tests'
                (Main.initial kv0 train tests')) as [_ Hte2].
  cbn [Main.initial Main.df_test_sample] in Hs1, Hs2, Hte1, Hte2.
  unfold kv0 in Hte1, Hte2.
  rewrite Hs1 in Hte1. rewrite Hs2 in Hte2.
  rewrite Hte1 in Ht1. rewrite Hte2 in Ht2.
  rewrite Hsame in Hk1, Hc1.
  assert (Htotal : Main.total rep1 = Main.total rep2)
    by (rewrite Ht1, Ht2; now rewrite (Permutation_length Hperm)).
  assert (Hchosen : Main.chosen_k rep1 = Main.chosen_k rep2) by congruence.
  rewrite Hchosen in Hc1.
  assert (Hcorrect : Main.correct rep1 = Main.correct rep2) by congruence.
  rewrite Hcorrect, Htotal in Hp1.
  exists s1, s2, rep1, rep2.
  repeat split; try assumption; congruence.
Qed.

(** The theorem on the six training points and the test rows a, b, c in
    two orders. *)
Lemma main_order_of_rows_witness :
  exists (s1 s2 : Main.store) (rep1 rep2 : Main.report),
    Main.main (KNN.knn Scenario.training) false true
      (Scenario.start [Scenario.row_a; Scenario.row_b; Scenario.row_c])
    = (s1, Ok rep1) /\
    Main.main (KNN.knn Scenario.training) false true
      (Scenario.start [Scenario.row_c; Scenario.row_a; Scenario.row_b])
    = (s2, Ok rep2) /\
    Main.k_vals s1 = Main.k_vals s2 /\
    Main.chosen_k rep1 = Main.chosen_k rep2.
Proof.
  destruct (main_order_of_rows (KNN.knn Scenario.training) false true
              [1; 3] (Scenario.frame Scenario.training)
              [Scenario.row_a; Scenario.row_b; Scenario.row_c]
              [Scenario.row_c; Scenario.row_a; Scenario.row_b]
              (knn_reads_keys Scenario.training)
              (knn_one_per_key Scenario.training))
    as (s1 & s2 & rep1 & rep2 & H1 & H2 & Hkv & Hk & _).
  - discriminate.
  - vm_compute. reflexivity.
  - intros row [<-|[<-|[<-|[]]]]; eexists; vm_compute; reflexivity.
  - discriminate.
  - apply Permutation_sym.
    change [Scenario.row_a; Scenario.row_b; Scenario.row_c]
      with ([Scenario.row_a; Scenario.row_b] ++ [Scenario.row_c]).
    apply Permutation_cons_append.
  - exists s1, s2, rep1, rep2. auto.
Defined.

(** X14: counters add up over test sets: the counter of every k after a
    run over two lists of rows, one after the other, is the sum of its
    counters after a run over each list alone (the rows together fitting
    the plots, when samples are shown, and the numbers of rows being
    such as [float] can hold, when they are not). *)
Theorem counters_add_over_test_sets
  (knn : list Z -> PyDict.dict -> result (list Z)) (samples digits : bool)
  (kvals : list Z) (n1 n2 n : Z) (train test t1 t2 : list Main.test_row) :
  (forall q d d', PyDict.keys d = PyDict.keys d' -> knn q d = knn q d') ->
  (forall q d ps, knn q d = Ok ps ->
                  List.length ps = List.length (PyDict.keys d)) ->
  let kv0 := Main.parse_k_vals digits kvals in
  let s0 := Main.initial kv0 train test in
  (forall row, In row (t1 ++ t2) ->
               exists ps, knn (Main.pixels row) kv0 = Ok ps) ->
  (samples = true -> Main.plottable digits (t1 ++ t2)) ->
  (samples = false ->
   Z.abs n1 < Main.float_limit /\ Z.abs n2 < Main.float_limit /\
   Z.abs n < Main.float_limit) ->
  exists s1 s2 s : Main.store,
    Main.for_rows knn samples digits n1 t1 s0 = (s1, Ok tt) /\
    Main.for_rows knn samples digits n2 t2 s0 = (s2, Ok tt) /\
    Main.for_rows knn samples digits n (t1 ++ t2) s0 = (s, Ok tt) /\
    forall k, In k (PyDict.keys kv0) ->
              exists c1 c2,
                PyDict.get (Main.k_vals s1) k = Some c1 /\
                PyDict.get (Main.k_vals s2) k = Some c2 /\
                PyDict.get (Main.k_vals s) k = Some (c1 + c2).
Proof.
  intros Hkeys Hlen kv0 s0 Hok Hplot Hfloat.
  assert (Hne : PyDict.keys kv0 <> []) by apply parse_k_vals_nonempty.
  assert (Hnd : NoDup (PyDict.keys kv0)) by apply fromkeys_nodup.
  assert (Hzero : forall k, In k (PyDict.keys kv0) ->
                            PyDict.get kv0 k = Some 0).
  { intros k Hk. destruct (get_in_keys kv0 k Hk) as [c Hc].
    now rewrite Hc, (fromkeys_values _ 0 k c Hc). }
  assert (Hfits : forall rows,
             (samples = true -> Main.plottable digits rows) ->
             samples = true ->
             0 <= Main.counter s0 /\
             Main.counter s0 + Z.of_nat (List.length rows) <= 4 /\
             Forall (Main.sized digits) rows).
  { intros rows Hrows Hs. destruct (Hrows Hs) as [Hfour Hsized].
    cbn [s0 Main.initial Main.counter].
    split; [lia|]. split; [lia|exact Hsized]. }
  destruct (for_rows_run knn samples digits n1 Hkeys Hlen
              (fun Hs => proj1 (Hfloat Hs)) kv0 Hnd Hne t1 s0 eq_refl)
    as (s1 & Hrun1 & _ & _ & Hget1 & _).
  { intros row Hrow; apply Hok, in_or_app; now left. }
  { apply Hfits. intros Hs.
    apply (proj1 (plottable_app digits t1 t2 (Hplot Hs))). }
  destruct (for_rows_run knn samples digits n2 Hkeys Hlen
              (fun Hs => proj1 (proj2 (Hfloat Hs))) kv0 Hnd Hne t2 s0
              eq_refl)
    as (s2 & Hrun2 & _ & _ & Hget2 & _).
  { intros row Hrow; apply Hok, in_or_app; now right. }
  { apply Hfits. intros Hs.
    apply (proj2 (plottable_app digits t1 t2 (Hplot Hs))). }
  destruct (for_rows_run knn samples digits n Hkeys Hlen
              (fun Hs => proj2 (proj2 (Hfloat Hs))) kv0 Hnd Hne
              (t1 ++ t2) s0 eq_refl Hok (Hfits _ Hplot))
    as (s & Hrun & _ & _ & Hget & _).
  exists s1, s2, s.
  split; [exact Hrun1|]. split; [exact Hrun2|]. split; [exact Hrun|].
  intros k Hk. destruct (In_nth_error _ _ Hk) as [idx Hidx].
  exists (Main.hits knn kv0 idx t1), (Main.hits knn kv0 idx t2).
  rewrite (Hget1 idx k 0 Hidx (Hzero k Hk)).
  rewrite (Hget2 idx k 0 Hidx (Hzero k Hk)).
  rewrite (Hget idx k 0 Hidx (Hzero k Hk)), hits_app.
  repeat split.
Qed.

(** The theorem on the six training points, the rows a and b followed by
    the row c. *)
Lemma counters_add_over_test_sets_witness :
  exists (s1 s2 s : Main.store),
    fst (Main.for_rows (KNN.knn Scenario.training) false true 2
           [Scenario.row_a; Scenario.row_b] (Scenario.start [])) = s1 /\
    fst (Main.for_rows (KNN.knn Scenario.training) false true 1
           [Scenario.row_c] (Scenario.start [])) = s2 /\
    fst (Main.for_rows (KNN.knn Scenario.training) false true 3
           [Scenario.row_a; Scenario.row_b; Scenario.row_c]
           (Scenario.start [])) = s /\
    Main.k_vals s1 = [(3, 1); (1, 2)] /\
    Main.k_vals s2 = [(3, 1); (1, 0)] /\
    Main.k_vals s = [(3, 2); (1, 2)].
Proof.
  destruct (counters_add_over_test_sets (KNN.knn Scenario.training) false
              true [1; 3] 2 1 3 (Scenario.frame Scenario.training) []
              [Scenario.row_a; Scenario.row_b] [Scenario.row_c]
              (knn_reads_keys Scenario.training)
              (knn_one_per_key Scenario.training))
    as (s1 & s2 & s & H1 & H2 & H12 & _).
  - intros row [<-|[<-|[<-|[]]]]; eexists; vm_compute; reflexivity.
  - discriminate.
  - intros _. repeat split; vm_compute; reflexivity.
  - exists s1, s2, s. unfold Scenario.start, Scenario.k_vals_31.
    cbn [app] in H12. rewrite H1, H2, H12. cbn [fst].
    vm_compute in H1, H2, H12.
    injection H1 as <-. injection H2 as <-. injection H12 as <-.
    repeat split.
Defined.

Section ShortAnswer.
Import PyDict Main.

(** Fewer predictions than keys: the keys that have one are scored, then
    the index runs out of the list. *)
Lemma score_short (predictions : list Z) (actual : Z) :
  forall (ks : list Z) (idx : nat) (s : store),
    (forall k, In k ks -> In k (keys (k_vals s))) ->
    (idx <= List.length predictions < idx + List.length ks)%nat ->
    let ws := scored predictions actual idx
                (firstn (List.length predictions - idx) ks) in
    score predictions actual idx ks s =
    (put_k_vals (fold_left bump ws (k_vals s)) (writes s ++ ws) s,
     Raise IndexError).
Proof.
  induction ks as [|k ks IH]; intros idx s Hin Hlen; [simpl in Hlen; lia|].
  cbn [score]. simpl in Hlen.
  destruct (nth_error predictions idx) as [p|] eqn:Hp.
  - assert (Hidx : (idx < List.length predictions)%nat)
      by (apply nth_error_Some; congruence).
    replace (List.length predictions - idx)%nat
      with (S (List.length predictions - S idx)) by lia.
    cbn [firstn scored]. unfold hit. rewrite Hp.
    rewrite (bind_ok _ _ s s p) by (unfold lift, index; now rewrite Hp).
    destruct (p =? actual).
    + destruct (get_in_keys (k_vals s) k (Hin k (or_introl eq_refl)))
        as [v Hv].
      erewrite bind_ok by (apply increment_run; exact Hv).
      rewrite IH.
      * unfold put_k_vals.
        cbn [k_vals writes counter print_counter figure df_train_sample
             df_test_sample app fold_left].
        replace (bump (k_vals s) k) with (set (k_vals s) k (v + 1))
          by (unfold bump; now rewrite Hv).
        now rewrite <- app_assoc.
      * cbn [k_vals put_k_vals]. intros k' Hk'. rewrite keys_set_present.
        -- apply Hin. now right.
        -- apply Hin. now left.
      * lia.
    + rewrite (bind_ok _ _ s s tt) by reflexivity. rewrite IH.
      * reflexivity.
      * intros k' Hk'. apply Hin. now right.
      * lia.
  - assert (Hidx : (List.length predictions <= idx)%nat)
      by (now apply nth_error_None).
    replace (List.length predictions - idx)%nat with 0%nat by lia.
    rewrite (bind_raise _ _ s s IndexError)
      by (unfold lift, index; now rewrite Hp).
    destruct s. unfold put_k_vals. simpl. now rewrite app_nil_r.
Qed.

Lemma nodup_firstn {A} (m : nat) (l : list A) :
  NoDup l -> NoDup (firstn m l).
Proof.
  intros Hnd. rewrite <- (firstn_skipn m l) in Hnd.
  now apply NoDup_app_remove_r in Hnd.
Qed.
End ShortAnswer.

(** X15: when the classifier answers a row with fewer predictions than
    there are k values, the row fails with [IndexError] - but only after
    the counters of the k values that did get a prediction have been
    updated for that row: the error leaves the counters half updated. *)
Theorem short_answer_index_error
  (knn : list Z -> PyDict.dict -> result (list Z)) (samples digits : bool)
  (n : Z) (row : Main.test_row) (s : Main.store) (ps : list Z) :
  NoDup (PyDict.keys (Main.k_vals s)) ->
  knn (Main.pixels row) (Main.k_vals s) = Ok ps ->
  (List.length ps < List.length (PyDict.keys (Main.k_vals s)))%nat ->
  exists s' : Main.store,
    Main.test_step knn samples digits n row s = (s', Raise IndexError) /\
    Main.counter s' = Main.counter s /\
    PyDict.keys (Main.k_vals s') = PyDict.keys (Main.k_vals s) /\
    forall idx k c,
      nth_error (PyDict.keys (Main.k_vals s)) idx = Some k ->
      PyDict.get (Main.k_vals s) k = Some c ->
      PyDict.get (Main.k_vals s') k =
      Some (if (idx <? List.length ps)%nat
            then c + (if Main.hit ps (Main.label row) idx then 1 else 0)
            else c).
Proof.
  intros Hnd Hknn Hshort.
  set (ks := PyDict.keys (Main.k_vals s)) in *.
  set (ws := Main.scored ps (Main.label row) 0
               (firstn (List.length ps - 0) ks)).
  exists (Main.put_k_vals (fold_left Main.bump ws (Main.k_vals s))
            (Main.writes s ++ ws) s).
  split; [|split; [reflexivity|split; [apply keys_bump_all|]]].
  - unfold Main.test_step, Main.loop_body.
    rewrite (bind_ok _ _ s s (Main.k_vals s)) by reflexivity.
    rewrite (bind_ok _ _ s s ps)
      by (unfold Main.method, Main.lift; now rewrite Hknn).
    rewrite (bind_ok _ _ s s (Main.k_vals s)) by reflexivity.
    apply bind_raise. fold ks.
    apply (score_short ps (Main.label row) ks 0 s); [auto|lia].
  - intros idx k c Hk Hget. cbn [Main.k_vals Main.put_k_vals].
    rewrite (get_bump_all ws _ k c Hget). f_equal.
    unfold ws. rewrite Nat.sub_0_r.
    destruct (Nat.ltb_spec idx (List.length ps)) as [Hlt|Hge].
    + rewrite (times_scored ps (Main.label row) (firstn (List.length ps) ks)
                 0 idx k); [reflexivity|now apply nodup_firstn|].
      rewrite nth_error_firstn.
      destruct (Nat.ltb_spec idx (List.length ps)); [exact Hk|lia].
    + rewrite times_scored_absent; [lia|].
      intros Hin. destruct (In_nth_error _ _ Hin) as [j Hj].
      rewrite nth_error_firstn in Hj.
      destruct (Nat.ltb_spec j (List.length ps)) as [Hj'|]; [|discriminate].
      assert (j = idx); [|lia].
      apply (proj1 (NoDup_nth_error ks) Hnd j idx);
        [apply nth_error_Some; congruence|congruence].
Qed.

(** The theorem with an answer of one prediction for the k values 3 and
    1, on a row it gets right: the counter of k = 3 moves, then the row
    fails. *)
Lemma short_answer_index_error_witness :
  exists s' : Main.store,
    Main.test_step (fun _ _ => Ok [0]) false true 1 Scenario.row_a
      (Scenario.start [Scenario.row_a]) = (s', Raise IndexError) /\
    Main.k_vals s' = [(3, 1); (1, 0)].
Proof.
  destruct (short_answer_index_error (fun _ _ => Ok [0]) false true 1
              Scenario.row_a (Scenario.start [Scenario.row_a]) [0])
    as (s' & Hstep & _).
  - vm_compute. repeat constructor; simpl; intuition discriminate.
  - reflexivity.
  - simpl. lia.
  - exists s'. split; [exact Hstep|].
    vm_compute in Hstep. injection Hstep as <-. reflexivity.
Defined.

Section ProgressFacts.
Import PyDict Main.

Variable knn : list Z -> dict -> result (list Z).
Variable samples digits : bool.
Variable n : Z.

(** Two stores with the same progress variables. *)
Local Abbreviation same_progress s s' :=
  (counter s' = counter s /\ print_counter s' = print_counter s).

Lemma increment_progress (k : Z) (s : store) :
  same_progress s (fst (increment k s)).
Proof.
  unfold increment, bind, read_k_vals, lift, getitem, setitem.
  destruct (get (k_vals s) k); split; reflexivity.
Qed.

Lemma score_progress (predictions : list Z) (actual : Z) :
  forall (ks : list Z) (idx : nat) (s : store),
    same_progress s (fst (score predictions actual idx ks s)).
Proof.
  induction ks as [|k ks IH]; intros idx s; [split; reflexivity|].
  cbn [score].
  destruct (index predictions idx) as [p|e] eqn:Hp.
  - rewrite (bind_ok _ _ s s p) by reflexivity.
    destruct (p =? actual).
    + pose proof (increment_progress k s) as [Hc Hpc].
      destruct (increment k s) as [s1 [[]|e]] eqn:Hinc; cbn [fst] in Hc, Hpc.
      * rewrite (bind_ok _ _ _ _ _ Hinc).
        destruct (IH (S idx) s1) as [Hc' Hpc']. split; congruence.
      * rewrite (bind_raise _ _ _ _ _ Hinc). split; assumption.
    + rewrite (bind_ok _ _ s s tt) by reflexivity. apply IH.
  - rewrite (bind_raise _ _ s s e) by reflexivity.
    split; reflexivity.
Qed.

Lemma progress_step (s : store) :
  0 <= print_counter s <= 4 ->
  let s' := fst (progress n s) in
  counter s' = counter s /\
  print_counter s <= print_counter s' <= print_counter s + 1 /\
  print_counter s' <= 4.
Proof.
  intros Hpc. unfold progress.
  destruct (float_of_int n) as [rows|e]; [|cbn [fst]; lia].
  cbn [fst counter print_counter put_print_counter].
  split; [reflexivity|].
  repeat match goal with
         | |- context [if ?b && (print_counter s =? ?v) then _ else _] =>
             destruct (Z.eqb_spec (print_counter s) v);
             [destruct b; cbn [andb]|rewrite andb_false_r]
         end; lia.
Qed.

Lemma test_step_progress (row : test_row) (s : store) :
  0 <= print_counter s <= 4 ->
  let s' := fst (test_step knn samples digits n row s) in
  counter s <= counter s' <= counter s + 1 /\
  print_counter s <= print_counter s' /\
  print_counter s' - print_counter s <= counter s' - counter s /\
  print_counter s' <= 4 /\
  (samples = true -> print_counter s' = print_counter s).
Proof.
  intros Hpc. unfold test_step, loop_body.
  rewrite (bind_ok _ _ s s (k_vals s)) by reflexivity.
  destruct (knn (pixels row) (k_vals s)) as [ps|e] eqn:Hknn.
  2:{ rewrite (bind_raise _ _ s s e)
        by (unfold method, lift; now rewrite Hknn).
      cbn [fst]. repeat split; lia. }
  rewrite (bind_ok _ _ s s ps) by (unfold method, lift; now rewrite Hknn).
  rewrite (bind_ok _ _ s s (k_vals s)) by reflexivity.
  pose proof (score_progress ps (label row) (keys (k_vals s)) 0 s)
    as [Hc Hp].
  destruct (score ps (label row) 0 (keys (k_vals s)) s)
    as [s1 [[]|e]] eqn:Hscore; cbn [fst] in Hc, Hp.
  2:{ rewrite (bind_raise _ _ _ _ _ Hscore). cbn [fst].
      repeat split; lia. }
  rewrite (bind_ok _ _ _ _ _ Hscore).
  destruct samples.
  - unfold bind, lift, read_counter, subplot, reshape, imshow, next_row.
    destruct (index_last ps) as [guess|e];
      [|cbn [fst]; repeat split; lia].
    destruct ((1 <=? counter s1 + 1) && (counter s1 + 1 <=? 4));
      [|cbn [fst]; repeat split; lia].
    cbn [pixels put_figure].
    destruct (Z.of_nat (List.length (pixels row))
              =? height digits * width digits); cbn; repeat split; lia.
  - assert (Hpc1 : 0 <= print_counter s1 <= 4) by lia.
    pose proof (progress_step s1 Hpc1) as Hstep. cbv zeta in Hstep.
    unfold bind, next_row.
    destruct (progress n s1) as [s2 [[]|e]] eqn:Hprog; cbn [fst] in Hstep.
    + cbn [fst counter print_counter put_counter].
      split; [lia|]. split; [lia|]. split; [lia|]. split; [lia|].
      discriminate.
    + assert (s2 = s1) as ->.
      { unfold progress in Hprog.
        destruct (float_of_int n); now injection Hprog. }
      cbn [fst].
      split; [lia|]. split; [lia|]. split; [lia|]. split; [lia|].
      discriminate.
Qed.

Lemma for_rows_progress :
  forall (rows : list test_row) (s : store),
    0 <= print_counter s <= 4 ->
    let s' := fst (for_rows knn samples digits n rows s) in
    counter s <= counter s' <= counter s + Z.of_nat (List.length rows) /\
    print_counter s <= print_counter s' <= 4 /\
    print_counter s' - print_counter s <= counter s' - counter s /\
    (samples = true -> print_counter s' = print_counter s).
Proof.
  induction rows as [|row rows IH]; intros s Hpc.
  - cbn. repeat split; lia.
  - cbn [for_rows]. pose proof (test_step_progress row s Hpc) as Hstep.
    cbv zeta in Hstep.
    destruct (test_step knn samples digits n row s) as [s1 [[]|e]] eqn:Hrow;
      cbn [fst] in Hstep.
    + rewrite (bind_ok _ _ _ _ _ Hrow).
      assert (Hpc1 : 0 <= print_counter s1 <= 4) by lia.
      specialize (IH s1 Hpc1). cbv zeta in IH.
      cbn [List.length]. repeat split; try lia.
      intros Hs. destruct Hstep as (_ & _ & _ & _ & H1).
      destruct IH as (_ & _ & _ & H2). rewrite (H2 Hs). now apply H1.
    + rewrite (bind_raise _ _ _ _ _ Hrow). cbn [fst].
      cbn [List.length]. repeat split; try lia. apply Hstep.
Qed.
End ProgressFacts.

(** X16: however the loop ends, with its last row or with an error, at
    most four progress messages have been printed, never more than rows
    have been counted, and no more rows have been counted than there are;
    when samples are shown no progress message is printed at all. *)
Theorem progress_messages_bounded
  (knn : list Z -> PyDict.dict -> result (list Z)) (samples digits : bool)
  (n : Z) (tests train test : list Main.test_row) (kv : PyDict.dict) :
  let s' := fst (Main.for_rows knn samples digits n tests
                   (Main.initial kv train test)) in
  0 <= Main.print_counter s' <= 4 /\
  Main.print_counter s' <= Main.counter s' /\
  0 <= Main.counter s' <= Z.of_nat (List.length tests) /\
  (samples = true -> Main.print_counter s' = 0).
Proof.
  pose proof (for_rows_progress knn samples digits n tests
                (Main.initial kv train test)) as H.
  cbn [Main.initial Main.print_counter Main.counter] in H.
  intros s'. fold s' in H.
  destruct H as (Hc & Hp & Hd & Hs); [lia|].
  repeat split; try lia. exact Hs.
Qed.
